(** * LabMate AI assistant: the request handlers, the keyword chatbot
      and the ChemLLM wrapper

    A shallow embedding of [fluid_calculate] and of the session,
    experiment, chat and ChemLLM handlers (src/routes.py), of
    [LabMateChatbot] (src/chatbot.py) and of [ChemLLMIntegration]
    (src/chemllm_integration.py), together with the Python builtins
    they rely on.

    Conventions.
    - Python values that cross the JSON boundary are terms of [pyval].
    - A Python [str] is a [string] whose characters are code points
      below 256.
    - A Python [float] is a [pyfloat]: an exact rational for a finite
      value, or one of the three non-finite values.  Rounding of finite
      values to binary64 is not represented; overflow to an infinity
      (strings) or to [OverflowError] (integers) is.
    - A computation that can raise returns [result A = exn + A]; a
      computation that also touches the session, the database or the
      clock is a function [world -> result A * world].
    - The database itself does not fail: [add] and [commit] always
      succeed.
    - [fluid_mechanics.process_experiment_data] is not among the
      sources: the handler is parameterised by it, and a model of it
      written from the specification is given separately.  The same
      holds for [enhanced_chatbot] and for the tokenizer and the model
      behind [ChemLLMIntegration]: the code that calls them is
      parameterised by them. *)

From Stdlib Require Import ZArith QArith Qround List String Ascii Bool Lia.
From Stdlib Require Import DecimalString.
Import ListNotations.

Local Open Scope string_scope.
Local Open Scope Z_scope.
Local Set Warnings "-register-all".

(** ** Python values and builtins *)

Module Py.

Inductive exn_class : Type :=
| ValueError
| TypeError
| IndexError
| KeyError
| OverflowError
| AttributeError
| UserError (name : string).

(** A raised exception: its class, and the text [str(e)] yields. *)
Record exn : Type := Raise { exn_cls : exn_class; exn_str : string }.

Definition result (A : Type) : Type := (exn + A)%type.

Definition ok {A} (a : A) : result A := inr a.
Definition raise {A} (c : exn_class) (m : string) : result A :=
  inl (Raise c m).

Definition rbind {A B} (r : result A) (k : A -> result B) : result B :=
  match r with
  | inl e => inl e
  | inr a => k a
  end.

Declare Scope result_scope.
Delimit Scope result_scope with result.
Notation "'let?' x ':=' r 'in' k" :=
  (rbind r (fun x => k))
  (at level 10, x pattern, r at level 100, k at level 200)
  : result_scope.

Inductive pyfloat : Type :=
| Fin (q : Q)
| PosInf
| NegInf
| NaN.

Definition is_finite (f : pyfloat) : bool :=
  match f with
  | Fin _ => true
  | _ => false
  end.

Inductive pyval : Type :=
| PNone
| PBool (b : bool)
| PInt (z : Z)
| PFloat (f : pyfloat)
| PStr (s : string)
| PList (l : list pyval)
| PDict (d : list (string * pyval)).

Definition type_name (v : pyval) : string :=
  match v with
  | PNone => "NoneType"
  | PBool _ => "bool"
  | PInt _ => "int"
  | PFloat _ => "float"
  | PStr _ => "str"
  | PList _ => "list"
  | PDict _ => "dict"
  end.

(** *** Strings *)

Fixpoint chars (s : string) : list ascii :=
  match s with
  | EmptyString => []
  | String c r => c :: chars r
  end.

Fixpoint of_chars (l : list ascii) : string :=
  match l with
  | [] => EmptyString
  | c :: r => String c (of_chars r)
  end.

Definition code (c : ascii) : N := N_of_ascii c.

Definition in_range (lo hi : N) (c : ascii) : bool :=
  (N.leb lo (code c) && N.leb (code c) hi)%bool.

(** [str.lower] on code points below 256: A-Z and the Latin-1 capitals
    (except the multiplication sign) move up by 32. *)
Definition lower_char (c : ascii) : ascii :=
  if (in_range 65 90 c
      || (in_range 192 222 c && negb (N.eqb (code c) 215)))%bool
  then ascii_of_N (code c + 32)
  else c.

Definition lower (s : string) : string :=
  of_chars (map lower_char (chars s)).

(** [needle in haystack] for two strings. *)
Fixpoint contains (haystack needle : string) : bool :=
  (prefix needle haystack
   || match haystack with
      | EmptyString => false
      | String _ rest => contains rest needle
      end)%bool.

(** *** Truth value, [len], iteration, subscripting *)

Definition fzero (f : pyfloat) : bool :=
  match f with
  | Fin q => Qeq_bool q 0
  | _ => false
  end.

Definition truthy (v : pyval) : bool :=
  match v with
  | PNone => false
  | PBool b => b
  | PInt z => negb (Z.eqb z 0)
  | PFloat f => negb (fzero f)
  | PStr s => negb (Nat.eqb (String.length s) 0)
  | PList l => negb (Nat.eqb (List.length l) 0)
  | PDict d => negb (Nat.eqb (List.length d) 0)
  end.

Definition py_len (v : pyval) : result nat :=
  match v with
  | PStr s => ok (String.length s)
  | PList l => ok (List.length l)
  | PDict d => ok (List.length d)
  | _ => raise TypeError
           ("object of type '" ++ type_name v ++ "' has no len()")
  end.

(** The items a [for] loop (or [tuple(...)]) draws from a value: the
    elements of a list, the one-character strings of a string, the keys
    of a dict. *)
Definition py_iter (v : pyval) : result (list pyval) :=
  match v with
  | PStr s => ok (map (fun c => PStr (String c EmptyString)) (chars s))
  | PList l => ok l
  | PDict d => ok (map (fun kv => PStr (fst kv)) d)
  | _ => raise TypeError
           ("'" ++ type_name v ++ "' object is not iterable")
  end.

Definition nat_str (n : nat) : string :=
  NilEmpty.string_of_uint (Nat.to_uint n).

(** [v[i]] for a literal index [i >= 0].  A dict that came out of JSON
    has string keys only, so an integer key is never found. *)
Definition py_index (v : pyval) (i : nat) : result pyval :=
  match v with
  | PList l =>
      match nth_error l i with
      | Some x => ok x
      | None => raise IndexError "list index out of range"
      end
  | PStr s =>
      match String.get i s with
      | Some c => ok (PStr (String c EmptyString))
      | None => raise IndexError "string index out of range"
      end
  | PDict _ => raise KeyError (nat_str i)
  | _ => raise TypeError
           ("'" ++ type_name v ++ "' object is not subscriptable")
  end.

Fixpoint assoc (k : string) (d : list (string * pyval)) : option pyval :=
  match d with
  | [] => None
  | (k', v) :: r => if String.eqb k k' then Some v else assoc k r
  end.

(** [v[k]] for a string key [k]. *)
Definition py_item (v : pyval) (k : string) : result pyval :=
  match v with
  | PDict d =>
      match assoc k d with
      | Some x => ok x
      | None => raise KeyError ("'" ++ k ++ "'")
      end
  | PStr _ => raise TypeError "string indices must be integers"
  | PList _ => raise TypeError "list indices must be integers or slices, not str"
  | _ => raise TypeError
           ("'" ++ type_name v ++ "' object is not subscriptable")
  end.

(** [v.get(k, default)]: only a dict has the method. *)
Definition py_get (v : pyval) (k : string) (default : pyval)
  : result pyval :=
  match v with
  | PDict d =>
      match assoc k d with
      | Some x => ok x
      | None => ok default
      end
  | _ => raise AttributeError
           ("'" ++ type_name v ++ "' object has no attribute 'get'")
  end.

(** *** [float(...)] *)

Definition is_space (c : ascii) : bool :=
  (in_range 9 13 c || N.eqb (code c) 32
   || N.eqb (code c) 133 || N.eqb (code c) 160)%bool.

Definition is_digit (c : ascii) : bool := in_range 48 57 c.

Definition is_underscore (c : ascii) : bool := N.eqb (code c) 95.

Definition digit_val (c : ascii) : Z := Z.of_N (code c) - 48.

(** An underscore is legal only between two digits. *)
Fixpoint underscores_ok (prev : option ascii) (l : list ascii) : bool :=
  match l with
  | [] =>
      match prev with
      | Some p => negb (is_underscore p)
      | None => true
      end
  | c :: r =>
      let here :=
        match prev with
        | Some p =>
            if is_underscore c then is_digit p
            else (negb (is_underscore p) || is_digit c)%bool
        | None => negb (is_underscore c)
        end in
      (here && underscores_ok (Some c) r)%bool
  end.

Fixpoint lstrip (l : list ascii) : list ascii :=
  match l with
  | c :: r => if is_space c then lstrip r else l
  | [] => []
  end.

Definition strip (l : list ascii) : list ascii :=
  rev (lstrip (rev (lstrip l))).

Fixpoint take_digits (l : list ascii) : list ascii * list ascii :=
  match l with
  | c :: r =>
      if is_digit c
      then let (d, rest) := take_digits r in (c :: d, rest)
      else ([], l)
  | [] => ([], [])
  end.

Definition digits_val (l : list ascii) : Z :=
  fold_left (fun acc c => 10 * acc + digit_val c) l 0.

(** An optional sign: [true] for a minus. *)
Definition take_sign (l : list ascii) : bool * list ascii :=
  match l with
  | c :: r =>
      if N.eqb (code c) 45 then (true, r)
      else if N.eqb (code c) 43 then (false, r)
      else (false, l)
  | [] => (false, [])
  end.

Definition is_nil {A} (l : list A) : bool :=
  match l with
  | [] => true
  | _ => false
  end.

(** digits [. digits] [(e|E) [sign] digits], at least one digit in the
    mantissa, nothing after. *)
Definition parse_decimal (l : list ascii) : option Q :=
  let (ip, r1) := take_digits l in
  let (fp, r2) :=
    match r1 with
    | c :: r => if N.eqb (code c) 46 then take_digits r else ([], r1)
    | [] => ([], r1)
    end in
  if (is_nil ip && is_nil fp)%bool then None
  else
    let mant := inject_Z (digits_val (ip ++ fp)) in
    let scale := Z.of_nat (List.length fp) in
    match r2 with
    | [] => Some (mant * Qpower 10 (- scale))%Q
    | c :: r3 =>
        if (N.eqb (code c) 101 || N.eqb (code c) 69)%bool then
          let (neg, r4) := take_sign r3 in
          let (ed, r5) := take_digits r4 in
          if (is_nil ed || negb (is_nil r5))%bool then None
          else
            let e := if neg then - digits_val ed else digits_val ed in
            Some (mant * Qpower 10 (e - scale))%Q
        else None
    end.

(** The least magnitude that no longer rounds to a finite binary64. *)
Definition overflow_bound : Z := 2 ^ 1024 - 2 ^ 970.

Definition round_overflow (q : Q) : pyfloat :=
  if Qle_bool (inject_Z overflow_bound) q then PosInf
  else if Qle_bool q (inject_Z (- overflow_bound)) then NegInf
  else Fin (Qred q).

Definition float_of_str (s : string) : option pyfloat :=
  let raw := chars s in
  if negb (underscores_ok None raw) then None
  else
    let l := strip (filter (fun c => negb (is_underscore c)) raw) in
    let (neg, body) := take_sign l in
    let word := of_chars (map lower_char body) in
    if (String.eqb word "inf" || String.eqb word "infinity")%bool
    then Some (if neg then NegInf else PosInf)
    else if String.eqb word "nan" then Some NaN
    else
      match parse_decimal body with
      | Some q => Some (round_overflow (if neg then - q else q)%Q)
      | None => None
      end.

Definition float_of_int (z : Z) : result pyfloat :=
  if Z.leb overflow_bound (Z.abs z)
  then raise OverflowError "int too large to convert to float"
  else ok (Fin (inject_Z z)).

(** [float(v)].  The text of the [ValueError] quotes the string the way
    [repr] does for printable characters other than quotes and
    backslashes. *)
Definition py_float (v : pyval) : result pyfloat :=
  match v with
  | PBool b => ok (Fin (if b then 1 else 0)%Q)
  | PInt z => float_of_int z
  | PFloat f => ok f
  | PStr s =>
      match float_of_str s with
      | Some f => ok f
      | None => raise ValueError
                  ("could not convert string to float: '" ++ s ++ "'")
      end
  | _ => raise TypeError
           ("float() argument must be a string or a real number, not '"
            ++ type_name v ++ "'")
  end.

End Py.

(** ** The request handler of src/routes.py *)

Module Routes.
Import Py.

Local Open Scope result_scope.

(** *** The database, the session and the clock *)

Record ActivityLog : Type := {
  al_user_id : pyval;
  al_action_type : string;
  al_description : string
}.

Record Calculation : Type := {
  user_id : pyval;
  reagent : string;
  formula : string;
  molarity : Z;
  volume : Z;
  mass_needed : pyval
}.

Inductive row : Type :=
| ActivityRow (a : ActivityLog)
| CalculationRow (c : Calculation).

Definition readings : Type := list (pyfloat * pyfloat).

(** The arguments of one call of [process_experiment_data]. *)
Record pipeline_call : Type := {
  arg_orifice : readings;
  arg_pitot : readings;
  arg_graph_params : list pyval;
  arg_constants : pyval
}.

(** [session] is Flask's session dict; [pending] holds the rows given
    to [db.session.add] and not yet committed, [committed] the rows in
    the database; [clock] is the wall clock.  [calls] is a ghost field:
    it records every call of [process_experiment_data], in order. *)
Record world : Type := {
  session : list (string * pyval);
  pending : list row;
  committed : list row;
  clock : Z;
  calls : list pipeline_call
}.

Definition M (A : Type) : Type := world -> result A * world.

Definition ret {A} (a : A) : M A := fun w => (ok a, w).

Definition lift {A} (r : result A) : M A := fun w => (r, w).

Definition bind {A B} (m : M A) (k : A -> M B) : M B :=
  fun w =>
    match m w with
    | (inl e, w') => (inl e, w')
    | (inr a, w') => k a w'
    end.

Declare Scope world_scope.
Delimit Scope world_scope with world.
Notation "x <- m ;; k" := (bind m (fun x => k))
  (at level 61, m at next level, right associativity) : world_scope.
Notation "m ;; k" := (bind m (fun _ => k))
  (at level 61, right associativity) : world_scope.

Local Open Scope world_scope.

Definition db_session_add (r : row) : M unit :=
  fun w =>
    (ok tt,
     {| session := session w; pending := pending w ++ [r];
        committed := committed w; clock := clock w; calls := calls w |}).

Definition db_session_commit : M unit :=
  fun w =>
    (ok tt,
     {| session := session w; pending := [];
        committed := committed w ++ pending w;
        clock := clock w; calls := calls w |}).

Definition session_item (k : string) : M pyval :=
  fun w =>
    (match assoc k (session w) with
     | Some v => ok v
     | None => raise KeyError ("'" ++ k ++ "'")
     end, w).

Definition logged_in (w : world) : bool :=
  match assoc "user_id" (session w) with
  | Some _ => true
  | None => false
  end.

Definition log_activity (uid : pyval) (action_type description : string)
  : M unit :=
  db_session_add
    (ActivityRow {| al_user_id := uid; al_action_type := action_type;
                    al_description := description |}) ;;
  db_session_commit.

(** *** Responses *)

Inductive response : Type :=
| Redirect (endpoint : string)
| Json (body : list (string * pyval)) (status : Z).

Definition error_response (msg : string) : response :=
  Json [("success", PBool false); ("error", PStr msg)] 400.

(** *** Conversion of the readings (the inner [try]) *)

(** [(float(r[0]), float(r[1]))], evaluated left to right. *)
Definition convert_reading (r : pyval) : result (pyfloat * pyfloat) :=
  let? a := py_index r 0 in
  let? x := py_float a in
  let? b := py_index r 1 in
  let? y := py_float b in
  ok (x, y).

Fixpoint convert_all (l : list pyval) : result readings :=
  match l with
  | [] => ok []
  | r :: rest =>
      let? p := convert_reading r in
      let? ps := convert_all rest in
      ok (p :: ps)
  end.

(** [[(float(r[0]), float(r[1])) for r in v]]. *)
Definition convert_readings (v : pyval) : result readings :=
  let? items := py_iter v in
  convert_all items.

(** The classes named by [except (ValueError, TypeError, IndexError)]. *)
Definition caught_by_conversion (c : exn_class) : bool :=
  match c with
  | ValueError | TypeError | IndexError => true
  | _ => false
  end.

(** *** [fluid_calculate] *)

Section Handler.

(** [fluid_mechanics.process_experiment_data]: its module is not part
    of the sources at hand.  It receives the converted readings, the
    label tuple and the constants override; the first argument is the
    clock it may read for the report's timestamp. *)
Variable process_experiment_data :
  Z -> readings -> readings -> list pyval -> pyval -> result pyval.

Definition call_process_experiment_data
    (o p : readings) (labels : list pyval) (constants : pyval) : M pyval :=
  fun w =>
    (process_experiment_data (clock w) o p labels constants,
     {| session := session w; pending := pending w;
        committed := committed w; clock := clock w;
        calls := calls w ++
                 [{| arg_orifice := o; arg_pitot := p;
                     arg_graph_params := labels;
                     arg_constants := constants |}] |}).

(** What follows the conversion of the readings: lines 128-159. *)
Definition process_and_store
    (orifice_readings pitot_readings : readings)
    (graph_params custom_constants : pyval) : M response :=
  labels <- lift (py_iter graph_params) ;;
  result <- call_process_experiment_data
              orifice_readings pitot_readings labels custom_constants ;;
  uid <- session_item "user_id" ;;
  log_activity uid "Fluid Calculation"
    ("Pitot Tube experiment with "
     ++ nat_str (List.length orifice_readings) ++ " readings") ;;
  uid' <- session_item "user_id" ;;
  mean_cv <- lift (py_item result "mean_cv") ;;
  db_session_add
    (CalculationRow
       {| user_id := uid'; reagent := "Pitot Tube Experiment";
          formula := "Cv = V0/Vp"; molarity := 0; volume := 0;
          mass_needed := mean_cv |}) ;;
  db_session_commit ;;
  r_results <- lift (py_item result "results") ;;
  r_mean_cv <- lift (py_item result "mean_cv") ;;
  r_model <- lift (py_item result "model_calculation") ;;
  r_graph <- lift (py_item result "graph_base64") ;;
  r_pdf <- lift (py_item result "pdf_base64") ;;
  ret (Json [("success", PBool true);
             ("results", r_results);
             ("mean_cv", r_mean_cv);
             ("model_calculation", r_model);
             ("graph_base64", r_graph);
             ("pdf_base64", r_pdf)] 200).

(** The body of the outer [try]: lines 106-159.  [request_json] is the
    outcome of [request.get_json()]. *)
Definition fluid_calculate_try (request_json : result pyval) : M response :=
  data <- lift request_json ;;
  orifice_readings <- lift (py_get data "orifice_readings" (PList [])) ;;
  pitot_readings <- lift (py_get data "pitot_readings" (PList [])) ;;
  graph_params <-
    lift (py_get data "graph_params" (PList [PStr "V0"; PStr "Vp"])) ;;
  custom_constants <- lift (py_get data "constants" PNone) ;;
  if (negb (truthy orifice_readings) || negb (truthy pitot_readings))%bool
  then ret (error_response "No readings provided")
  else
    n_orifice <- lift (py_len orifice_readings) ;;
    n_pitot <- lift (py_len pitot_readings) ;;
    if negb (Nat.eqb n_orifice n_pitot)
    then ret (error_response
                "Mismatched number of orifice and pitot readings")
    else
      match
        (let? o := convert_readings orifice_readings in
         let? p := convert_readings pitot_readings in
         ok (o, p))
      with
      | inl e =>
          if caught_by_conversion (exn_cls e)
          then ret (error_response
                      "Invalid reading format. All values must be numbers.")
          else lift (inl e)
      | inr (o, p) =>
          process_and_store o p graph_params custom_constants
      end.

(** The view function: the session gate, the [try], and the handler of
    the outer [except Exception]. *)
Definition fluid_calculate (request_json : result pyval) (w : world)
  : response * world :=
  if negb (logged_in w) then (Redirect "login", w)
  else
    match fluid_calculate_try request_json w with
    | (inr resp, w') => (resp, w')
    | (inl e, w') => (error_response (exn_str e), w')
    end.

End Handler.

End Routes.

(** ** The data-reduction pipeline, from its specification *)

Module FluidMechanics.
Import Py.

Local Open Scope result_scope.
Local Open Scope Q_scope.

(** Modelled from the spec: the data model of section 3
    (PhysicalConstants, CalibrationPoint, ModelFit) and the errors of
    section 7; the module [fluid_mechanics] that declares them is not
    among the sources.  Numbers are exact rationals. *)
Record PhysicalConstants : Type := {
  g : Q;
  rho : Q;
  Cd_orifice : Q;
  A_ratio : Q
}.

(** Modelled from the spec: CalibrationPoint of section 3 (code not
    among the sources). *)
Record CalibrationPoint : Type := { V0 : Q; Vp : Q; cv : Q }.

(** Modelled from the spec: ModelFit of section 3 (code not among the
    sources). *)
Record ModelFit : Type := {
  slope : Q;
  intercept : Q;
  r_squared : Q;
  equation_text : string
}.

(** Modelled from the spec: the outcome of the estimator of section
    4.3 (code not among the sources): the points that were kept, in
    input order, how many were excluded, and the mean coefficient. *)
Record Estimate : Type := {
  points : list CalibrationPoint;
  excluded_count : nat;
  mean_cv : Q
}.

(** Modelled from the spec: the error taxonomy of section 7 (code not
    among the sources). *)
Definition ValidationError : exn_class := UserError "ValidationError".

(** Modelled from the spec: InsufficientDataError of section 7 (code
    not among the sources). *)
Definition InsufficientDataError : exn_class :=
  UserError "InsufficientDataError".

(** Modelled from the spec: DegenerateFitError of section 7 (code not
    among the sources). *)
Definition DegenerateFitError : exn_class := UserError "DegenerateFitError".

(** Modelled from the spec: sums, counts and the arithmetic mean that
    sections 4.3 and 4.4 speak of (code not among the sources). *)
Definition qsum (l : list Q) : Q := fold_right Qplus 0 l.

(** Modelled from the spec: the number of samples of a mean (section
    4.3; code not among the sources). *)
Definition qcount {A} (l : list A) : Q := inject_Z (Z.of_nat (List.length l)).

(** Modelled from the spec: the arithmetic mean of a list of numbers
    (sections 4.3, 4.4; code not among the sources). *)
Definition qmean (l : list Q) : Q := qsum l / qcount l.

(** Modelled from the spec: the squares of section 4.4 (code not among
    the sources). *)
Definition sq (x : Q) : Q := x * x.

(** Modelled from the spec: a Reading has both components finite
    (section 3; code not among the sources). *)
Definition finite_pair (p : pyfloat * pyfloat) : option (Q * Q) :=
  match p with
  | (Fin a, Fin b) => Some (a, b)
  | _ => None
  end.

(** Modelled from the spec: every Reading of a sequence is finite
    (sections 3 and 4.1; code not among the sources). *)
Fixpoint finite_all (l : list (pyfloat * pyfloat)) : option (list (Q * Q)) :=
  match l with
  | [] => Some []
  | p :: rest =>
      match finite_pair p, finite_all rest with
      | Some q, Some qs => Some (q :: qs)
      | _, _ => None
      end
  end.

(** Modelled from the spec: the Reading Validator of section 4.1 (code
    not among the sources).  It fails when either sequence is empty,
    when the lengths differ, or when a component is not finite. *)
Definition validate_readings (o p : list (pyfloat * pyfloat))
  : result (list (Q * Q) * list (Q * Q)) :=
  if (is_nil o || is_nil p)%bool
  then raise ValidationError "no readings"
  else if negb (Nat.eqb (List.length o) (List.length p))
  then raise ValidationError "mismatched lengths"
  else
    match finite_all o, finite_all p with
    | Some o', Some p' => ok (o', p')
    | _, _ => raise ValidationError "non-finite reading"
    end.

(** Modelled from the spec: the Discharge Coefficient Estimator of
    section 4.3 (code not among the sources), written as one pass over
    the velocity pairs [(V0_i, Vp_i)]: a pair with [Vp_i == 0] is
    counted as excluded, any other is appended with its coefficient and
    added to the running total. *)
Fixpoint estimate_loop (vs : list (Q * Q))
    (kept : list CalibrationPoint) (total : Q) (excluded : nat)
  : list CalibrationPoint * Q * nat :=
  match vs with
  | [] => (kept, total, excluded)
  | (v0, vp) :: rest =>
      if Qeq_bool vp 0
      then estimate_loop rest kept total (S excluded)
      else
        estimate_loop rest
          (kept ++ [{| V0 := v0; Vp := vp; cv := v0 / vp |}])
          (total + v0 / vp) excluded
  end.

(** Modelled from the spec: section 4.3 (code not among the sources):
    the mean of zero samples is an [InsufficientDataError]. *)
Definition estimate_cv (vs : list (Q * Q)) : result Estimate :=
  let '(kept, total, excluded) := estimate_loop vs [] 0 O in
  if is_nil kept
  then raise InsufficientDataError "all points excluded"
  else ok {| points := kept; excluded_count := excluded;
             mean_cv := total / qcount kept |}.

Section Pipeline.

(** What the specification leaves open or delegates: the default area
    ratio, the square root of the floating-point unit, how a raw signal
    is read off an [(x, y)] pair, the four-decimal formatting, the
    renderer and the report builder (which stamps the report with the
    time it is given). *)
Variable A_ratio_default : Q.
Variable sqrt : Q -> Q.
Variable orifice_raw : Q * Q -> Q.
Variable pitot_raw : Q * Q -> Q.
Variable fmt4 : Q -> string.
Variable render :
  list pyval -> list CalibrationPoint -> ModelFit -> result string.
Variable assemble :
  Z -> list CalibrationPoint -> Q -> string -> string -> result string.

(** Modelled from the spec: the defaults of PhysicalConstants in
    section 3 (code not among the sources). *)
Definition default_constants : PhysicalConstants :=
  {| g := 981 # 100; rho := 1000; Cd_orifice := 61 # 100;
     A_ratio := A_ratio_default |}.

(** Modelled from the spec: the value an override map gives to a key,
    if it gives one (section 3; code not among the sources). *)
Definition override (constants : pyval) (k : string) : option Q :=
  match constants with
  | PDict d =>
      match assoc k d with
      | Some v =>
          match py_float v with
          | inr (Fin q) => Some q
          | _ => None
          end
      | None => None
      end
  | _ => None
  end.

(** Modelled from the spec: an unspecified key falls back to its
    default (section 3; code not among the sources). *)
Definition pick (constants : pyval) (k : string) (default : Q) : Q :=
  match override constants k with
  | Some q => q
  | None => default
  end.

(** Modelled from the spec: "Caller may supply an override map;
    unspecified keys fall back to defaults" (section 3; code not among
    the sources). *)
Definition resolve_constants (constants : pyval) : PhysicalConstants :=
  {| g := pick constants "g" (g default_constants);
     rho := pick constants "rho" (rho default_constants);
     Cd_orifice :=
       pick constants "Cd_orifice" (Cd_orifice default_constants);
     A_ratio := pick constants "A_ratio" (A_ratio default_constants) |}.

(** Modelled from the spec: the radicand of a square root is clamped
    at zero (section 4.2; code not among the sources). *)
Definition clamp0 (q : Q) : Q := if Qle_bool 0 q then q else 0.

(** Modelled from the spec: the Physical Model Calculator of section
    4.2 (code not among the sources). *)
Definition velocities (c : PhysicalConstants) (r : (Q * Q) * (Q * Q))
  : Q * Q :=
  (Cd_orifice c
   * sqrt (clamp0 (2 * g c * orifice_raw (fst r) / (1 - sq (A_ratio c)))),
   sqrt (clamp0 (2 * pitot_raw (snd r) / rho c))).

(** Modelled from the spec: the dot of [equation_text] (section 4.4;
    code not among the sources). *)
Definition middle_dot : string := String (ascii_of_N 183) EmptyString.

(** Modelled from the spec: the Regression Fitter of section 4.4 (code
    not among the sources), with [x = Vp] and [y = V0]. *)
Definition fit (pts : list CalibrationPoint) : result ModelFit :=
  let xbar := qmean (map Vp pts) in
  let ybar := qmean (map V0 pts) in
  let sxx := qsum (map (fun p => sq (Vp p - xbar)) pts) in
  let sxy := qsum (map (fun p => (Vp p - xbar) * (V0 p - ybar)) pts) in
  if Qeq_bool sxx 0
  then raise DegenerateFitError "zero variance"
  else
    let m := sxy / sxx in
    let b := ybar - m * xbar in
    let ss_res := qsum (map (fun p => sq (V0 p - (m * Vp p + b))) pts) in
    let ss_tot := qsum (map (fun p => sq (V0 p - ybar)) pts) in
    ok {| slope := m; intercept := b;
          r_squared := 1 - ss_res / ss_tot;
          equation_text :=
            ("V0 = " ++ fmt4 m ++ middle_dot ++ "Vp + " ++ fmt4 b)%string |}.

(** Modelled from the spec: the [results] array of section 6, rows
    numbered from [i] (code not among the sources). *)
Fixpoint result_rows (i : Z) (pts : list CalibrationPoint) : list pyval :=
  match pts with
  | [] => []
  | p :: rest =>
      PDict [("index", PInt i); ("v0", PFloat (Fin (V0 p)));
             ("vp", PFloat (Fin (Vp p))); ("cv", PFloat (Fin (cv p)))]
      :: result_rows (i + 1)%Z rest
  end.

(** Modelled from the spec: the pipeline of section 2, stages 1 to 7,
    returning the output object of section 6 (code not among the
    sources).  [now] is the time the report is stamped with. *)
Definition process_experiment_data (now : Z)
    (orifice_readings pitot_readings : list (pyfloat * pyfloat))
    (graph_params : list pyval) (custom_constants : pyval)
  : result pyval :=
  let? (o, p) := validate_readings orifice_readings pitot_readings in
  let c := resolve_constants custom_constants in
  let vs := map (velocities c) (combine o p) in
  let? est := estimate_cv vs in
  let? model := fit (points est) in
  let? graph := render graph_params (points est) model in
  let? pdf :=
    assemble now (points est) (mean_cv est) (equation_text model) graph in
  ok (PDict [("results", PList (result_rows 1 (points est)));
             ("mean_cv", PFloat (Fin (mean_cv est)));
             ("model_calculation", PStr (equation_text model));
             ("graph_base64", PStr graph);
             ("pdf_base64", PStr pdf)]).

End Pipeline.

End FluidMechanics.

(** ** The keyword chatbot of src/chatbot.py *)

Module Chatbot.
Import Py.

(** [self.knowledge_base], in insertion order. *)
Definition knowledge_base : list (string * list string) :=
  [("greetings",
    ["hello"; "hi"; "hey"; "good morning"; "good afternoon";
     "good evening"]);
   ("calculations",
    ["calculate"; "how much"; "mass"; "molarity"; "volume";
     "concentration"]);
   ("chemicals",
    ["chemical"; "reagent"; "compound"; "substance"; "molecule"]);
   ("safety",
    ["safety"; "hazard"; "dangerous"; "toxic"; "corrosive"; "flammable"]);
   ("experiments",
    ["experiment"; "procedure"; "protocol"; "method"; "lab work"]);
   ("help",
    ["help"; "what can you do"; "assist"; "support"; "guide"])].

(** [self.responses]. *)
Definition responses : list (string * list string) :=
  [("greeting",
    ["Hello! I'm LabMate AI, your intelligent laboratory assistant. How can I help you today?";
     "Hi there! I'm here to assist you with laboratory calculations, chemical information, and safety guidance.";
     "Welcome! I can help you with chemical calculations, MSDS lookups, experiment planning, and safety protocols."]);
   ("calculation_help",
    ["I can help you calculate reagent masses for specific molarities and volumes. Just tell me the chemical name, desired molarity, and volume.";
     "For calculations, I need: 1) Chemical name, 2) Desired molarity (M), 3) Volume (mL). Example: 'Calculate 0.1M NaCl for 100mL'"]);
   ("chemical_info",
    ["I have information about common laboratory chemicals including their formulas, molar masses, and safety hazards.";
     "You can ask me about chemical properties, safety information, or search for specific compounds in our database."]);
   ("safety_info",
    ["I can provide safety information about chemicals, including hazard classifications and handling precautions.";
     "Always follow proper safety protocols when working with chemicals. I can help you identify potential hazards."]);
   ("experiment_help",
    ["I can help you plan experiments, suggest procedures, and provide guidance on laboratory techniques.";
     "Tell me about your experiment goals and I can help you design a safe and effective procedure."]);
   ("default",
    ["I'm not sure I understand. Could you rephrase your question? I can help with calculations, chemical information, safety, or experiments.";
     "I'm here to help with laboratory-related questions. Try asking about calculations, chemicals, safety, or experiments."])].

Fixpoint lookup (k : string) (d : list (string * list string))
  : option (list string) :=
  match d with
  | [] => None
  | (k', v) :: r => if String.eqb k k' then Some v else lookup k r
  end.

Definition default_responses : list string :=
  match lookup "default" responses with
  | Some l => l
  | None => []
  end.

(** [any(keyword in message for keyword in keywords)]. *)
Definition any_keyword (message : string) (keywords : list string) : bool :=
  existsb (contains message) keywords.

Fixpoint first_intent (message : string) (kb : list (string * list string))
  : string :=
  match kb with
  | [] => "default"
  | (intent, keywords) :: rest =>
      if any_keyword message keywords then intent
      else first_intent message rest
  end.

Definition classify_intent (message : string) : string :=
  first_intent message knowledge_base.

(** The call whose value [process_message] returns. *)
Inductive call : Type :=
| handle_calculation
| handle_chemical_info
| handle_safety_info
| handle_experiment_help
| get_random_response (response_type : string)
| handle_help_request.

(** The [if]/[elif] chain of [process_message]. *)
Definition route (intent : string) : call :=
  if String.eqb intent "calculation" then handle_calculation
  else if String.eqb intent "chemical_info" then handle_chemical_info
  else if String.eqb intent "safety" then handle_safety_info
  else if String.eqb intent "experiment" then handle_experiment_help
  else if String.eqb intent "greeting" then get_random_response "greeting"
  else if String.eqb intent "help" then handle_help_request
  else get_random_response "default".

(** [random.choice] on a non-empty list, for the number [pick] the
    generator draws. *)
Definition choice (pick : nat) (l : list string) : string :=
  nth (pick mod List.length l) l "".

Section Bot.

(** The database session handed through to the handlers, and the
    handlers themselves: they read the chemical database and write to
    the session, neither of which plays a part in the dispatch. *)
Variable db_session : Type.
Variable _handle_calculation : string -> Z -> db_session -> string * db_session.
Variable _handle_chemical_info : string -> Z -> db_session -> string * db_session.
Variable _handle_safety_info : string -> Z -> db_session -> string * db_session.
Variable _handle_experiment_help : string -> Z -> db_session -> string * db_session.
Variable _handle_help_request : string.

Definition _get_random_response (pick : nat) (response_type : string)
  : string :=
  choice pick
    match lookup response_type responses with
    | Some l => l
    | None => default_responses
    end.

Definition run (c : call) (pick : nat)
    (message : string) (user_id : Z) (db : db_session)
  : string * db_session :=
  match c with
  | handle_calculation => _handle_calculation message user_id db
  | handle_chemical_info => _handle_chemical_info message user_id db
  | handle_safety_info => _handle_safety_info message user_id db
  | handle_experiment_help => _handle_experiment_help message user_id db
  | get_random_response t => (_get_random_response pick t, db)
  | handle_help_request => (_handle_help_request, db)
  end.

Definition process_message (pick : nat)
    (message : string) (user_id : Z) (db : db_session)
  : string * db_session :=
  let message_lower := lower message in
  let intent := classify_intent message_lower in
  run (route intent) pick message user_id db.

End Bot.

End Chatbot.

(** ** More of Python's [str] *)

Module PyStr.
Import Py.

(** [str.isspace] on code points below 256. *)
Definition is_space_str (c : ascii) : bool :=
  (in_range 9 13 c || in_range 28 32 c
   || N.eqb (code c) 133 || N.eqb (code c) 160)%bool.

Definition is_empty (s : string) : bool :=
  match s with
  | EmptyString => true
  | String _ _ => false
  end.

Fixpoint str_lstrip (s : string) : string :=
  match s with
  | EmptyString => EmptyString
  | String c r => if is_space_str c then str_lstrip r else s
  end.

Fixpoint str_rstrip (s : string) : string :=
  match s with
  | EmptyString => EmptyString
  | String c r =>
      let r' := str_rstrip r in
      if (is_empty r' && is_space_str c)%bool then EmptyString
      else String c r'
  end.

(** [s.strip()]. *)
Definition str_strip (s : string) : string := str_rstrip (str_lstrip s).

(** What follows [sep] at the head of [s], if [s] starts with [sep]. *)
Fixpoint drop_prefix (sep s : string) : option string :=
  match sep with
  | EmptyString => Some s
  | String a sep' =>
      match s with
      | EmptyString => None
      | String b s' => if Ascii.eqb a b then drop_prefix sep' s' else None
      end
  end.

(** The scan of [s.split(sep)] for a non-empty [sep]: leftmost matches,
    one after the other.  [n] bounds the number of steps; the length of
    [s] is enough. *)
Fixpoint split_scan (n : nat) (sep s : string) : list string :=
  match n with
  | O => [s]
  | S n' =>
      match s with
      | EmptyString => [EmptyString]
      | String c r =>
          match drop_prefix sep s with
          | Some rest => EmptyString :: split_scan n' sep rest
          | None =>
              match split_scan n' sep r with
              | piece :: pieces => String c piece :: pieces
              | [] => [String c EmptyString]
              end
          end
      end
  end.

(** [s.split(sep)]. *)
Definition str_split (s sep : string) : result (list string) :=
  if is_empty sep then raise ValueError "empty separator"
  else ok (split_scan (String.length s) sep s).

(** [sep.join(pieces)]. *)
Fixpoint str_join (sep : string) (pieces : list string) : string :=
  match pieces with
  | [] => EmptyString
  | [piece] => piece
  | piece :: rest => piece ++ sep ++ str_join sep rest
  end.

(** [s.replace(old, "")]. *)
Definition str_remove (s old : string) : string :=
  if is_empty old then s
  else String.concat EmptyString (split_scan (String.length s) old s).

(** [s[:n]]. *)
Definition str_take (n : nat) (s : string) : string := substring 0 n s.

End PyStr.

(** ** The model wrapper of src/chemllm_integration.py *)

Module ChemLLM.
Import Py PyStr.

(** The text of [_format_prompt] before and after the question. *)
Definition prompt_head : string :=
  "You are LabMate AI, an expert chemistry assistant. You have deep knowledge of:
- Chemical reactions and mechanisms
- Laboratory procedures and techniques
- Safety protocols and chemical hazards
- Calculations and formulas
- Chemical properties and structures
- Experimental design and analysis

User Question: ".

Definition prompt_tail : string :=
  "

Please provide a comprehensive, accurate, and helpful response. If the question involves calculations, show your work step by step. Always prioritize safety in your recommendations.

Answer:".

Definition _format_prompt (user_question : string) : string :=
  prompt_head ++ user_question ++ prompt_tail.

Definition rephrase_apology : string :=
  "I apologize, but I couldn't generate a proper response. Please try rephrasing your question.".

(** [sentences[-1]] and [sentences[:-1]]. *)
Definition last_piece (pieces : list string) : string :=
  List.last pieces EmptyString.

Definition _clean_response (response : string) : string :=
  let response :=
    if contains response "Answer:"
    then str_strip
           (last_piece (split_scan (String.length response) "Answer:" response))
    else response in
  let sentences := split_scan (String.length response) "." response in
  let response :=
    if (Nat.ltb 1 (List.length sentences)
        && is_empty (str_strip (last_piece sentences)))%bool
    then str_join "." (removelast sentences) ++ "."
    else response in
  let response :=
    if is_empty (str_strip response) then rephrase_apology else response in
  str_strip response.

Definition torch_missing : string :=
  "ChemLLM requires PyTorch and Transformers libraries. Please install them using: pip install torch transformers".

Definition disabled_message : string :=
  "ChemLLM is temporarily disabled. Please use the regular chatbot for chemistry assistance.".

Definition unavailable_message : string :=
  "ChemLLM model is not available. Please check the model installation and dependencies.".

Definition retry_apology : string :=
  "I apologize, but I couldn't generate a proper response. Please try again.".

Definition timeout_message : string :=
  "I apologize, but the model is taking too long to respond. Please try a shorter or simpler question.".

Definition error_prefix : string :=
  "I encountered an error while processing your chemistry question: ".

(** What the calls into the tokenizer and the model (lines 116-155)
    come to: an exception, the time-out, no usable output, a decoding
    error, or the decoded text. *)
Inductive inference : Type :=
| Raised (e : exn)
| TimedOut
| NoOutput
| DecodeFailed
| Decoded (text : string).

Section Backend.

(** The loaded objects, and the library calls the class makes: both
    [from_pretrained], [model.to], and the generation itself. *)
Variable Model : Type.
Variable Tokenizer : Type.
Variable load_tokenizer : string -> result Tokenizer.
Variable load_model : string -> string -> result Model.
Variable to_device : Model -> string -> result Model.
Variable infer :
  Model -> Tokenizer -> string -> string -> pyval -> pyval -> pyval
  -> inference.

Record ChemLLMIntegration : Type := {
  model : option Model;
  tokenizer : option Tokenizer;
  model_name : string;
  device : string;
  is_loaded : bool;
  enabled : bool
}.

Definition not_loaded (self : ChemLLMIntegration) : ChemLLMIntegration :=
  {| model := None; tokenizer := None; model_name := model_name self;
     device := device self; is_loaded := false; enabled := enabled self |}.

Definition _load_model (TORCH_AVAILABLE : bool) (self : ChemLLMIntegration)
  : ChemLLMIntegration :=
  if negb TORCH_AVAILABLE then not_loaded self
  else
    match load_tokenizer (model_name self) with
    | inl _ => not_loaded self
    | inr tok =>
        match load_model (model_name self) (device self) with
        | inl _ => not_loaded self
        | inr m =>
            match (if String.eqb (device self) "cpu"
                   then to_device m (device self) else ok m) with
            | inl _ => not_loaded self
            | inr m' =>
                {| model := Some m'; tokenizer := Some tok;
                   model_name := model_name self; device := device self;
                   is_loaded := true; enabled := enabled self |}
            end
        end
    end.

(** [ChemLLMIntegration()]; [cuda] is [torch.cuda.is_available()]. *)
Definition __init__ (TORCH_AVAILABLE cuda : bool) : ChemLLMIntegration :=
  _load_model TORCH_AVAILABLE
    {| model := None; tokenizer := None;
       model_name := "AI4Chem/ChemLLM-7B-Chat-1.5-DPO";
       device := if (TORCH_AVAILABLE && cuda)%bool then "cuda" else "cpu";
       is_loaded := false; enabled := true |}.

Definition is_some {A} (o : option A) : bool :=
  match o with
  | Some _ => true
  | None => false
  end.

Definition is_available (self : ChemLLMIntegration) : bool :=
  (enabled self && is_loaded self
   && is_some (model self) && is_some (tokenizer self))%bool.

Definition generate_response (TORCH_AVAILABLE : bool)
    (self : ChemLLMIntegration)
    (prompt : string) (max_length temperature top_p : pyval) : string :=
  if negb TORCH_AVAILABLE then torch_missing
  else if negb (enabled self) then disabled_message
  else if negb (is_available self) then unavailable_message
  else
    let formatted_prompt := _format_prompt prompt in
    match tokenizer self, model self with
    | Some tok, Some m =>
        match infer m tok (device self) formatted_prompt
                max_length temperature top_p with
        | TimedOut => timeout_message
        | Raised e => error_prefix ++ exn_str e
        | NoOutput | DecodeFailed => _clean_response retry_apology
        | Decoded text =>
            let response := str_strip text in
            let response :=
              if contains response formatted_prompt
              then str_strip (str_remove response formatted_prompt)
              else response in
            _clean_response response
        end
    | None, _ => error_prefix ++ "'NoneType' object is not callable"
    | Some _, None =>
        error_prefix ++ "'NoneType' object has no attribute 'generate'"
    end.

Definition get_model_info (TORCH_AVAILABLE : bool)
    (self : ChemLLMIntegration) : list (string * pyval) :=
  if negb (enabled self) then
    [("status", PStr "disabled");
     ("model_name", PStr (model_name self));
     ("device", PStr "unknown");
     ("error", PStr "ChemLLM is temporarily disabled");
     ("model_type", PStr "ChemLLM-7B-Chat-1.5-DPO")]
  else if negb TORCH_AVAILABLE then
    [("status", PStr "dependencies_missing");
     ("model_name", PStr (model_name self));
     ("device", PStr "unknown");
     ("error", PStr "PyTorch/Transformers not installed");
     ("model_type", PStr "ChemLLM-7B-Chat-1.5-DPO")]
  else if negb (is_available self) then
    [("status", PStr "not_loaded");
     ("model_name", PStr (model_name self));
     ("device", PStr (device self));
     ("error", PStr "Model failed to load");
     ("model_type", PStr "ChemLLM-7B-Chat-1.5-DPO")]
  else
    [("status", PStr "loaded");
     ("model_name", PStr (model_name self));
     ("device", PStr (device self));
     ("is_available", PBool true);
     ("model_type", PStr "ChemLLM-7B-Chat-1.5-DPO")].

End Backend.

Arguments model {Model Tokenizer} _.
Arguments tokenizer {Model Tokenizer} _.
Arguments model_name {Model Tokenizer} _.
Arguments device {Model Tokenizer} _.
Arguments is_loaded {Model Tokenizer} _.
Arguments enabled {Model Tokenizer} _.

End ChemLLM.

(** ** The session, account, experiment and chat handlers of
       src/routes.py, and [save_conversation] of src/chatbot.py *)

Module Site.
Import Py PyStr.

Local Open Scope result_scope.

(** *** The tables *)

(** The columns the handlers read or write; time stamps with a default
    are left out. *)
Record User : Type := {
  u_id : Z;
  u_name : string;
  u_role : string;
  u_institution : string
}.

Record Experiment : Type := {
  e_id : Z;
  e_user_id : Z;
  e_title : string;
  e_description : string;
  e_procedures : string;
  e_observations : string;
  e_results : string
}.

Record ChatMessage : Type := {
  m_id : Z;
  m_user_id : Z;
  m_message : string;
  m_response : string;
  m_is_user_message : bool
}.

Record ActivityLog : Type := {
  a_user_id : Z;
  a_action_type : string;
  a_description : string
}.

Record tables : Type := {
  users : list User;
  experiments : list Experiment;
  chat_messages : list ChatMessage;
  activity_logs : list ActivityLog
}.

(** [view] is what the SQLAlchemy session sees, pending changes
    included; [durable] is what has been committed.  Primary keys come
    from the three counters. *)
Record database : Type := {
  view : tables;
  durable : tables;
  next_user_id : Z;
  next_experiment_id : Z;
  next_message_id : Z
}.

(** The three keys [login] writes into Flask's session. *)
Record session_data : Type := {
  user_id : Z;
  user_name : string;
  user_role : string
}.

(** [session] is [None] when the session holds no [user_id]; the keys
    other than the three of [login] play no part in these handlers.
    [clock] is [datetime.now().isoformat()]. *)
Record world : Type := {
  session : option session_data;
  db : database;
  clock : string
}.

Inductive reply : Type :=
| Render (template : string)
| Redirect (endpoint : string)
| Json (body : list (string * pyval)) (status : Z)
| Abort (status : Z).

Definition with_db (w : world) (d : database) : world :=
  {| session := session w; db := d; clock := clock w |}.

Definition with_view (d : database) (t : tables) : database :=
  {| view := t; durable := durable d; next_user_id := next_user_id d;
     next_experiment_id := next_experiment_id d;
     next_message_id := next_message_id d |}.

(** [db.session.commit()] and [db.session.rollback()]. *)
Definition db_session_commit (w : world) : world :=
  with_db w
    {| view := view (db w); durable := view (db w);
       next_user_id := next_user_id (db w);
       next_experiment_id := next_experiment_id (db w);
       next_message_id := next_message_id (db w) |}.

Definition db_session_rollback (w : world) : world :=
  with_db w (with_view (db w) (durable (db w))).

(** [db.session.add(ActivityLog(...))]. *)
Definition add_activity (a : ActivityLog) (w : world) : world :=
  let t := view (db w) in
  with_db w
    (with_view (db w)
       {| users := users t; experiments := experiments t;
          chat_messages := chat_messages t;
          activity_logs := activity_logs t ++ [a] |}).

(** [db.session.add(User(...))]: the new row, and the world with it. *)
Definition add_user (name role institution : string) (w : world)
  : User * world :=
  let t := view (db w) in
  let user := {| u_id := next_user_id (db w); u_name := name;
                 u_role := role; u_institution := institution |} in
  (user,
   with_db w
     {| view := {| users := users t ++ [user];
                   experiments := experiments t;
                   chat_messages := chat_messages t;
                   activity_logs := activity_logs t |};
        durable := durable (db w);
        next_user_id := next_user_id (db w) + 1;
        next_experiment_id := next_experiment_id (db w);
        next_message_id := next_message_id (db w) |}).

(** [db.session.add(ChatMessage(...))]. *)
Definition add_chat_message (uid : Z) (message response : string)
    (is_user_message : bool) (w : world) : world :=
  let t := view (db w) in
  with_db w
    {| view := {| users := users t; experiments := experiments t;
                  chat_messages :=
                    chat_messages t ++
                    [{| m_id := next_message_id (db w); m_user_id := uid;
                        m_message := message; m_response := response;
                        m_is_user_message := is_user_message |}];
                  activity_logs := activity_logs t |};
       durable := durable (db w);
       next_user_id := next_user_id (db w);
       next_experiment_id := next_experiment_id (db w);
       next_message_id := next_message_id (db w) + 1 |}.

(** [db.session.delete(experiment)]: the row with its primary key
    goes. *)
Definition delete_row (experiment : Experiment) (w : world) : world :=
  let t := view (db w) in
  with_db w
    (with_view (db w)
       {| users := users t;
          experiments :=
            filter (fun e => negb (Z.eqb (e_id e) (e_id experiment)))
                   (experiments t);
          chat_messages := chat_messages t;
          activity_logs := activity_logs t |}).

(** [ChatMessage.query.filter_by(user_id=uid).delete()]. *)
Definition delete_chat_messages (uid : Z) (w : world) : world :=
  let t := view (db w) in
  with_db w
    (with_view (db w)
       {| users := users t; experiments := experiments t;
          chat_messages :=
            filter (fun m => negb (Z.eqb (m_user_id m) uid))
                   (chat_messages t);
          activity_logs := activity_logs t |}).

Definition log_activity (uid : Z) (action_type description : string)
    (w : world) : world :=
  db_session_commit
    (add_activity {| a_user_id := uid; a_action_type := action_type;
                     a_description := description |} w).

Definition not_authenticated : reply :=
  Json [("error", PStr "Not authenticated")] 401.

(** *** [index], [login], [logout] *)

Definition index (w : world) : reply * world :=
  match session w with
  | None => (Render "frontpage.html", w)
  | Some _ => (Redirect "dashboard", w)
  end.

Fixpoint form_get (k : string) (form : list (string * string))
  : option string :=
  match form with
  | [] => None
  | (k', v) :: r => if String.eqb k k' then Some v else form_get k r
  end.

(** [login]; [form] is [request.form], and a key that is missing from
    it ends the request with status 400. *)
Definition login (method : string) (form : list (string * string))
    (w : world) : reply * world :=
  if String.eqb method "POST" then
    match form_get "name" form with
    | None => (Abort 400, w)
    | Some name =>
        match form_get "role" form with
        | None => (Abort 400, w)
        | Some role =>
            let institution :=
              match form_get "institution" form with
              | Some i => i
              | None => ""
              end in
            let found :=
              find (fun u => (String.eqb (u_name u) name
                              && String.eqb (u_role u) role)%bool)
                   (users (view (db w))) in
            let (user, w1) :=
              match found with
              | Some user => (user, w)
              | None =>
                  let (user, w') := add_user name role institution w in
                  (user, db_session_commit w')
              end in
            let w2 :=
              {| session := Some {| user_id := u_id user;
                                    user_name := u_name user;
                                    user_role := u_role user |};
                 db := db w1; clock := clock w1 |} in
            let w3 :=
              log_activity (u_id user) "Authentication"
                ("User " ++ u_name user ++ " (" ++ u_role user
                 ++ ") logged in") w2 in
            (Redirect "dashboard", w3)
        end
    end
  else (Render "login.html", w).

Definition logout (w : world) : reply * world :=
  let w1 :=
    match session w with
    | Some s =>
        log_activity (user_id s) "Authentication"
          ("User " ++ user_name s ++ " logged out") w
    | None => w
    end in
  (Redirect "index",
   {| session := None; db := db w1; clock := clock w1 |}).

(** *** [delete_experiment] *)

Definition dquote : string := String (ascii_of_N 34) EmptyString.

Definition delete_experiment (experiment_id : Z) (w : world)
  : reply * world :=
  match session w with
  | None => (not_authenticated, w)
  | Some s =>
      match find (fun e => (Z.eqb (e_id e) experiment_id
                            && Z.eqb (e_user_id e) (user_id s))%bool)
                 (experiments (view (db w))) with
      | None =>
          (Json [("success", PBool false);
                 ("error", PStr "Experiment not found")] 404, w)
      | Some experiment =>
          let experiment_title := e_title experiment in
          let w1 := db_session_commit (delete_row experiment w) in
          let w2 :=
            log_activity (user_id s) "Experiment Deletion"
              ("Deleted experiment: " ++ experiment_title) w1 in
          (Json [("success", PBool true);
                 ("message",
                  PStr ("Experiment " ++ dquote ++ experiment_title
                        ++ dquote ++ " deleted successfully"))] 200,
           w2)
      end
  end.

(** *** [clear_chat_history] *)

Definition clear_chat_history (w : world) : reply * world :=
  match session w with
  | None => (not_authenticated, w)
  | Some s =>
      let w1 := db_session_commit (delete_chat_messages (user_id s) w) in
      let w2 := log_activity (user_id s) "Chatbot" "Cleared chat history" w1 in
      (Json [("success", PBool true)] 200, w2)
  end.

(** *** [LabMateChatbot.save_conversation] *)

Definition save_conversation (uid : Z) (user_message bot_response : string)
    (w : world) : world :=
  db_session_commit
    (add_chat_message uid "" bot_response false
       (add_chat_message uid user_message "" true w)).

(** *** [send_chat_message] *)

(** [v.strip()]: only a string has the method. *)
Definition py_strip (v : pyval) : result string :=
  match v with
  | PStr s => ok (str_strip s)
  | _ => raise AttributeError
           ("'" ++ type_name v ++ "' object has no attribute 'strip'")
  end.

Section Chat.

(** The two methods of [enhanced_chatbot] the handler calls; its module
    is not among the sources.  Each may raise and may change the
    world; the reply is a string, as that of
    [LabMateChatbot.process_message] is. *)
Variable process_message : string -> Z -> world -> result string * world.
Variable enhanced_save_conversation :
  Z -> string -> string -> world -> result unit * world.

(** The body of the [try]. *)
Definition send_chat_message_try (request_json : result pyval)
    (s : session_data) (w : world) : result reply * world :=
  match (let? data := request_json in
         let? message := py_get data "message" (PStr "") in
         py_strip message) with
  | inl e => (inl e, w)
  | inr user_message =>
      if is_empty user_message
      then (ok (Json [("error", PStr "Message cannot be empty")] 400), w)
      else
        match process_message user_message (user_id s) w with
        | (inl e, w1) => (inl e, w1)
        | (inr bot_response, w1) =>
            match enhanced_save_conversation (user_id s) user_message
                    bot_response w1 with
            | (inl e, w2) => (inl e, w2)
            | (inr _, w2) =>
                let w3 :=
                  log_activity (user_id s) "Chatbot"
                    ("Asked: " ++ str_take 50 user_message ++ "...") w2 in
                (ok (Json [("success", PBool true);
                           ("response", PStr bot_response);
                           ("timestamp", PStr (clock w3))] 200), w3)
            end
        end
  end.

Definition send_chat_message (request_json : result pyval) (w : world)
  : reply * world :=
  match session w with
  | None => (not_authenticated, w)
  | Some s =>
      match send_chat_message_try request_json s w with
      | (inr r, w') => (r, w')
      | (inl e, w') => (Json [("error", PStr (exn_str e))] 500, w')
      end
  end.

End Chat.

(** *** [chemllm_status] and [chemllm_generate] *)

Section Llm.

(** The global instance [chemllm], the flag [TORCH_AVAILABLE] and the
    generation behind it. *)
Variable Model : Type.
Variable Tokenizer : Type.
Variable infer :
  Model -> Tokenizer -> string -> string -> pyval -> pyval -> pyval
  -> ChemLLM.inference.
Variable TORCH_AVAILABLE : bool.
Variable chemllm : ChemLLM.ChemLLMIntegration Model Tokenizer.

Definition get_chemllm_info : pyval :=
  PDict (ChemLLM.get_model_info Model Tokenizer TORCH_AVAILABLE chemllm).

Definition is_chemllm_available : bool :=
  ChemLLM.is_available Model Tokenizer chemllm.

Definition generate_chemllm_response
    (prompt : string) (max_length temperature top_p : pyval) : string :=
  ChemLLM.generate_response Model Tokenizer infer TORCH_AVAILABLE chemllm
    prompt max_length temperature top_p.

Definition chemllm_status (w : world) : reply * world :=
  match session w with
  | None => (not_authenticated, w)
  | Some _ =>
      (Json [("success", PBool true); ("model_info", get_chemllm_info)] 200,
       w)
  end.

Definition chemllm_generate (request_json : result pyval) (w : world)
  : reply * world :=
  match session w with
  | None => (not_authenticated, w)
  | Some s =>
      match (let? data := request_json in
             let? p := py_get data "prompt" (PStr "") in
             let? prompt := py_strip p in
             let? max_length := py_get data "max_length" (PInt 512) in
             let? temperature :=
               py_get data "temperature" (PFloat (Fin (7 # 10))) in
             let? top_p := py_get data "top_p" (PFloat (Fin (9 # 10))) in
             ok (prompt, max_length, temperature, top_p)) with
      | inl e => (Json [("error", PStr (exn_str e))] 500, w)
      | inr (prompt, max_length, temperature, top_p) =>
          if is_empty prompt
          then (Json [("error", PStr "Prompt is required")] 400, w)
          else if negb is_chemllm_available
          then
            (Json [("error",
                    PStr "ChemLLM model is not available. Please check the model installation.");
                   ("model_status", get_chemllm_info)] 503, w)
          else
            let response :=
              generate_chemllm_response prompt max_length temperature top_p in
            let w1 :=
              log_activity (user_id s) "ChemLLM Query"
                ("Generated response for: " ++ str_take 50 prompt ++ "...")
                w in
            (Json [("success", PBool true);
                   ("response", PStr response);
                   ("timestamp", PStr (clock w1));
                   ("model_info", get_chemllm_info)] 200, w1)
      end
  end.

End Llm.

End Site.

(** * The vocabulary of the statements *)

(** ** Requests, responses and worlds *)

Module RoutesTerms.
Import Py Routes.

Local Open Scope result_scope.

(** The five fields of an ExperimentReport in a response body. *)
Definition report_fields : list string :=
  ["results"; "mean_cv"; "model_calculation"; "graph_base64"; "pdf_base64"].

Definition body_field (r : response) (k : string) : option pyval :=
  match r with
  | Json body _ => assoc k body
  | Redirect _ => None
  end.

Definition status (r : response) : option Z :=
  match r with
  | Json _ st => Some st
  | Redirect _ => None
  end.

(** The value a request dict gives to a key, or the default. *)
Definition field (d : list (string * pyval)) (k : string) (default : pyval)
  : pyval :=
  match assoc k d with
  | Some v => v
  | None => default
  end.

Definition call_of (o p : readings) (labels : list pyval) (c : pyval)
  : pipeline_call :=
  {| arg_orifice := o; arg_pitot := p; arg_graph_params := labels;
     arg_constants := c |}.

Definition with_call (w : world) (a : pipeline_call) : world :=
  {| session := session w; pending := pending w; committed := committed w;
     clock := clock w; calls := calls w ++ [a] |}.

Definition with_rows (w : world) (rows : list row) : world :=
  {| session := session w; pending := [];
     committed := committed w ++ pending w ++ rows;
     clock := clock w; calls := calls w |}.

Definition activity_row (uid : pyval) (n : nat) : row :=
  ActivityRow
    {| al_user_id := uid; al_action_type := "Fluid Calculation";
       al_description :=
         "Pitot Tube experiment with " ++ nat_str n ++ " readings" |}.

Definition calculation_row (uid mean_cv : pyval) : row :=
  CalculationRow
    {| user_id := uid; reagent := "Pitot Tube Experiment";
       formula := "Cv = V0/Vp"; molarity := 0; volume := 0;
       mass_needed := mean_cv |}.

Definition success_response (r1 r2 r3 r4 r5 : pyval) : response :=
  Json [("success", PBool true); ("results", r1); ("mean_cv", r2);
        ("model_calculation", r3); ("graph_base64", r4);
        ("pdf_base64", r5)] 200.

Definition not_subscriptable (v : pyval) : Prop :=
  match v with
  | PNone | PBool _ | PInt _ | PFloat _ => True
  | _ => False
  end.

(** The values [float] refuses for their type. *)
Definition not_a_number (v : pyval) : Prop :=
  match v with
  | PNone | PList _ | PDict _ => True
  | _ => False
  end.

(** Why the [except] clause of the conversion rejects an element: what
    the class of the exception says about the element. *)
Definition rejection_cause (r : pyval) (e : exn) : Prop :=
  match exn_cls e with
  | IndexError => exists n, py_len r = ok n /\ (n < 2)%nat
  | ValueError =>
      exists i s, (i < 2)%nat /\ py_index r i = ok (PStr s)
                  /\ float_of_str s = None
  | TypeError =>
      not_subscriptable r
      \/ exists i v, (i < 2)%nat /\ py_index r i = ok v /\ not_a_number v
  | _ => False
  end.

Definition invalid_format : string :=
  "Invalid reading format. All values must be numbers.".

Definition no_readings : string := "No readings provided".
Definition mismatched : string :=
  "Mismatched number of orifice and pitot readings".

(** What the view function returns once [process_and_store] has run. *)
Definition finish (r : result response * world) : response * world :=
  match r with
  | (inr resp, w') => (resp, w')
  | (inl e, w') => (error_response (exn_str e), w')
  end.

Section Handler.

Variable P : Z -> readings -> readings -> list pyval -> pyval -> result pyval.

(** The outcomes of lines 128-159 for a logged-in user, stage by
    stage. *)
Inductive stored (o p : readings) (gp cc : pyval) (w : world)
  : result response * world -> Prop :=
| stored_no_tuple e :
    py_iter gp = inl e ->
    stored o p gp cc w (inl e, w)
| stored_pipeline_raises labels e :
    py_iter gp = ok labels ->
    P (clock w) o p labels cc = inl e ->
    stored o p gp cc w (inl e, with_call w (call_of o p labels cc))
| stored_no_mean labels result uid e :
    py_iter gp = ok labels ->
    P (clock w) o p labels cc = ok result ->
    assoc "user_id" (session w) = Some uid ->
    py_item result "mean_cv" = inl e ->
    stored o p gp cc w
      (inl e,
       with_rows (with_call w (call_of o p labels cc))
         [activity_row uid (List.length o)])
| stored_no_field labels result uid m e :
    py_iter gp = ok labels ->
    P (clock w) o p labels cc = ok result ->
    assoc "user_id" (session w) = Some uid ->
    py_item result "mean_cv" = ok m ->
    (exists k, In k report_fields /\ py_item result k = inl e) ->
    stored o p gp cc w
      (inl e,
       with_rows (with_call w (call_of o p labels cc))
         [activity_row uid (List.length o); calculation_row uid m])
| stored_success labels result uid m r1 r3 r4 r5 :
    py_iter gp = ok labels ->
    P (clock w) o p labels cc = ok result ->
    assoc "user_id" (session w) = Some uid ->
    py_item result "mean_cv" = ok m ->
    py_item result "results" = ok r1 ->
    py_item result "model_calculation" = ok r3 ->
    py_item result "graph_base64" = ok r4 ->
    py_item result "pdf_base64" = ok r5 ->
    stored o p gp cc w
      (ok (success_response r1 m r3 r4 r5),
       with_rows (with_call w (call_of o p labels cc))
         [activity_row uid (List.length o); calculation_row uid m]).

End Handler.

(** *** Sample requests and worlds *)

Definition sample_report : pyval :=
  PDict [("results", PList []);
         ("mean_cv", PFloat (Fin (3 # 2)));
         ("model_calculation", PStr "V0 = 2.0000*Vp + 1.0000");
         ("graph_base64", PStr "aW1n");
         ("pdf_base64", PStr "cGRm")].

Definition sample_pipeline
  : Z -> readings -> readings -> list pyval -> pyval -> result pyval :=
  fun _ _ _ _ _ => ok sample_report.

Definition failing_pipeline
  : Z -> readings -> readings -> list pyval -> pyval -> result pyval :=
  fun _ _ _ _ _ => raise (UserError "DegenerateFitError") "zero variance".

Definition sample_world : world :=
  {| session := [("user_id", PInt 7)]; pending := []; committed := [];
     clock := 0; calls := [] |}.

Definition request (orifice pitot : list pyval) : list (string * pyval) :=
  [("orifice_readings", PList orifice); ("pitot_readings", PList pitot)].

Definition pair (x y : pyval) : pyval := PList [x; y].

(** A request whose readings carry an infinity and a NaN. *)
Definition non_finite_request : list (string * pyval) :=
  request [pair (PFloat PosInf) (PInt 1)] [pair (PInt 1) (PFloat NaN)].

(** An element parses as a pair of finite reals. *)
Definition finite_reading (r : pyval) : Prop :=
  exists x y, convert_reading r = ok (Fin x, Fin y).

End RoutesTerms.

(** ** What the validation does to a request *)

Module ValidationTerms.
Import Py Routes RoutesTerms.

Local Open Scope result_scope.

(** The conversion of lines 121-124: the first sequence, then the
    second. *)
Definition conversion (o p : list pyval) : result (readings * readings) :=
  let? o' := convert_all o in
  let? p' := convert_all p in
  ok (o', p').

(** The first two components of [r] convert to the pair [xy]. *)
Definition first_two (r : pyval) (xy : pyfloat * pyfloat) : Prop :=
  exists a b,
    py_index r 0 = ok a /\ py_index r 1 = ok b
    /\ py_float a = ok (fst xy) /\ py_float b = ok (snd xy).

(** Why the conversion of an element raises, for each class it can
    raise: the three of the [except] clause, the [KeyError] of an
    element that is a JSON object, and the [OverflowError] of an
    integer too large for a float. *)
Definition conversion_failure (r : pyval) (e : exn) : Prop :=
  match exn_cls e with
  | IndexError | ValueError | TypeError => rejection_cause r e
  | KeyError => exists d, r = PDict d
  | OverflowError =>
      exists i z, (i < 2)%nat /\ py_index r i = ok (PInt z)
                  /\ overflow_bound <= Z.abs z
  | _ => False
  end.

(** The answer to a conversion that raised [e]: the inner [except]
    clause for its three classes, the outer one for the others. *)
Definition rejection (e : exn) : response :=
  error_response
    (if caught_by_conversion (exn_cls e) then invalid_format
     else exn_str e).

Section Handler.

Variable P : Z -> readings -> readings -> list pyval -> pyval -> result pyval.

(** The request [d] reaches [process_experiment_data], which is called
    once, with these arguments, and whose outcome decides the answer:
    its exception becomes the error response, with nothing stored; its
    result, when it has the five fields, becomes the report, with the
    two rows stored. *)
Definition handed_to_pipeline (d : list (string * pyval)) (w : world)
    (o' p' : readings) (labels : list pyval) (cc : pyval) : Prop :=
  let called := with_call w (call_of o' p' labels cc) in
  calls (snd (fluid_calculate P (ok (PDict d)) w))
  = (calls w ++ [call_of o' p' labels cc])%list
  /\ (forall e,
        P (clock w) o' p' labels cc = inl e ->
        fluid_calculate P (ok (PDict d)) w
        = (error_response (exn_str e), called))
  /\ (forall result uid r1 m r3 r4 r5,
        P (clock w) o' p' labels cc = ok result ->
        assoc "user_id" (session w) = Some uid ->
        py_item result "results" = ok r1 ->
        py_item result "mean_cv" = ok m ->
        py_item result "model_calculation" = ok r3 ->
        py_item result "graph_base64" = ok r4 ->
        py_item result "pdf_base64" = ok r5 ->
        fluid_calculate P (ok (PDict d)) w
        = (success_response r1 m r3 r4 r5,
           with_rows called
             [activity_row uid (List.length o'); calculation_row uid m])).

End Handler.

(** An integer that no float holds, in a reading of two numbers. *)
Definition huge : Z := 2 ^ 1024.

Definition huge_reading : pyval := pair (PInt huge) (PInt 1).

Definition huge_request : list (string * pyval) :=
  request [huge_reading] [pair (PInt 1) (PInt 1)].

End ValidationTerms.

(** ** Velocity pairs and runs of the pipeline *)

Module FluidTerms.
Import Py FluidMechanics.

Local Open Scope result_scope.
Local Open Scope Q_scope.

(** A velocity pair [(V0, Vp)] that the estimator keeps. *)
Definition usable (v : Q * Q) : bool := negb (Qeq_bool (snd v) 0).

Definition point_of (v : Q * Q) : CalibrationPoint :=
  {| V0 := fst v; Vp := snd v; cv := fst v / snd v |}.

Definition kept_points (vs : list (Q * Q)) : list CalibrationPoint :=
  map point_of (filter usable vs).

Definition excluded (vs : list (Q * Q)) : nat :=
  List.length (filter (fun v => Qeq_bool (snd v) 0) vs).

Section Pipeline.

Variable A_ratio_default : Q.
Variable sqrt : Q -> Q.
Variable orifice_raw : Q * Q -> Q.
Variable pitot_raw : Q * Q -> Q.
Variable fmt4 : Q -> string.
Variable render :
  list pyval -> list CalibrationPoint -> ModelFit -> result string.
Variable assemble :
  Z -> list CalibrationPoint -> Q -> string -> string -> result string.

(** The velocity pairs of an accepted reading set. *)
Definition speeds (cc : pyval) (o' p' : list (Q * Q)) : list (Q * Q) :=
  map (velocities sqrt orifice_raw pitot_raw
         (resolve_constants A_ratio_default cc))
      (combine o' p').

Definition run : Z -> list (pyfloat * pyfloat) -> list (pyfloat * pyfloat)
                 -> list pyval -> pyval -> result pyval :=
  process_experiment_data A_ratio_default sqrt orifice_raw pitot_raw
    fmt4 render assemble.

(** The stages of a run that do not read the clock: everything up to
    and including the chart. *)
Definition before_report
    (o p : list (pyfloat * pyfloat)) (labels : list pyval) (cc : pyval)
  : result (Estimate * ModelFit * string) :=
  let? (o', p') := validate_readings o p in
  let? est := estimate_cv (speeds cc o' p') in
  let? model := fit fmt4 (points est) in
  let? graph := render labels (points est) model in
  ok (est, model, graph).

End Pipeline.

End FluidTerms.

(** ** Override maps *)

Module ConstantsTerms.
Import Py FluidMechanics.

(** The keys of PhysicalConstants. *)
Definition constant_keys : list string :=
  ["g"; "rho"; "Cd_orifice"; "A_ratio"].

(** An override map that spells the defaults out. *)
Definition explicit_defaults (A_ratio_default : Q) : pyval :=
  PDict [("g", PFloat (Fin (981 # 100)));
         ("rho", PFloat (Fin 1000));
         ("Cd_orifice", PFloat (Fin (61 # 100)));
         ("A_ratio", PFloat (Fin A_ratio_default))].

End ConstantsTerms.

(** ** A sample instance of what the specification leaves open *)

Module Demo.
Import Py Routes RoutesTerms FluidMechanics FluidTerms.

Definition demo_area_ratio : Q := 1 # 2.

(** A stand-in for the square root. *)
Definition demo_sqrt (q : Q) : Q := q.

(** The raw signal of a pair: its first component. *)
Definition demo_raw (xy : Q * Q) : Q := fst xy.

Definition demo_fmt4 (q : Q) : string :=
  nat_str (Z.to_nat (Qfloor q)) ++ ".0000".

Definition demo_render (labels : list pyval) (pts : list CalibrationPoint)
    (m : ModelFit) : result string :=
  ok ("chart:" ++ nat_str (List.length pts)).

(** A report builder that stamps the document with the time. *)
Definition demo_assemble (now : Z) (pts : list CalibrationPoint)
    (mean : Q) (equation graph : string) : result string :=
  ok ("report@" ++ nat_str (Z.to_nat now)).

Definition demo_run
  : Z -> readings -> readings -> list pyval -> pyval -> result pyval :=
  run demo_area_ratio demo_sqrt demo_raw demo_raw demo_fmt4
    demo_render demo_assemble.

Definition demo_orifice : readings :=
  [(Fin 1, Fin 0); (Fin 2, Fin 0); (Fin 3, Fin 0)].

Definition demo_pitot : readings :=
  [(Fin 500, Fin 0); (Fin 0, Fin 0); (Fin 2000, Fin 0)].

Definition demo_request : list (string * pyval) :=
  request [pair (PInt 1) (PInt 0); pair (PInt 2) (PInt 0);
           pair (PInt 3) (PInt 0)]
          [pair (PInt 500) (PInt 0); pair (PInt 0) (PInt 0);
           pair (PInt 2000) (PInt 0)].

End Demo.

(** ** Keyword groups *)

Module ChatbotTerms.
Import Py Chatbot.

(** The keywords of a group of [knowledge_base]. *)
Definition keywords (group : string) : list string :=
  match lookup group knowledge_base with
  | Some l => l
  | None => []
  end.

(** The keys of [knowledge_base] that [process_message] has no branch
    for, and the value [_classify_intent] falls back to. *)
Definition unrouted_intents : list string :=
  ["greetings"; "calculations"; "chemicals"; "experiments"; "default"].

End ChatbotTerms.

(** ** Strings and the model wrapper *)

Module StrTerms.
Import Py PyStr.

(** A string that does not start with a space. *)
Definition starts_clean (s : string) : Prop :=
  match s with
  | EmptyString => True
  | String c _ => is_space_str c = false
  end.

(** A string of spaces only, the empty one included. *)
Definition blank (s : string) : Prop :=
  Forall (fun c => is_space_str c = true) (chars s).

End StrTerms.

Module ChemLLMTerms.
Import Py PyStr ChemLLM.

(** The text after the last "Answer:", or the whole text when there is
    no "Answer:" in it. *)
Definition after_marker (r : string) : string :=
  if contains r "Answer:"
  then last_piece (split_scan (String.length r) "Answer:" r)
  else r.

Definition or_apology (t : string) : string :=
  if is_empty t then rephrase_apology else t.

(** The three answers of [generate_response] that do not involve the
    model. *)
Definition refusals : list string :=
  [torch_missing; disabled_message; unavailable_message].

Definition loaded_status : option pyval := Some (PStr "loaded").

(** A backend for the examples: both loaders succeed, and the model
    echoes the prompt before its answer. *)
Definition echo_infer (m tok : unit) (device prompt : string)
    (max_length temperature top_p : pyval) : inference :=
  Decoded (prompt ++ " Platinum is Pt. ").

Definition echo_llm (TORCH_AVAILABLE cuda : bool)
  : ChemLLMIntegration unit unit :=
  __init__ unit unit (fun _ => ok tt) (fun _ _ => ok tt) (fun m _ => ok m)
    TORCH_AVAILABLE cuda.

(** A backend whose model fails to load. *)
Definition broken_llm (TORCH_AVAILABLE cuda : bool)
  : ChemLLMIntegration unit unit :=
  __init__ unit unit (fun _ => ok tt)
    (fun _ _ => raise (UserError "OSError") "no such model")
    (fun m _ => ok m) TORCH_AVAILABLE cuda.

End ChemLLMTerms.

(** ** Accounts, tables and sample worlds *)

Module SiteTerms.
Import Py PyStr Site.

Definition status (r : reply) : option Z :=
  match r with
  | Json _ st => Some st
  | Abort st => Some st
  | _ => None
  end.

Definition body_field (r : reply) (k : string) : option pyval :=
  match r with
  | Json body _ => assoc k body
  | _ => None
  end.

(** What identifies an account at [login]. *)
Definition account (u : User) : string * string := (u_name u, u_role u).

(** The users table as the database keeps it: no two rows with one
    primary key, and every key below the counter. *)
Definition users_keyed (w : world) : Prop :=
  NoDup (map u_id (users (view (db w))))
  /\ Forall (fun u => u_id u < next_user_id (db w)) (users (view (db w))).

Definition accounts_unique (w : world) : Prop :=
  NoDup (map account (users (view (db w)))).

Definition messages_keyed (w : world) : Prop :=
  NoDup (map m_id (chat_messages (view (db w))))
  /\ Forall (fun m => m_id m < next_message_id (db w))
       (chat_messages (view (db w))).

(** Nothing is pending: the database holds what the session sees. *)
Definition settled (w : world) : Prop := durable (db w) = view (db w).

Definition messages_of (uid : Z) (w : world) : list ChatMessage :=
  filter (fun m => Z.eqb (m_user_id m) uid) (chat_messages (view (db w))).

Definition experiments_of (uid : Z) (w : world) : list Experiment :=
  filter (fun e => Z.eqb (e_user_id e) uid) (experiments (view (db w))).

Definition session_of (u : User) : session_data :=
  {| user_id := u_id u; user_name := u_name u; user_role := u_role u |}.

Definition logged_in_row (u : User) : ActivityLog :=
  {| a_user_id := u_id u; a_action_type := "Authentication";
     a_description :=
       "User " ++ u_name u ++ " (" ++ u_role u ++ ") logged in" |}.

Definition logged_out_row (s : session_data) : ActivityLog :=
  {| a_user_id := user_id s; a_action_type := "Authentication";
     a_description := "User " ++ user_name s ++ " logged out" |}.

Definition not_found : reply :=
  Json [("success", PBool false); ("error", PStr "Experiment not found")] 404.

Definition empty_message : reply :=
  Json [("error", PStr "Message cannot be empty")] 400.

Definition prompt_required : reply :=
  Json [("error", PStr "Prompt is required")] 400.

(** The test of [filter_by(name=name, role=role)]. *)
Definition wanted (name role : string) (u : User) : bool :=
  (String.eqb (u_name u) name && String.eqb (u_role u) role)%bool.

Definition institution_of (form : list (string * string)) : string :=
  match form_get "institution" form with
  | Some i => i
  | None => ""
  end.

(** The world once [u] has logged in. *)
Definition enter (u : User) (w : world) : world :=
  log_activity (u_id u) "Authentication"
    ("User " ++ u_name u ++ " (" ++ u_role u ++ ") logged in")
    {| session := Some (session_of u); db := db w; clock := clock w |}.

Definition credentials (name role : string) : list (string * string) :=
  [("name", name); ("role", role)].

(** *** Sample worlds and requests *)

Definition ada : User :=
  {| u_id := 1; u_name := "Ada"; u_role := "student";
     u_institution := "MIT" |}.

Definition bob : User :=
  {| u_id := 2; u_name := "Bob"; u_role := "teacher";
     u_institution := "" |}.

Definition titration : Experiment :=
  {| e_id := 10; e_user_id := 1; e_title := "Titration";
     e_description := "acid and base"; e_procedures := "";
     e_observations := ""; e_results := "" |}.

Definition distillation : Experiment :=
  {| e_id := 11; e_user_id := 2; e_title := "Distillation";
     e_description := ""; e_procedures := ""; e_observations := "";
     e_results := "" |}.

Definition lab_tables : tables :=
  {| users := [ada; bob];
     experiments := [titration; distillation];
     chat_messages :=
       [{| m_id := 1; m_user_id := 1; m_message := "hi"; m_response := "";
           m_is_user_message := true |};
        {| m_id := 2; m_user_id := 2; m_message := "hello";
           m_response := ""; m_is_user_message := true |}];
     activity_logs := [] |}.

Definition lab_db : database :=
  {| view := lab_tables; durable := lab_tables; next_user_id := 3;
     next_experiment_id := 12; next_message_id := 3 |}.

(** Nobody is logged in; Ada is. *)
Definition lab_world : world :=
  {| session := None; db := lab_db; clock := "2024-01-01T00:00:00" |}.

Definition ada_world : world :=
  {| session := Some (session_of ada); db := lab_db;
     clock := "2024-01-01T00:00:00" |}.

(** A chatbot that answers every message alike and stores the
    conversation as [LabMateChatbot.save_conversation] does. *)
Definition parrot (message : string) (uid : Z) (w : world)
  : result string * world := (ok ("You said: " ++ message), w).

Definition parrot_save (uid : Z) (message response : string) (w : world)
  : result unit * world := (ok tt, save_conversation uid message response w).

End SiteTerms.

(** ** More requests for [fluid_calculate] *)

Module HandlerTerms.
Import Py Routes RoutesTerms.

(** A result of the pipeline without its PDF, and a pipeline that
    returns it. *)
Definition partial_report : pyval :=
  PDict [("results", PList []);
         ("mean_cv", PFloat (Fin (3 # 2)));
         ("model_calculation", PStr "V0 = 2.0000*Vp + 1.0000");
         ("graph_base64", PStr "aW1n")].

Definition partial_pipeline
  : Z -> readings -> readings -> list pyval -> pyval -> result pyval :=
  fun _ _ _ _ _ => ok partial_report.

(** One reading on each side. *)
Definition one_reading : list (string * pyval) :=
  request [pair (PInt 1) (PInt 2)] [pair (PInt 3) (PInt 4)].

End HandlerTerms.


(** * Properties *)

(** ** The request handler *)

Module RoutesFacts.
Import Py Routes RoutesTerms ValidationTerms.

Local Open Scope result_scope.
Local Open Scope world_scope.

Lemma error_response_fields (msg k : string) :
  In k report_fields -> body_field (error_response msg) k = None.
Proof.
  unfold report_fields; simpl.
  intros [<- | [<- | [<- | [<- | [<- | []]]]]]; reflexivity.
Qed.

Lemma logged_in_user (w : world) :
  logged_in w = true -> exists uid, assoc "user_id" (session w) = Some uid.
Proof.
  unfold logged_in. destruct (assoc "user_id" (session w)) as [uid|].
  - intros _. now exists uid.
  - discriminate.
Qed.

(** *** The builtins, case by case *)

Lemma get_none (s : string) (i : nat) :
  String.get i s = None -> (String.length s <= i)%nat.
Proof.
  revert i. induction s as [|c s IH]; intros i; simpl.
  - lia.
  - destruct i as [|i]; [discriminate|].
    intros H. apply IH in H. lia.
Qed.

Lemma py_index_raises (r : pyval) (i : nat) (e : exn) :
  py_index r i = inl e ->
  (exn_cls e = IndexError
   /\ exists n, py_len r = ok n /\ (n <= i)%nat)
  \/ (exn_cls e = TypeError /\ not_subscriptable r)
  \/ (exn_cls e = KeyError /\ exists d, r = PDict d).
Proof.
  destruct r as [| b | z | f | s | l | d]; simpl;
    try (intros [= <-]; right; left; split; [reflexivity | exact I]).
  - destruct (String.get i s) eqn:Hget; [discriminate|].
    intros [= <-]. left. split; [reflexivity|].
    exists (String.length s). split; [reflexivity | now apply get_none].
  - destruct (nth_error l i) eqn:Hnth; [discriminate|].
    intros [= <-]. left. split; [reflexivity|].
    exists (List.length l). split; [reflexivity|].
    now apply nth_error_None.
  - intros [= <-]. right; right. split; [reflexivity | now exists d].
Qed.

Lemma py_float_raises (v : pyval) (e : exn) :
  py_float v = inl e ->
  (exn_cls e = TypeError /\ not_a_number v)
  \/ (exn_cls e = ValueError
      /\ exists s, v = PStr s /\ float_of_str s = None)
  \/ (exn_cls e = OverflowError
      /\ exists z, v = PInt z /\ overflow_bound <= Z.abs z).
Proof.
  destruct v as [| b | z | f | s | l | d]; simpl;
    try discriminate;
    try (intros [= <-]; left; split; [reflexivity | exact I]).
  - unfold float_of_int.
    destruct (Z.leb_spec overflow_bound (Z.abs z)); [|discriminate].
    intros [= <-]. right; right. split; [reflexivity | now exists z].
  - destruct (float_of_str s) eqn:Hs; [discriminate|].
    intros [= <-]. right; left. split; [reflexivity | now exists s].
Qed.

(** *** The conversion of the readings *)

Lemma convert_reading_ok (r : pyval) (x y : pyfloat) :
  convert_reading r = ok (x, y) <->
  exists a b,
    py_index r 0 = ok a /\ py_float a = ok x
    /\ py_index r 1 = ok b /\ py_float b = ok y.
Proof.
  unfold convert_reading, rbind, ok. split.
  - destruct (py_index r 0) as [e|a] eqn:Ha; [discriminate|].
    destruct (py_float a) as [e|x'] eqn:Hx; [discriminate|].
    destruct (py_index r 1) as [e|b] eqn:Hb; [discriminate|].
    destruct (py_float b) as [e|y'] eqn:Hy; [discriminate|].
    intros [= <- <-]. exists a, b. auto.
  - intros (a & b & -> & -> & -> & ->). reflexivity.
Qed.

Lemma convert_all_ok (l : list pyval) (out : readings) :
  convert_all l = ok out <->
  Forall2 (fun r xy => convert_reading r = ok xy) l out.
Proof.
  revert out. induction l as [|r l IH]; intros out; simpl.
  - split.
    + intros [= <-]. constructor.
    + intros H. inversion H. reflexivity.
  - unfold rbind. split.
    + destruct (convert_reading r) as [e|xy] eqn:Hr; [discriminate|].
      destruct (convert_all l) as [e|rest] eqn:Hl; [discriminate|].
      intros [= <-]. constructor; [assumption | now apply IH].
    + intros H. inversion H as [|r' xy l' rest Hr Hl]; subst.
      rewrite Hr. apply IH in Hl. rewrite Hl. reflexivity.
Qed.

Lemma convert_all_raises (l : list pyval) :
  Exists (fun r => exists e, convert_reading r = inl e) l ->
  exists e, convert_all l = inl e.
Proof.
  induction 1 as [r l [e He] | r l _ IH]; simpl; unfold rbind.
  - rewrite He. now exists e.
  - destruct (convert_reading r) as [e|xy]; [now exists e|].
    destruct IH as [e ->]. now exists e.
Qed.

Lemma Forall2_nth {A B} (R : A -> B -> Prop) (l : list A) (l' : list B) :
  Forall2 R l l' ->
  forall i a, nth_error l i = Some a ->
              exists b, nth_error l' i = Some b /\ R a b.
Proof.
  induction 1 as [|a0 b0 l l' Hab _ IH]; intros i a.
  - destruct i; discriminate.
  - destruct i as [|i]; simpl.
    + intros [= <-]. now exists b0.
    + apply IH.
Qed.

(** C4.  When the conversion of a reading sequence succeeds, the output
    has one pair per input element, in the same order: the pair at
    index [i] is made of the float conversions of the first and of the
    second component of the input element at index [i]. *)
Theorem conversion_keeps_order (v : pyval) (items : list pyval)
    (out : readings) :
  py_iter v = ok items ->
  convert_readings v = ok out ->
  List.length out = List.length items
  /\ forall i r, nth_error items i = Some r ->
       exists a b x y,
         py_index r 0 = ok a /\ py_index r 1 = ok b
         /\ py_float a = ok x /\ py_float b = ok y
         /\ nth_error out i = Some (x, y).
Proof.
  intros Hitems. unfold convert_readings. rewrite Hitems. simpl.
  intros Hout. apply convert_all_ok in Hout. split.
  - symmetry. eapply Forall2_length; eassumption.
  - intros i r Hr.
    destruct (Forall2_nth _ _ _ Hout i r Hr) as ([x y] & Hxy & Hconv).
    apply convert_reading_ok in Hconv.
    destruct Hconv as (a & b & Ha & Hx & Hb & Hy).
    exists a, b, x, y. auto.
Qed.

Lemma conversion_keeps_order_witness :
  let v := PList [PList [PInt 4; PStr "4.5"];
                  PList [PFloat (Fin (1 # 2)); PBool true; PNone]] in
  let out := [(Fin 4, Fin (9 # 2)); (Fin (1 # 2), Fin 1)] in
  convert_readings v = ok out
  /\ List.length out = 2%nat
  /\ forall i r,
       nth_error [PList [PInt 4; PStr "4.5"];
                  PList [PFloat (Fin (1 # 2)); PBool true; PNone]] i
       = Some r ->
       exists a b x y,
         py_index r 0 = ok a /\ py_index r 1 = ok b
         /\ py_float a = ok x /\ py_float b = ok y
         /\ nth_error out i = Some (x, y).
Proof.
  intros v out.
  assert (Hconv : convert_readings v = ok out) by (vm_compute; reflexivity).
  split; [exact Hconv|].
  exact (conversion_keeps_order v _ out eq_refl Hconv).
Defined.

Section Handler.

Variable P : Z -> readings -> readings -> list pyval -> pyval -> result pyval.

Local Abbreviation stored := (RoutesTerms.stored P).

Lemma stored_eq o p gp cc w x y :
  stored o p gp cc w x -> x = y -> stored o p gp cc w y.
Proof. now intros H <-. Qed.

Ltac same_world :=
  unfold with_rows, with_call, activity_row, calculation_row, call_of;
  cbn; rewrite <- ?app_assoc; reflexivity.

Lemma process_and_store_stored o p gp cc w :
  logged_in w = true ->
  stored o p gp cc w (process_and_store P o p gp cc w).
Proof.
  intros Hin. destruct (logged_in_user w Hin) as [uid Huid].
  unfold process_and_store, bind, lift, ret, call_process_experiment_data,
    log_activity, session_item, db_session_add, db_session_commit, bind.
  destruct (py_iter gp) as [e|labels] eqn:Hgp; [now constructor|].
  destruct (P (clock w) o p labels cc) as [e|result] eqn:HP;
    [now econstructor|].
  cbn. rewrite Huid. cbn.
  destruct (py_item result "mean_cv") as [e|m] eqn:Hm.
  { eapply stored_eq; [eapply stored_no_mean; eauto | same_world]. }
  destruct (py_item result "results") as [e|r1] eqn:H1.
  { eapply stored_eq;
      [eapply stored_no_field with (m := m); eauto | same_world].
    exists "results". split; [simpl; tauto | assumption]. }
  destruct (py_item result "model_calculation") as [e|r3] eqn:H3.
  { eapply stored_eq;
      [eapply stored_no_field with (m := m); eauto | same_world].
    exists "model_calculation". split; [simpl; tauto | assumption]. }
  destruct (py_item result "graph_base64") as [e|r4] eqn:H4.
  { eapply stored_eq;
      [eapply stored_no_field with (m := m); eauto | same_world].
    exists "graph_base64". split; [simpl; tauto | assumption]. }
  destruct (py_item result "pdf_base64") as [e|r5] eqn:H5.
  { eapply stored_eq;
      [eapply stored_no_field with (m := m); eauto | same_world].
    exists "pdf_base64". split; [simpl; tauto | assumption]. }
  eapply stored_eq; [eapply stored_success; eauto | same_world].
Qed.

(** Lines 106-126 for a request whose JSON body is a dict, with the
    four [data.get] calls resolved. *)
Lemma fluid_calculate_try_dict d w :
  fluid_calculate_try P (ok (PDict d)) w =
  let o := field d "orifice_readings" (PList []) in
  let p := field d "pitot_readings" (PList []) in
  let gp := field d "graph_params" (PList [PStr "V0"; PStr "Vp"]) in
  let cc := field d "constants" PNone in
  if (negb (truthy o) || negb (truthy p))%bool
  then (ok (error_response "No readings provided"), w)
  else
    match py_len o with
    | inl e => (inl e, w)
    | inr n_orifice =>
        match py_len p with
        | inl e => (inl e, w)
        | inr n_pitot =>
            if negb (Nat.eqb n_orifice n_pitot)
            then (ok (error_response
                        "Mismatched number of orifice and pitot readings"),
                  w)
            else
              match
                (let? o' := convert_readings o in
                 let? p' := convert_readings p in
                 ok (o', p'))
              with
              | inl e =>
                  if caught_by_conversion (exn_cls e)
                  then (ok (error_response invalid_format), w)
                  else (inl e, w)
              | inr (o', p') => process_and_store P o' p' gp cc w
              end
        end
    end.
Proof.
  unfold fluid_calculate_try, field, py_get, bind, lift, ret, ok.
  destruct (assoc "orifice_readings" d), (assoc "pitot_readings" d),
    (assoc "graph_params" d), (assoc "constants" d); cbn zeta;
    repeat match goal with
      | |- context [if ?b then _ else _] => destruct b
      | |- context [match ?x with inl _ => _ | inr _ => _ end] => destruct x
      | |- context [let (_, _) := ?x in _] => destruct x
      end; reflexivity.
Qed.

(** A request is either answered with an error before the pipeline is
    reached, leaving the world as it was, or handed to lines 128-159;
    which of the two, and with what arguments, depends on the request
    alone. *)
Lemma fluid_calculate_by_request req :
  (exists msg, forall w,
      logged_in w = true ->
      fluid_calculate P req w = (error_response msg, w))
  \/ (exists o p gp cc, forall w,
        logged_in w = true ->
        fluid_calculate P req w = finish (process_and_store P o p gp cc w)).
Proof.
  unfold fluid_calculate.
  destruct req as [e|data].
  { left. exists (exn_str e). intros w ->. reflexivity. }
  destruct data as [| b | z | f | s0 | l | d];
    try (left; eexists; intros w ->; reflexivity).
  fold (@ok pyval (PDict d)).
  assert (Hd : forall w, fluid_calculate_try P (ok (PDict d)) w = _)
    by (intros w; apply fluid_calculate_try_dict).
  cbv zeta in Hd.
  destruct (negb _ || negb _)%bool;
    [left; eexists; intros w ->; rewrite Hd; reflexivity|].
  destruct (py_len _) as [e|n1];
    [left; eexists; intros w ->; rewrite Hd; reflexivity|].
  destruct (py_len _) as [e|n2];
    [left; eexists; intros w ->; rewrite Hd; reflexivity|].
  destruct (negb (Nat.eqb n1 n2));
    [left; eexists; intros w ->; rewrite Hd; reflexivity|].
  destruct (let? o' := _ in _) as [e|[o' p']].
  - destruct (caught_by_conversion _);
      left; eexists; intros w ->; rewrite Hd; reflexivity.
  - right. do 4 eexists. intros w ->. rewrite Hd. reflexivity.
Qed.

Lemma fluid_calculate_cases req w :
  logged_in w = true ->
  (exists msg, fluid_calculate P req w = (error_response msg, w))
  \/ (exists o p gp cc,
        fluid_calculate P req w = finish (process_and_store P o p gp cc w)).
Proof.
  intros Hin.
  destruct (fluid_calculate_by_request req)
    as [[msg H] | (o & p & gp & cc & H)].
  - left. exists msg. now apply H.
  - right. exists o, p, gp, cc. now apply H.
Qed.

(** The same for a request whose two reading fields are lists. *)
Lemma fluid_calculate_lists d o p w :
  logged_in w = true ->
  field d "orifice_readings" (PList []) = PList o ->
  field d "pitot_readings" (PList []) = PList p ->
  fluid_calculate P (ok (PDict d)) w =
  if (is_nil o || is_nil p)%bool then (error_response no_readings, w)
  else if negb (Nat.eqb (List.length o) (List.length p))
  then (error_response mismatched, w)
  else
    match (let? o' := convert_all o in
           let? p' := convert_all p in ok (o', p')) with
    | inl e =>
        (error_response
           (if caught_by_conversion (exn_cls e) then invalid_format
            else exn_str e), w)
    | inr (o', p') =>
        finish (process_and_store P o' p'
                  (field d "graph_params" (PList [PStr "V0"; PStr "Vp"]))
                  (field d "constants" PNone) w)
    end.
Proof.
  intros Hin Ho Hp. unfold fluid_calculate. rewrite Hin. simpl negb.
  cbv iota. rewrite fluid_calculate_try_dict. cbv zeta.
  rewrite Ho, Hp.
  change (convert_readings (PList o)) with (convert_all o).
  change (convert_readings (PList p)) with (convert_all p).
  change (py_len (PList o)) with (@ok nat (List.length o)).
  change (py_len (PList p)) with (@ok nat (List.length p)).
  cbv beta iota delta [ok].
  destruct o as [|r o]; [reflexivity|].
  destruct p as [|r' p]; [reflexivity|].
  cbn [truthy List.length Nat.eqb negb orb is_nil].
  destruct (negb (Nat.eqb (List.length o) (List.length p)));
    [reflexivity|].
  destruct (rbind (convert_all (r :: o)) _) as [e|[o' p']]; [|reflexivity].
  destruct (caught_by_conversion _); reflexivity.
Qed.

(** C2.  When either reading sequence is empty or the two differ in
    length, the request is answered at once: nothing in the world
    changes (no call of the pipeline, no row added or committed), the
    response carries none of the report's fields, and for a logged-in
    user it is the error response of the failed check. *)
Theorem empty_or_mismatched_rejected d o p w :
  field d "orifice_readings" (PList []) = PList o ->
  field d "pitot_readings" (PList []) = PList p ->
  o = [] \/ p = [] \/ List.length o <> List.length p ->
  exists resp,
    fluid_calculate P (ok (PDict d)) w = (resp, w)
    /\ (forall k, In k report_fields -> body_field resp k = None)
    /\ (logged_in w = true ->
        resp = error_response no_readings
        \/ resp = error_response mismatched).
Proof.
  intros Ho Hp Hbad.
  destruct (logged_in w) eqn:Hin.
  - rewrite (fluid_calculate_lists d o p w Hin Ho Hp).
    destruct (is_nil o || is_nil p)%bool eqn:Hnil.
    { exists (error_response no_readings).
      split; [reflexivity|]. split; [apply error_response_fields | auto]. }
    destruct (negb (Nat.eqb (List.length o) (List.length p))) eqn:Hlen.
    { exists (error_response mismatched).
      split; [reflexivity|]. split; [apply error_response_fields | auto]. }
    exfalso. apply orb_false_iff in Hnil. destruct Hnil as [Hno Hnp].
    apply negb_false_iff, Nat.eqb_eq in Hlen.
    destruct Hbad as [-> | [-> | Hne]];
      [discriminate | discriminate | contradiction].
  - exists (Redirect "login"). unfold fluid_calculate. rewrite Hin.
    split; [reflexivity|]. split; [reflexivity | discriminate].
Qed.

(** A request whose readings all convert reaches the pipeline, which
    is called once, with the converted sequences. *)
Lemma accepted_request_calls d o p w o' p' labels :
  logged_in w = true ->
  field d "orifice_readings" (PList []) = PList o ->
  field d "pitot_readings" (PList []) = PList p ->
  o <> [] -> List.length o = List.length p ->
  convert_all o = ok o' -> convert_all p = ok p' ->
  py_iter (field d "graph_params" (PList [PStr "V0"; PStr "Vp"]))
  = ok labels ->
  calls (snd (fluid_calculate P (ok (PDict d)) w))
  = (calls w ++ [call_of o' p' labels (field d "constants" PNone)])%list.
Proof.
  intros Hin Ho Hp Hne Hlen Hco Hcp Hgp.
  rewrite (fluid_calculate_lists d o p w Hin Ho Hp).
  destruct o as [|r o]; [contradiction|].
  destruct p as [|r' p]; [discriminate|].
  cbn [is_nil orb]. rewrite Hlen, Nat.eqb_refl. cbn [negb].
  rewrite Hco, Hcp. cbn [rbind ok].
  pose proof (process_and_store_stored o' p'
                (field d "graph_params" (PList [PStr "V0"; PStr "Vp"]))
                (field d "constants" PNone) w Hin) as Hst.
  inversion Hst; subst; unfold finish;
    match goal with
    | H : py_iter _ = _ |- _ => rewrite Hgp in H; inversion H; subst
    end; reflexivity.
Qed.

(** A request whose readings all convert reaches the pipeline, and the
    outcome of the pipeline decides the answer. *)
Lemma accepted_request_handed d o p w o' p' labels :
  logged_in w = true ->
  field d "orifice_readings" (PList []) = PList o ->
  field d "pitot_readings" (PList []) = PList p ->
  o <> [] -> List.length o = List.length p ->
  convert_all o = ok o' -> convert_all p = ok p' ->
  py_iter (field d "graph_params" (PList [PStr "V0"; PStr "Vp"]))
  = ok labels ->
  handed_to_pipeline P d w o' p' labels (field d "constants" PNone).
Proof.
  intros Hin Ho Hp Hne Hlen Hco Hcp Hgp.
  split; [now apply accepted_request_calls with (o := o) (p := p)|].
  rewrite (fluid_calculate_lists d o p w Hin Ho Hp).
  destruct o as [|r o]; [contradiction|].
  destruct p as [|r' p]; [discriminate|].
  cbn [is_nil orb]. rewrite Hlen, Nat.eqb_refl. cbn [negb].
  rewrite Hco, Hcp. cbn [rbind ok].
  set (cc := field d "constants" PNone) in *.
  unfold finish, process_and_store, bind, lift, ret,
    call_process_experiment_data, log_activity, session_item,
    db_session_add, db_session_commit, bind.
  rewrite Hgp. cbn [ok]. split.
  - intros e HP. rewrite HP. reflexivity.
  - intros result uid r1 m r3 r4 r5 HP Huid H1 Hm H3 H4 H5.
    unfold ok in HP. rewrite HP. cbn. rewrite Huid. cbn.
    unfold ok in H1, Hm, H3, H4, H5.
    rewrite Hm, H1, H3, H4, H5. same_world.
Qed.

(** C3, as the handler has it.  If any element of either sequence
    cannot be converted by [(float(r[0]), float(r[1]))], the request is
    answered with an error response and the world is left as it was:
    the pipeline is not called and nothing is stored.  Values that
    [float] accepts are not rejected, infinities and NaN included:
    when every element converts, the sequences are non-empty and of
    equal length and [graph_params] can be unpacked into a tuple, the
    pipeline is called with the converted sequences, and its exception
    or its report decides the answer. *)
Theorem unconvertible_rejected d o p w :
  logged_in w = true ->
  field d "orifice_readings" (PList []) = PList o ->
  field d "pitot_readings" (PList []) = PList p ->
  (Exists (fun r => exists e, convert_reading r = inl e) (o ++ p) ->
   exists msg, fluid_calculate P (ok (PDict d)) w = (error_response msg, w))
  /\ (forall o' p' labels,
        o <> [] -> List.length o = List.length p ->
        convert_all o = ok o' -> convert_all p = ok p' ->
        py_iter (field d "graph_params" (PList [PStr "V0"; PStr "Vp"]))
        = ok labels ->
        handed_to_pipeline P d w o' p' labels (field d "constants" PNone)).
Proof.
  intros Hin Ho Hp. split.
  - rewrite (fluid_calculate_lists d o p w Hin Ho Hp).
    intros Hex.
    destruct (is_nil o || is_nil p)%bool; [eexists; reflexivity|].
    destruct (negb _); [eexists; reflexivity|].
    apply Exists_app in Hex. unfold rbind.
    destruct (convert_all o) as [e|o'] eqn:Hco; [eexists; reflexivity|].
    destruct (convert_all p) as [e|p'] eqn:Hcp; [eexists; reflexivity|].
    exfalso. destruct Hex as [Hex | Hex];
      apply convert_all_raises in Hex; destruct Hex as [e He]; congruence.
  - intros o' p' labels Hne Hlen Hco Hcp Hgp.
    now apply accepted_request_handed with (o := o) (p := p).
Qed.

Lemma convert_all_first (l : list pyval) (e : exn) :
  convert_all l = inl e -> exists r, In r l /\ convert_reading r = inl e.
Proof.
  induction l as [|r l IH]; simpl; [discriminate|]. unfold rbind.
  destruct (convert_reading r) as [e'|xy] eqn:Hr.
  - intros [= ->]. exists r. split; [now left | assumption].
  - destruct (convert_all l) as [e'|rest]; [|discriminate].
    intros [= ->]. destruct (IH eq_refl) as (r' & Hin & Hr').
    exists r'. split; [now right | assumption].
Qed.

Lemma conversion_raises (o p : list pyval) (e : exn) :
  conversion o p = inl e ->
  exists r, In r (o ++ p) /\ convert_reading r = inl e.
Proof.
  unfold conversion, rbind.
  destruct (convert_all o) as [e'|o'] eqn:Ho.
  - intros [= ->]. destruct (convert_all_first o e Ho) as (r & Hin & Hr).
    exists r. split; [apply in_or_app; now left | assumption].
  - destruct (convert_all p) as [e'|p'] eqn:Hp; [|discriminate].
    intros [= ->]. destruct (convert_all_first p e Hp) as (r & Hin & Hr).
    exists r. split; [apply in_or_app; now right | assumption].
Qed.

Lemma convert_reading_failure (r : pyval) (e : exn) :
  convert_reading r = inl e -> conversion_failure r e.
Proof.
  unfold convert_reading, rbind, conversion_failure, rejection_cause.
  destruct (py_index r 0) as [e0|a] eqn:Ha.
  { intros [= ->].
    destruct (py_index_raises _ _ _ Ha)
      as [[Hcls (n & Hn & Hle)] | [[Hcls Hr] | [Hcls Hd]]];
      rewrite Hcls.
    - exists n. split; [assumption | lia].
    - now left.
    - assumption. }
  destruct (py_float a) as [e0|x] eqn:Hx.
  { intros [= ->].
    destruct (py_float_raises _ _ Hx)
      as [[Hcls Hv] | [[Hcls (s & -> & Hs)] | [Hcls (z & -> & Hz)]]];
      rewrite Hcls.
    - right. exists 0%nat, a. repeat split; [lia | assumption..].
    - exists 0%nat, s. repeat split; [lia | assumption..].
    - exists 0%nat, z. repeat split; [lia | assumption..]. }
  destruct (py_index r 1) as [e0|b] eqn:Hb.
  { intros [= ->].
    destruct (py_index_raises _ _ _ Hb)
      as [[Hcls (n & Hn & Hle)] | [[Hcls Hr] | [Hcls Hd]]];
      rewrite Hcls.
    - exists n. split; [assumption | lia].
    - now left.
    - assumption. }
  destruct (py_float b) as [e0|y] eqn:Hy; [|discriminate].
  intros [= ->].
  destruct (py_float_raises _ _ Hy)
    as [[Hcls Hv] | [[Hcls (s & -> & Hs)] | [Hcls (z & -> & Hz)]]];
    rewrite Hcls.
  - right. exists 1%nat, b. repeat split; [lia | assumption..].
  - exists 1%nat, s. repeat split; [lia | assumption..].
  - exists 1%nat, z. repeat split; [lia | assumption..].
Qed.

Lemma first_two_converts (l : list pyval) (out : readings) :
  Forall2 first_two l out -> convert_all l = ok out.
Proof.
  intros H. apply convert_all_ok.
  eapply Forall2_impl; [|exact H].
  intros r [x y] (a & b & Ha & Hb & Hx & Hy). apply convert_reading_ok.
  exists a, b. auto.
Qed.

(** C10, as the handler has it, for a logged-in user and two reading
    lists that are not empty and of one length.  Elements whose first
    two components convert to floats are accepted, whatever follows
    the two: the pipeline is called with the pairs made of the two
    values alone, and its outcome decides the answer.  The validation
    rejects the request exactly when the conversion of an element
    raises, and then the pipeline is not called and nothing is stored:
    for [IndexError] (a component is missing), [ValueError] and
    [TypeError] (a value is not numeric, or the element cannot be
    indexed) the answer is 'Invalid reading format'; for the other two
    exceptions the conversion can raise, the [OverflowError] of an
    integer too large for a float and the [KeyError] of an element
    that is a JSON object, the answer carries the text of the
    exception. *)
Theorem conversion_takes_first_two d o p w :
  logged_in w = true ->
  field d "orifice_readings" (PList []) = PList o ->
  field d "pitot_readings" (PList []) = PList p ->
  o <> [] -> List.length o = List.length p ->
  (forall o' p' labels,
      Forall2 first_two o o' -> Forall2 first_two p p' ->
      py_iter (field d "graph_params" (PList [PStr "V0"; PStr "Vp"]))
      = ok labels ->
      handed_to_pipeline P d w o' p' labels (field d "constants" PNone))
  /\ (forall a b extra x y,
        py_float a = ok x -> py_float b = ok y ->
        first_two (PList (a :: b :: extra)) (x, y))
  /\ (forall e,
        conversion o p = inl e ->
        fluid_calculate P (ok (PDict d)) w = (rejection e, w)
        /\ exists r, In r (o ++ p) /\ convert_reading r = inl e
                     /\ conversion_failure r e)
  /\ ((exists e, conversion o p = inl e)
      <-> Exists (fun r => exists e, convert_reading r = inl e) (o ++ p)).
Proof.
  intros Hin Ho Hp Hne Hlen. split; [|split; [|split]].
  - intros o' p' labels Hfo Hfp Hgp.
    apply accepted_request_handed with (o := o) (p := p); try assumption;
      now apply first_two_converts.
  - intros a b extra x y Hx Hy. exists a, b. repeat split; assumption.
  - intros e He. split.
    + rewrite (fluid_calculate_lists d o p w Hin Ho Hp).
      destruct o as [|r o]; [contradiction|].
      destruct p as [|r' p]; [discriminate|].
      cbn [is_nil orb]. rewrite Hlen, Nat.eqb_refl. cbn [negb].
      unfold conversion in He. rewrite He. reflexivity.
    + destruct (conversion_raises o p e He) as (r & Hr & Hconv).
      exists r. split; [assumption|]. split; [assumption|].
      now apply convert_reading_failure.
  - split.
    + intros [e He]. destruct (conversion_raises o p e He) as (r & Hr & Hconv).
      apply Exists_exists. exists r. split; [assumption | now exists e].
    + intros Hex. apply Exists_app in Hex. unfold conversion, rbind.
      destruct (convert_all o) as [e|o'] eqn:Hco; [now exists e|].
      destruct (convert_all p) as [e|p'] eqn:Hcp; [now exists e|].
      exfalso. destruct Hex as [Hex | Hex];
        apply convert_all_raises in Hex; destruct Hex as [e He]; congruence.
Qed.


(** C5.  For a logged-in user the response is either an error response,
    with none of the report's fields, or the full report of a pipeline
    call that succeeded; and when the pipeline call raises, the response
    is the error response made of that exception. *)
Theorem error_or_full_report req w resp w' :
  logged_in w = true ->
  fluid_calculate P req w = (resp, w') ->
  ((exists msg, resp = error_response msg
                /\ forall k, In k report_fields -> body_field resp k = None)
   \/ (exists a result r1 r2 r3 r4 r5,
         calls w' = (calls w ++ [a])%list
         /\ P (clock w) (arg_orifice a) (arg_pitot a)
              (arg_graph_params a) (arg_constants a) = ok result
         /\ py_item result "results" = ok r1
         /\ py_item result "mean_cv" = ok r2
         /\ py_item result "model_calculation" = ok r3
         /\ py_item result "graph_base64" = ok r4
         /\ py_item result "pdf_base64" = ok r5
         /\ resp = success_response r1 r2 r3 r4 r5))
  /\ (forall a e,
        calls w' = (calls w ++ [a])%list ->
        P (clock w) (arg_orifice a) (arg_pitot a)
          (arg_graph_params a) (arg_constants a) = inl e ->
        resp = error_response (exn_str e)).
Proof.
  intros Hin Hrun.
  destruct (fluid_calculate_cases req w Hin)
    as [[msg Hmsg] | (o & p & gp & cc & Hps)].
  - rewrite Hmsg in Hrun. inversion Hrun; subst. split.
    + left. exists msg. split; [reflexivity | apply error_response_fields].
    + intros a e Hcalls _. exfalso.
      apply (f_equal (@List.length _)) in Hcalls.
      rewrite length_app in Hcalls. simpl in Hcalls. lia.
  - rewrite Hps in Hrun.
    pose proof (process_and_store_stored o p gp cc w Hin) as Hst.
    inversion Hst as [e Hgp Heq | labels e Hgp HP Heq
                     | labels result uid e Hgp HP Huid Hm Heq
                     | labels result uid m e Hgp HP Huid Hm Hk Heq
                     | labels result uid m r1 r3 r4 r5
                         Hgp HP Huid Hm H1 H3 H4 H5 Heq];
      rewrite <- Heq in Hrun; unfold finish in Hrun;
      inversion Hrun; subst resp w'; clear Hrun.
    + split.
      * left. eexists. split; [reflexivity | apply error_response_fields].
      * intros a e' Hcalls _. exfalso.
        apply (f_equal (@List.length _)) in Hcalls.
        rewrite length_app in Hcalls. simpl in Hcalls. lia.
    + split.
      * left. eexists. split; [reflexivity | apply error_response_fields].
      * intros a e' Hcalls HPa. cbn [calls with_call] in Hcalls.
        apply app_inj_tail in Hcalls. destruct Hcalls as [_ <-].
        cbn in HPa. rewrite HP in HPa. inversion HPa. reflexivity.
    + split.
      * left. eexists. split; [reflexivity | apply error_response_fields].
      * intros a e' Hcalls HPa. cbn [calls with_call with_rows] in Hcalls.
        apply app_inj_tail in Hcalls. destruct Hcalls as [_ <-].
        cbn in HPa. rewrite HP in HPa. discriminate.
    + split.
      * left. eexists. split; [reflexivity | apply error_response_fields].
      * intros a e' Hcalls HPa. cbn [calls with_call with_rows] in Hcalls.
        apply app_inj_tail in Hcalls. destruct Hcalls as [_ <-].
        cbn in HPa. rewrite HP in HPa. discriminate.
    + split.
      * right. exists (call_of o p labels cc), result, r1, m, r3, r4, r5.
        cbn. repeat split; assumption.
      * intros a e' Hcalls HPa. cbn [calls with_call with_rows] in Hcalls.
        apply app_inj_tail in Hcalls. destruct Hcalls as [_ <-].
        cbn in HPa. rewrite HP in HPa. discriminate.
Qed.

(** C8.  Whenever the pipeline call of a request returns a result with
    a [mean_cv], the handler commits exactly two new rows, in this
    order: the activity entry and one Calculation whose [mass_needed] is
    that [mean_cv] and whose reagent is the Pitot-tube label.  In
    particular a request answered with the report (status 200) has
    stored the [mean_cv] of its response. *)
Theorem success_stores_mean_cv req w resp w' :
  fluid_calculate P req w = (resp, w') ->
  (forall a result m,
      calls w' = (calls w ++ [a])%list ->
      P (clock w) (arg_orifice a) (arg_pitot a)
        (arg_graph_params a) (arg_constants a) = ok result ->
      py_item result "mean_cv" = ok m ->
      exists uid n c,
        assoc "user_id" (session w) = Some uid
        /\ mass_needed c = m
        /\ reagent c = "Pitot Tube Experiment"
        /\ user_id c = uid
        /\ committed w' =
           (committed w ++ pending w ++
            [activity_row uid n; CalculationRow c])%list
        /\ pending w' = [])
  /\ (forall body,
        resp = Json body 200 ->
        exists uid n m c,
          assoc "user_id" (session w) = Some uid
          /\ assoc "mean_cv" body = Some m
          /\ mass_needed c = m
          /\ reagent c = "Pitot Tube Experiment"
          /\ user_id c = uid
          /\ committed w' =
             (committed w ++ pending w ++
              [activity_row uid n; CalculationRow c])%list
          /\ pending w' = []).
Proof.
  intros Hrun.
  assert (Hlen : forall a, calls w = (calls w ++ [a])%list -> False).
  { intros a H. apply (f_equal (@List.length _)) in H.
    rewrite length_app in H. simpl in H. lia. }
  destruct (logged_in w) eqn:Hin.
  2:{ unfold fluid_calculate in Hrun. rewrite Hin in Hrun.
      inversion Hrun; subst. split.
      - intros a result m Hcalls. now apply Hlen in Hcalls.
      - discriminate. }
  destruct (fluid_calculate_cases req w Hin)
    as [[msg Hmsg] | (o & p & gp & cc & Hps)].
  { rewrite Hmsg in Hrun. inversion Hrun; subst. split.
    - intros a result m Hcalls. now apply Hlen in Hcalls.
    - discriminate. }
  rewrite Hps in Hrun.
  pose proof (process_and_store_stored o p gp cc w Hin) as Hst.
  inversion Hst as [e Hgp Heq | labels e Hgp HP Heq
                   | labels result uid e Hgp HP Huid Hm Heq
                   | labels result uid m e Hgp HP Huid Hm Hk Heq
                   | labels result uid m r1 r3 r4 r5
                       Hgp HP Huid Hm H1 H3 H4 H5 Heq];
    rewrite <- Heq in Hrun; unfold finish in Hrun;
    inversion Hrun; subst resp w'; clear Hrun;
    (split; [|try discriminate]).
  - intros a result m Hcalls. now apply Hlen in Hcalls.
  - intros a result m Hcalls HPa. cbn [calls with_call] in Hcalls.
    apply app_inj_tail in Hcalls. destruct Hcalls as [_ <-].
    cbn in HPa. rewrite HP in HPa. discriminate.
  - intros a result' m Hcalls HPa Hm'.
    cbn [calls with_call with_rows] in Hcalls.
    apply app_inj_tail in Hcalls. destruct Hcalls as [_ <-].
    cbn in HPa. rewrite HP in HPa. inversion HPa; subst result'.
    rewrite Hm in Hm'. discriminate.
  - intros a result' m' Hcalls HPa Hm'.
    cbn [calls with_call with_rows] in Hcalls.
    apply app_inj_tail in Hcalls. destruct Hcalls as [_ <-].
    cbn in HPa. rewrite HP in HPa. inversion HPa; subst result'.
    rewrite Hm in Hm'. inversion Hm'; subst m'.
    exists uid, (List.length o),
      {| user_id := uid; reagent := "Pitot Tube Experiment";
         formula := "Cv = V0/Vp"; molarity := 0; volume := 0;
         mass_needed := m |}.
    repeat split; assumption.
  - intros a result' m' Hcalls HPa Hm'.
    cbn [calls with_call with_rows] in Hcalls.
    apply app_inj_tail in Hcalls. destruct Hcalls as [_ <-].
    cbn in HPa. rewrite HP in HPa. inversion HPa; subst result'.
    rewrite Hm in Hm'. inversion Hm'; subst m'.
    exists uid, (List.length o),
      {| user_id := uid; reagent := "Pitot Tube Experiment";
         formula := "Cv = V0/Vp"; molarity := 0; volume := 0;
         mass_needed := m |}.
    repeat split; assumption.
  - intros body Hbody. inversion Hbody; subst body.
    exists uid, (List.length o), m,
      {| user_id := uid; reagent := "Pitot Tube Experiment";
         formula := "Cv = V0/Vp"; molarity := 0; volume := 0;
         mass_needed := m |}.
    repeat split; assumption.
Qed.

End Handler.

(** *** Sample runs *)

Lemma empty_or_mismatched_rejected_witness :
  exists resp,
    fluid_calculate sample_pipeline
      (ok (PDict (request [pair (PInt 1) (PInt 2); pair (PInt 3) (PInt 4);
                           pair (PInt 5) (PInt 6)]
                          [pair (PInt 1) (PInt 2); pair (PInt 3) (PInt 4)])))
      sample_world
    = (resp, sample_world)
    /\ (forall k, In k report_fields -> body_field resp k = None)
    /\ (logged_in sample_world = true ->
        resp = error_response no_readings
        \/ resp = error_response mismatched).
Proof.
  apply (empty_or_mismatched_rejected sample_pipeline _
           [pair (PInt 1) (PInt 2); pair (PInt 3) (PInt 4);
            pair (PInt 5) (PInt 6)]
           [pair (PInt 1) (PInt 2); pair (PInt 3) (PInt 4)]).
  - reflexivity.
  - reflexivity.
  - right; right. simpl. lia.
Defined.

(** C3 as stated fails: the readings of [non_finite_request] are not
    pairs of finite reals, yet whatever the pipeline is, the request
    is not answered with an error that leaves the world as it was:
    the readings pass the validation of the handler, which calls the
    pipeline with the infinity and the NaN and answers as the pipeline
    decides. *)
Lemma non_finite_accepted :
  Exists (fun r => ~ finite_reading r)
    ([pair (PFloat PosInf) (PInt 1)] ++ [pair (PInt 1) (PFloat NaN)])
  /\ (forall P,
        ~ exists msg,
            fluid_calculate P (ok (PDict non_finite_request)) sample_world
            = (error_response msg, sample_world))
  /\ (forall P,
        handed_to_pipeline P non_finite_request sample_world
          [(PosInf, Fin 1)] [(Fin 1, NaN)] [PStr "V0"; PStr "Vp"] PNone).
Proof.
  assert (Hhanded : forall P,
             handed_to_pipeline P non_finite_request sample_world
               [(PosInf, Fin 1)] [(Fin 1, NaN)] [PStr "V0"; PStr "Vp"]
               PNone).
  { intros P.
    apply (accepted_request_handed P non_finite_request
             [pair (PFloat PosInf) (PInt 1)] [pair (PInt 1) (PFloat NaN)]
             sample_world);
      solve [reflexivity | discriminate]. }
  split; [|split; [|exact Hhanded]].
  - apply Exists_cons_hd. intros (x & y & Hxy). vm_compute in Hxy.
    discriminate.
  - intros P [msg Hmsg]. destruct (Hhanded P) as [Hcalls _].
    rewrite Hmsg in Hcalls. discriminate.
Qed.

Lemma unconvertible_rejected_witness :
  (exists msg,
      fluid_calculate sample_pipeline
        (ok (PDict (request [pair (PInt 1) (PStr "abc")]
                            [pair (PInt 1) (PInt 2)]))) sample_world
      = (error_response msg, sample_world))
  /\ handed_to_pipeline sample_pipeline non_finite_request sample_world
       [(PosInf, Fin 1)] [(Fin 1, NaN)] [PStr "V0"; PStr "Vp"] PNone.
Proof.
  split.
  - apply (proj1 (unconvertible_rejected sample_pipeline
                    (request [pair (PInt 1) (PStr "abc")]
                             [pair (PInt 1) (PInt 2)])
                    [pair (PInt 1) (PStr "abc")] [pair (PInt 1) (PInt 2)]
                    sample_world eq_refl eq_refl eq_refl)).
    apply Exists_cons_hd. eexists. vm_compute. reflexivity.
  - apply (proj2 (unconvertible_rejected sample_pipeline non_finite_request
                    [pair (PFloat PosInf) (PInt 1)]
                    [pair (PInt 1) (PFloat NaN)]
                    sample_world eq_refl eq_refl eq_refl));
      solve [reflexivity | discriminate].
Defined.

(** C10 as stated fails: [huge_reading] has its two components, both
    of them numbers, and the validation rejects it all the same.  The
    conversion raises an [OverflowError], which is none of the three
    exceptions the claim names; the request is answered with the text
    of the exception, whatever the pipeline is, and the world is left
    as it was. *)
Lemma huge_integer_rejected :
  py_len huge_reading = ok 2%nat
  /\ py_index huge_reading 0 = ok (PInt huge)
  /\ py_index huge_reading 1 = ok (PInt 1)
  /\ convert_reading huge_reading
     = inl (Raise OverflowError "int too large to convert to float")
  /\ ~ (forall r e, convert_reading r = inl e -> rejection_cause r e)
  /\ (forall P,
        fluid_calculate P (ok (PDict huge_request)) sample_world
        = (error_response "int too large to convert to float",
           sample_world)).
Proof.
  assert (Hconv : convert_reading huge_reading
                  = inl (Raise OverflowError
                           "int too large to convert to float"))
    by (vm_compute; reflexivity).
  split; [reflexivity|]. split; [reflexivity|]. split; [reflexivity|].
  split; [exact Hconv|]. split.
  - intros H. exact (H _ _ Hconv).
  - intros P.
    rewrite (fluid_calculate_lists P huge_request
               [huge_reading] [pair (PInt 1) (PInt 1)] sample_world
               eq_refl eq_refl eq_refl).
    cbn [is_nil orb List.length Nat.eqb negb convert_all].
    rewrite Hconv. reflexivity.
Qed.

Lemma conversion_takes_first_two_witness :
  handed_to_pipeline sample_pipeline
    (request [PList [PInt 3; PStr "2.5"; PStr "extra"; PNone]]
             [PList [PInt 1; PInt 2; PInt 9]])
    sample_world
    [(Fin (inject_Z 3), Fin (5 # 2))]
    [(Fin (inject_Z 1), Fin (inject_Z 2))]
    [PStr "V0"; PStr "Vp"] PNone
  /\ fluid_calculate sample_pipeline
       (ok (PDict (request [PList [PInt 3]] [pair (PInt 1) (PInt 2)])))
       sample_world
     = (error_response invalid_format, sample_world).
Proof.
  split.
  - apply (proj1 (conversion_takes_first_two sample_pipeline
                    (request [PList [PInt 3; PStr "2.5"; PStr "extra"; PNone]]
                             [PList [PInt 1; PInt 2; PInt 9]])
                    [PList [PInt 3; PStr "2.5"; PStr "extra"; PNone]]
                    [PList [PInt 1; PInt 2; PInt 9]]
                    sample_world eq_refl eq_refl eq_refl
                    ltac:(discriminate) eq_refl)).
    + constructor; [|constructor].
      exists (PInt 3), (PStr "2.5"). repeat split; vm_compute; reflexivity.
    + constructor; [|constructor].
      exists (PInt 1), (PInt 2). repeat split; vm_compute; reflexivity.
    + reflexivity.
  - apply (proj1 (proj1 (proj2 (proj2
             (conversion_takes_first_two sample_pipeline
                (request [PList [PInt 3]] [pair (PInt 1) (PInt 2)])
                [PList [PInt 3]] [pair (PInt 1) (PInt 2)]
                sample_world eq_refl eq_refl eq_refl
                ltac:(discriminate) eq_refl)))
             (Raise IndexError "list index out of range") eq_refl)).
Defined.


Lemma error_or_full_report_witness :
  fst (fluid_calculate failing_pipeline
         (ok (PDict (request [pair (PInt 1) (PInt 2)]
                             [pair (PInt 3) (PInt 4)]))) sample_world)
  = error_response "zero variance".
Proof.
  set (run := fluid_calculate failing_pipeline
                (ok (PDict (request [pair (PInt 1) (PInt 2)]
                                    [pair (PInt 3) (PInt 4)])))
                sample_world).
  apply (proj2 (error_or_full_report failing_pipeline _ sample_world
                  (fst run) (snd run) eq_refl
                  (surjective_pairing run))
           (call_of [(Fin 1, Fin 2)] [(Fin 3, Fin 4)]
              [PStr "V0"; PStr "Vp"] PNone)
           (Raise (UserError "DegenerateFitError") "zero variance"));
    reflexivity.
Defined.

Lemma success_stores_mean_cv_witness :
  exists uid n m c,
    assoc "user_id" (session sample_world) = Some uid
    /\ assoc "mean_cv"
         [("success", PBool true); ("results", PList []);
          ("mean_cv", PFloat (Fin (3 # 2)));
          ("model_calculation", PStr "V0 = 2.0000*Vp + 1.0000");
          ("graph_base64", PStr "aW1n"); ("pdf_base64", PStr "cGRm")]
       = Some m
    /\ mass_needed c = m
    /\ reagent c = "Pitot Tube Experiment"
    /\ user_id c = uid
    /\ committed
         (snd (fluid_calculate sample_pipeline
                 (ok (PDict (request [pair (PInt 1) (PInt 2)]
                                     [pair (PInt 3) (PInt 4)])))
                 sample_world))
       = (committed sample_world ++ pending sample_world ++
          [activity_row uid n; CalculationRow c])%list
    /\ pending
         (snd (fluid_calculate sample_pipeline
                 (ok (PDict (request [pair (PInt 1) (PInt 2)]
                                     [pair (PInt 3) (PInt 4)])))
                 sample_world))
       = [].
Proof.
  set (run := fluid_calculate sample_pipeline
                (ok (PDict (request [pair (PInt 1) (PInt 2)]
                                    [pair (PInt 3) (PInt 4)])))
                sample_world).
  apply (proj2 (success_stores_mean_cv sample_pipeline _ sample_world
                  (fst run) (snd run) (surjective_pairing run))).
  reflexivity.
Defined.

End RoutesFacts.

(** ** The pipeline of the specification *)

Module FluidFacts.
Import Py FluidMechanics FluidTerms.

Local Open Scope result_scope.
Local Open Scope Q_scope.

Lemma qsum_app (l l' : list Q) : qsum (l ++ l') == qsum l + qsum l'.
Proof.
  induction l as [|x l IH]; simpl.
  - now rewrite Qplus_0_l.
  - rewrite IH. apply Qplus_assoc.
Qed.

(** The loop, for any state of its three accumulators. *)
Lemma estimate_loop_spec (vs : list (Q * Q)) :
  forall kept total n,
    fst (fst (estimate_loop vs kept total n)) = (kept ++ kept_points vs)%list
    /\ snd (fst (estimate_loop vs kept total n))
       == total + qsum (map cv (kept_points vs))
    /\ snd (estimate_loop vs kept total n) = (n + excluded vs)%nat.
Proof.
  unfold kept_points, excluded.
  induction vs as [|[v0 vp] vs IH]; intros kept total n; simpl.
  - rewrite app_nil_r, Qplus_0_r, Nat.add_0_r. repeat split; reflexivity.
  - change (usable (v0, vp)) with (negb (Qeq_bool vp 0)).
    destruct (Qeq_bool vp 0) eqn:Hvp; simpl negb; cbv iota.
    + destruct (IH kept total (S n)) as (Hk & Ht & Hn).
      rewrite Hk, Ht, Hn. simpl List.length.
      repeat split; try reflexivity. lia.
    + destruct (IH (kept ++ [{| V0 := v0; Vp := vp; cv := v0 / vp |}])%list
                  (total + v0 / vp) n) as (Hk & Ht & Hn).
      rewrite Hk, Ht, Hn. simpl map. rewrite <- app_assoc. simpl qsum.
      repeat split; try reflexivity.
      unfold point_of at 1. simpl cv. simpl fst. simpl snd.
      now rewrite Qplus_assoc.
Qed.

Lemma filter_split {A} (f : A -> bool) (l : list A) :
  (List.length (filter f l)
   + List.length (filter (fun x => negb (f x)) l))%nat = List.length l.
Proof.
  induction l as [|x l IH]; simpl; [reflexivity|].
  destruct (f x); simpl; lia.
Qed.

Lemma kept_plus_excluded (vs : list (Q * Q)) :
  (List.length (kept_points vs) + excluded vs)%nat = List.length vs.
Proof.
  unfold kept_points, excluded. rewrite length_map.
  rewrite <- (filter_split usable vs). f_equal.
  f_equal. apply filter_ext. intros v. unfold usable.
  now rewrite negb_involutive.
Qed.

Lemma kept_points_nonempty (vs : list (Q * Q)) :
  Exists (fun v => ~ snd v == 0) vs -> kept_points vs <> [].
Proof.
  unfold kept_points.
  induction 1 as [v vs Hv | v vs _ IH]; simpl.
  - unfold usable at 1. destruct (Qeq_bool (snd v) 0) eqn:E.
    + apply Qeq_bool_eq in E. contradiction.
    + discriminate.
  - destruct (usable v); [discriminate | assumption].
Qed.

Lemma kept_points_cv (vs : list (Q * Q)) :
  Forall (fun pt => cv pt = V0 pt / Vp pt /\ ~ Vp pt == 0) (kept_points vs).
Proof.
  unfold kept_points. apply Forall_map, Forall_forall.
  intros v Hv. apply filter_In in Hv. destruct Hv as [_ Hv].
  split; [reflexivity|]. simpl. unfold usable in Hv.
  apply negb_true_iff in Hv. now apply Qeq_bool_neq.
Qed.

(** The estimator is total on a set with a usable point, and its
    result is the filter, the count and the mean. *)
Lemma estimate_cv_spec (vs : list (Q * Q)) :
  Exists (fun v => ~ snd v == 0) vs ->
  exists est,
    estimate_cv vs = ok est
    /\ points est = kept_points vs
    /\ excluded_count est = excluded vs
    /\ mean_cv est == qmean (map cv (points est)).
Proof.
  intros Hex. unfold estimate_cv.
  destruct (estimate_loop_spec vs [] 0 O) as (Hk & Ht & Hn).
  destruct (estimate_loop vs [] 0 0) as [[kept total] n].
  simpl in Hk, Ht, Hn. subst kept n.
  destruct (kept_points vs) as [|pt pts] eqn:Hkept.
  { now apply kept_points_nonempty in Hex. }
  simpl is_nil. cbv iota. eexists. split; [reflexivity|].
  cbn [points excluded_count mean_cv].
  repeat split. unfold qmean, qcount. rewrite Ht, Qplus_0_l.
  rewrite length_map. reflexivity.
Qed.

Lemma finite_all_length l l' :
  finite_all l = Some l' -> List.length l' = List.length l.
Proof.
  revert l'. induction l as [|x l IH]; intros l'; simpl.
  - now intros [= <-].
  - destruct (finite_pair x); [|discriminate].
    destruct (finite_all l) as [qs|]; [|discriminate].
    intros [= <-]. simpl. f_equal. now apply IH.
Qed.

Lemma validate_readings_length o p o' p' :
  validate_readings o p = ok (o', p') ->
  List.length (combine o' p') = List.length o.
Proof.
  unfold validate_readings.
  destruct (is_nil o || is_nil p)%bool; [discriminate|].
  destruct (Nat.eqb (List.length o) (List.length p)) eqn:Hlen;
    [|discriminate].
  simpl negb. cbv iota.
  destruct (finite_all o) as [a|] eqn:Ha; [|discriminate].
  destruct (finite_all p) as [b|] eqn:Hb; [|discriminate].
  intros [= <- <-]. rewrite length_combine.
  apply finite_all_length in Ha, Hb. apply Nat.eqb_eq in Hlen. lia.
Qed.

Section Pipeline.

Variable A_ratio_default : Q.
Variable sqrt : Q -> Q.
Variable orifice_raw : Q * Q -> Q.
Variable pitot_raw : Q * Q -> Q.
Variable fmt4 : Q -> string.
Variable render :
  list pyval -> list CalibrationPoint -> ModelFit -> result string.
Variable assemble :
  Z -> list CalibrationPoint -> Q -> string -> string -> result string.

Local Abbreviation speeds :=
  (FluidTerms.speeds A_ratio_default sqrt orifice_raw pitot_raw).
Local Abbreviation run :=
  (FluidTerms.run A_ratio_default sqrt orifice_raw pitot_raw fmt4 render
     assemble).
Local Abbreviation before_report :=
  (FluidTerms.before_report A_ratio_default sqrt orifice_raw pitot_raw
     fmt4 render).

Lemma run_stages now o p labels cc :
  run now o p labels cc =
  let? (est, model, graph) := before_report o p labels cc in
  let? pdf :=
    assemble now (points est) (mean_cv est) (equation_text model) graph in
  ok (PDict [("results", PList (result_rows 1 (points est)));
             ("mean_cv", PFloat (Fin (mean_cv est)));
             ("model_calculation", PStr (equation_text model));
             ("graph_base64", PStr graph);
             ("pdf_base64", PStr pdf)]).
Proof.
  unfold run, process_experiment_data, before_report, speeds, rbind.
  destruct (validate_readings o p) as [e|[o' p']]; [reflexivity|].
  destruct (estimate_cv _) as [e|est]; [reflexivity|].
  destruct (fit fmt4 (points est)) as [e|model]; [reflexivity|].
  destruct (render labels (points est) model) as [e|graph]; reflexivity.
Qed.

(** C1.  For an accepted reading set in which some point has a pitot
    velocity other than 0, the estimator returns: it keeps exactly the
    points with [Vp <> 0], in order, each with [cv = V0 / Vp]; it counts
    the others as excluded; its [mean_cv] is the arithmetic mean of the
    [cv] of the points it kept.  Every report the pipeline returns for
    that set carries this [mean_cv] and these points. *)
Theorem mean_cv_over_kept_points now o p labels cc o' p' :
  validate_readings o p = ok (o', p') ->
  Exists (fun v => ~ snd v == 0) (speeds cc o' p') ->
  exists est,
    estimate_cv (speeds cc o' p') = ok est
    /\ points est = kept_points (speeds cc o' p')
    /\ excluded_count est = excluded (speeds cc o' p')
    /\ (List.length (points est) + excluded_count est)%nat = List.length o
    /\ Forall (fun pt => cv pt = V0 pt / Vp pt /\ ~ Vp pt == 0) (points est)
    /\ mean_cv est == qmean (map cv (points est))
    /\ forall r,
         run now o p labels cc = ok r ->
         py_item r "mean_cv" = ok (PFloat (Fin (mean_cv est)))
         /\ py_item r "results" = ok (PList (result_rows 1 (points est))).
Proof.
  intros Hval Hex.
  destruct (estimate_cv_spec _ Hex) as (est & Hest & Hpts & Hexc & Hmean).
  exists est. split; [assumption|]. split; [assumption|].
  split; [assumption|]. split; [|split; [|split; [assumption|]]].
  - rewrite Hpts, Hexc, kept_plus_excluded. unfold speeds.
    rewrite length_map. now apply validate_readings_length with (p := p).
  - rewrite Hpts. apply kept_points_cv.
  - intros r. rewrite run_stages. unfold before_report.
    rewrite Hval. cbv beta iota delta [rbind ok]. rewrite Hest.
    cbv beta iota delta [ok].
    destruct (fit fmt4 (points est)) as [e|model];
      cbv beta iota; [discriminate|].
    destruct (render labels (points est) model) as [e|graph];
      cbv beta iota; [discriminate|].
    destruct (assemble _ _ _ _ _) as [e|pdf]; [discriminate|].
    intros [= <-]. split; reflexivity.
Qed.

End Pipeline.

End FluidFacts.

(** ** The handler in front of the pipeline of the specification *)

Module EndToEnd.
Import Py Routes RoutesTerms ValidationTerms RoutesFacts.
Import FluidMechanics FluidTerms ConstantsTerms FluidFacts Demo.

Local Open Scope result_scope.

(** The constants reach the answer and the database through the
    pipeline alone. *)
Lemma constants_through_pipeline
    (P : Z -> readings -> readings -> list pyval -> pyval -> result pyval)
    o p gp c1 c2 w :
  (forall labels, P (clock w) o p labels c1 = P (clock w) o p labels c2) ->
  fst (finish (process_and_store P o p gp c1 w))
  = fst (finish (process_and_store P o p gp c2 w))
  /\ committed (snd (finish (process_and_store P o p gp c1 w)))
     = committed (snd (finish (process_and_store P o p gp c2 w))).
Proof.
  intros HP.
  unfold finish, process_and_store, bind, lift, ret,
    call_process_experiment_data, log_activity, session_item,
    db_session_add, db_session_commit, bind.
  destruct (py_iter gp) as [e|labels]; [split; reflexivity|].
  cbn [ok]. rewrite (HP labels).
  destruct (P (clock w) o p labels c2) as [e|result]; [split; reflexivity|].
  cbn. destruct (assoc "user_id" (session w)); [|split; reflexivity].
  cbn.
  destruct (py_item result "mean_cv"); [split; reflexivity|].
  destruct (py_item result "results"); [split; reflexivity|].
  destruct (py_item result "model_calculation"); [split; reflexivity|].
  destruct (py_item result "graph_base64"); [split; reflexivity|].
  destruct (py_item result "pdf_base64"); split; reflexivity.
Qed.

Section Pipeline.

Variable A_ratio_default : Q.
Variable sqrt : Q -> Q.
Variable orifice_raw : Q * Q -> Q.
Variable pitot_raw : Q * Q -> Q.
Variable fmt4 : Q -> string.
Variable render :
  list pyval -> list CalibrationPoint -> ModelFit -> result string.
Variable assemble :
  Z -> list CalibrationPoint -> Q -> string -> string -> result string.

Local Abbreviation run :=
  (FluidTerms.run A_ratio_default sqrt orifice_raw pitot_raw fmt4 render
     assemble).

Lemma resolve_unspecified (c : pyval) :
  (forall k, In k constant_keys ->
             override c k = None) ->
  resolve_constants A_ratio_default c = default_constants A_ratio_default.
Proof.
  intros H. unfold resolve_constants, pick.
  rewrite !H by (unfold constant_keys; simpl; tauto). reflexivity.
Qed.

Lemma run_by_constants now o p labels c1 c2 :
  resolve_constants A_ratio_default c1 = resolve_constants A_ratio_default c2 ->
  run now o p labels c1 = run now o p labels c2.
Proof.
  intros H. unfold FluidTerms.run, process_experiment_data. now rewrite H.
Qed.

(** C7.  For a request of a logged-in user that passes validation.
    When [graph_params] is omitted, the pipeline is called with the
    labels ["V0", "Vp"], and its outcome decides the answer.  When
    [constants] is omitted, the pipeline is called with no override map
    ([None]), and its outcome decides the answer.  For the pipeline of
    the specification, no override map means that every key of
    PhysicalConstants takes its default: the constants are those of
    section 3, a run without a map is the run with any map that names
    none of the four keys and the run with the map that spells the
    defaults out, and the request without [constants] gets the answer,
    and stores the rows, of the same request with the defaults spelled
    out. *)
Theorem defaults_when_omitted
    (P : Z -> readings -> readings -> list pyval -> pyval -> result pyval)
    d o p w o' p' :
  logged_in w = true ->
  field d "orifice_readings" (PList []) = PList o ->
  field d "pitot_readings" (PList []) = PList p ->
  o <> [] -> List.length o = List.length p ->
  convert_all o = ok o' -> convert_all p = ok p' ->
  (assoc "graph_params" d = None ->
   handed_to_pipeline P d w o' p' [PStr "V0"; PStr "Vp"]
     (field d "constants" PNone))
  /\ (assoc "constants" d = None ->
      (forall labels,
          py_iter (field d "graph_params" (PList [PStr "V0"; PStr "Vp"]))
          = ok labels ->
          handed_to_pipeline P d w o' p' labels PNone)
      /\ resolve_constants A_ratio_default PNone
         = {| g := 981 # 100; rho := 1000; Cd_orifice := 61 # 100;
              A_ratio := A_ratio_default |}
      /\ (forall c now ro rp labels,
            (forall k, In k constant_keys -> override c k = None) ->
            run now ro rp labels c = run now ro rp labels PNone)
      /\ (forall now ro rp labels,
            run now ro rp labels (explicit_defaults A_ratio_default)
            = run now ro rp labels PNone)
      /\ (let d' := ("constants", explicit_defaults A_ratio_default) :: d in
          fst (fluid_calculate run (ok (PDict d)) w)
          = fst (fluid_calculate run (ok (PDict d')) w)
          /\ committed (snd (fluid_calculate run (ok (PDict d)) w))
             = committed (snd (fluid_calculate run (ok (PDict d')) w)))).
Proof.
  intros Hin Ho Hp Hne Hlen Hco Hcp. split.
  - intros Hgp.
    apply accepted_request_handed with (o := o) (p := p); try assumption.
    unfold field at 1. rewrite Hgp. reflexivity.
  - intros Hcc.
    assert (Hnone : field d "constants" PNone = PNone)
      by (unfold field; now rewrite Hcc).
    split; [|split; [reflexivity|split; [|split]]].
    + intros labels Hgp. rewrite <- Hnone.
      now apply accepted_request_handed with (o := o) (p := p).
    + intros c now ro rp labels Hc. apply run_by_constants.
      rewrite (resolve_unspecified c Hc). reflexivity.
    + intros now ro rp labels. apply run_by_constants. reflexivity.
    + intros d'.
      assert (Ho' : field d' "orifice_readings" (PList []) = PList o)
        by exact Ho.
      assert (Hp' : field d' "pitot_readings" (PList []) = PList p)
        by exact Hp.
      rewrite (fluid_calculate_lists run d o p w Hin Ho Hp).
      rewrite (fluid_calculate_lists run d' o p w Hin Ho' Hp').
      destruct (is_nil o || is_nil p)%bool; [split; reflexivity|].
      destruct (negb _); [split; reflexivity|].
      destruct (rbind (convert_all o) _) as [e|[co cp]];
        [split; reflexivity|].
      rewrite Hnone.
      change (field d' "graph_params" (PList [PStr "V0"; PStr "Vp"]))
        with (field d "graph_params" (PList [PStr "V0"; PStr "Vp"])).
      change (field d' "constants" PNone)
        with (explicit_defaults A_ratio_default).
      apply constants_through_pipeline.
      intros labels. apply run_by_constants. reflexivity.
Qed.


End Pipeline.

Lemma defaults_when_omitted_witness :
  handed_to_pipeline demo_run demo_request sample_world
    demo_orifice demo_pitot [PStr "V0"; PStr "Vp"] PNone
  /\ g (resolve_constants demo_area_ratio PNone) = 981 # 100
  /\ fst (fluid_calculate demo_run (ok (PDict demo_request)) sample_world)
     = fst (fluid_calculate demo_run
              (ok (PDict (("constants", explicit_defaults demo_area_ratio)
                          :: demo_request))) sample_world).
Proof.
  destruct (defaults_when_omitted demo_area_ratio demo_sqrt demo_raw
              demo_raw demo_fmt4 demo_render demo_assemble
              demo_run demo_request
              [pair (PInt 1) (PInt 0); pair (PInt 2) (PInt 0);
               pair (PInt 3) (PInt 0)]
              [pair (PInt 500) (PInt 0); pair (PInt 0) (PInt 0);
               pair (PInt 2000) (PInt 0)]
              sample_world demo_orifice demo_pitot
              eq_refl eq_refl eq_refl
              ltac:(discriminate) eq_refl eq_refl eq_refl)
    as [Hlabels Hconstants].
  destruct (Hconstants eq_refl) as (_ & Hresolve & _ & _ & Hsame & _).
  split; [exact (Hlabels eq_refl)|]. split.
  - rewrite Hresolve. reflexivity.
  - exact Hsame.
Defined.

Lemma mean_cv_over_kept_points_witness :
  exists est,
    estimate_cv (speeds demo_area_ratio demo_sqrt demo_raw demo_raw PNone
                   [(1, 0); (2, 0); (3, 0)]%Q
                   [(500, 0); (0, 0); (2000, 0)]%Q)
    = ok est
    /\ List.length (points est) = 2%nat
    /\ excluded_count est = 1%nat
    /\ (mean_cv est == qmean (map cv (points est)))%Q.
Proof.
  destruct (mean_cv_over_kept_points demo_area_ratio demo_sqrt demo_raw
              demo_raw demo_fmt4 demo_render demo_assemble
              0 demo_orifice demo_pitot [PStr "V0"; PStr "Vp"] PNone
              [(1, 0); (2, 0); (3, 0)]%Q
              [(500, 0); (0, 0); (2000, 0)]%Q)
    as (est & Hest & Hpts & Hexc & _ & _ & Hmean & _).
  - reflexivity.
  - apply Exists_cons_hd. vm_compute. discriminate.
  - exists est. split; [exact Hest|]. split; [|split].
    + rewrite Hpts. vm_compute. reflexivity.
    + rewrite Hexc. vm_compute. reflexivity.
    + exact Hmean.
Defined.

End EndToEnd.

(** ** The chatbot *)

Module ChatbotFacts.
Import Py Chatbot ChatbotTerms.

(** [_classify_intent], group by group. *)
Lemma classify_intent_eq (m : string) :
  classify_intent m =
  if any_keyword m (keywords "greetings") then "greetings"
  else if any_keyword m (keywords "calculations") then "calculations"
  else if any_keyword m (keywords "chemicals") then "chemicals"
  else if any_keyword m (keywords "safety") then "safety"
  else if any_keyword m (keywords "experiments") then "experiments"
  else if any_keyword m (keywords "help") then "help"
  else "default".
Proof. reflexivity. Qed.

Lemma unrouted_to_default (intent : string) :
  In intent unrouted_intents -> route intent = get_random_response "default".
Proof.
  unfold unrouted_intents. simpl.
  intros [<- | [<- | [<- | [<- | [<- | []]]]]]; reflexivity.
Qed.

Lemma safety_is_routed : ~ In "safety" unrouted_intents.
Proof.
  unfold unrouted_intents. simpl.
  intros [H | [H | [H | [H | [H | []]]]]]; discriminate.
Qed.

Lemma help_is_routed : ~ In "help" unrouted_intents.
Proof.
  unfold unrouted_intents. simpl.
  intros [H | [H | [H | [H | [H | []]]]]]; discriminate.
Qed.

Lemma choice_in (pick : nat) (l : list string) :
  l <> [] -> In (choice pick l) l.
Proof.
  intros Hl. unfold choice. apply nth_In. apply Nat.mod_upper_bound.
  destruct l; [contradiction | discriminate].
Qed.

Section Bot.

Variable db_session : Type.
Variable _handle_calculation : string -> Z -> db_session -> string * db_session.
Variable _handle_chemical_info : string -> Z -> db_session -> string * db_session.
Variable _handle_safety_info : string -> Z -> db_session -> string * db_session.
Variable _handle_experiment_help : string -> Z -> db_session -> string * db_session.
Variable _handle_help_request : string.

(** C9.  Whatever the message, [process_message] returns the value of
    the safety handler, of the help handler, or of
    [_get_random_response('default')]: the branches for 'calculation',
    'chemical_info', 'experiment' and 'greeting' are never taken,
    because the classifier answers with the plural keys.  A message
    that the classifier files under one of those keys, or under no key,
    gets a reply drawn from the 'default' list; so does every message
    with a greeting, calculation or chemical keyword, and every message
    without a safety and without a help keyword.  The safety and the
    help branch are both taken by some message. *)
Theorem plural_intents_fall_to_default
    (pick : nat) (message : string) (uid : Z) (db : db_session) :
  let intent := classify_intent (lower message) in
  let reply :=
    process_message db_session _handle_calculation _handle_chemical_info
      _handle_safety_info _handle_experiment_help _handle_help_request
      pick message uid db in
  (route intent = handle_safety_info
   \/ route intent = handle_help_request
   \/ route intent = get_random_response "default")
  /\ route intent <> handle_calculation
  /\ route intent <> handle_chemical_info
  /\ route intent <> handle_experiment_help
  /\ route intent <> get_random_response "greeting"
  /\ (intent = "safety" -> reply = _handle_safety_info message uid db)
  /\ (intent = "help" -> reply = (_handle_help_request, db))
  /\ (In intent unrouted_intents ->
      In (fst reply) default_responses /\ snd reply = db)
  /\ (any_keyword (lower message) (keywords "greetings") = true
      \/ any_keyword (lower message) (keywords "calculations") = true
      \/ any_keyword (lower message) (keywords "chemicals") = true
      \/ (any_keyword (lower message) (keywords "safety") = false
          /\ any_keyword (lower message) (keywords "help") = false) ->
      In (fst reply) default_responses /\ snd reply = db)
  /\ route (classify_intent (lower "TOXIC fumes")) = handle_safety_info
  /\ route (classify_intent (lower "Please assist me")) = handle_help_request.
Proof.
  intros intent reply.
  assert (Hdefault : In intent unrouted_intents ->
                     In (fst reply) default_responses /\ snd reply = db).
  { intros Hin. subst reply. unfold process_message. fold intent.
    rewrite (unrouted_to_default intent Hin). cbn [run fst snd].
    split; [|reflexivity].
    change (_get_random_response pick "default")
      with (choice pick default_responses).
    apply choice_in. discriminate. }
  assert (Hreply : reply = run db_session _handle_calculation
                             _handle_chemical_info _handle_safety_info
                             _handle_experiment_help _handle_help_request
                             (route intent) pick message uid db)
    by reflexivity.
  clearbody reply. revert Hdefault Hreply. subst intent.
  rewrite classify_intent_eq.
  destruct (any_keyword _ (keywords "greetings"));
    [|destruct (any_keyword _ (keywords "calculations"));
      [|destruct (any_keyword _ (keywords "chemicals"));
        [|destruct (any_keyword _ (keywords "safety"));
          [|destruct (any_keyword _ (keywords "experiments"));
            [|destruct (any_keyword _ (keywords "help"))]]]]];
    intros Hdefault Hreply;
    try (assert (Hd : In (fst reply) default_responses /\ snd reply = db)
           by (apply Hdefault; unfold unrouted_intents; simpl; tauto));
    repeat split;
    try discriminate;
    try (intros _; apply Hd);
    try (intros H; exfalso; revert H;
         first [apply safety_is_routed | apply help_is_routed]);
    try (intros _; exact Hreply);
    try (cbn; tauto);
    try (intros [H | [H | [H | [H H']]]]; discriminate);
    try (exfalso;
         match goal with
         | H : _ \/ _ |- _ =>
             destruct H as [H | [H | [H | [H H']]]]; discriminate
         end).
Qed.

End Bot.

Lemma plural_intents_fall_to_default_witness :
  route (classify_intent (lower "Calculate 0.1M NaCl for 100mL"))
  = get_random_response "default"
  /\ In (fst (process_message unit
               (fun m _ db => ("calculation", db))
               (fun m _ db => ("chemical", db))
               (fun m _ db => ("safety", db))
               (fun m _ db => ("experiment", db))
               "help" 5 "Calculate 0.1M NaCl for 100mL" 1 tt))
       default_responses.
Proof.
  destruct (plural_intents_fall_to_default unit
              (fun m _ db => ("calculation", db))
              (fun m _ db => ("chemical", db))
              (fun m _ db => ("safety", db))
              (fun m _ db => ("experiment", db))
              "help" 5 "Calculate 0.1M NaCl for 100mL" 1 tt)
    as (_ & _ & _ & _ & _ & _ & _ & Hunrouted & _).
  split; [reflexivity|].
  apply Hunrouted. vm_compute. tauto.
Defined.

End ChatbotFacts.


(** ** Strings *)

Module PyStrFacts.
Import Py PyStr StrTerms.

Lemma append_nil_r (s : string) : s ++ "" = s.
Proof. induction s as [|c s IH]; simpl; [reflexivity | now rewrite IH]. Qed.

Lemma append_assoc (a b c : string) : (a ++ b) ++ c = a ++ b ++ c.
Proof. induction a as [|x a IH]; simpl; [reflexivity | now rewrite IH]. Qed.

Lemma length_append (a b : string) :
  String.length (a ++ b) = (String.length a + String.length b)%nat.
Proof. induction a as [|x a IH]; simpl; [reflexivity | now rewrite IH]. Qed.

Lemma is_empty_true (s : string) : is_empty s = true <-> s = "".
Proof. destruct s; simpl; split; intros H; congruence. Qed.

(** *** [strip] *)

Lemma lstrip_starts_clean (s : string) : starts_clean (str_lstrip s).
Proof.
  induction s as [|c s IH]; simpl; [exact I|].
  destruct (is_space_str c) eqn:E; [assumption | exact E].
Qed.

Lemma lstrip_clean (s : string) : starts_clean s -> str_lstrip s = s.
Proof. destruct s as [|c s]; simpl; [reflexivity | now intros ->]. Qed.

Lemma rstrip_starts_clean (s : string) :
  starts_clean s -> starts_clean (str_rstrip s).
Proof.
  destruct s as [|c s]; simpl; [trivial|]. intros H.
  rewrite H, andb_false_r. exact H.
Qed.

Lemma rstrip_empty_clean (s : string) :
  starts_clean s -> str_rstrip s = "" -> s = "".
Proof.
  destruct s as [|c s]; simpl; [reflexivity|]. intros ->.
  rewrite andb_false_r. discriminate.
Qed.

Lemma rstrip_idem (s : string) : str_rstrip (str_rstrip s) = str_rstrip s.
Proof.
  induction s as [|c s IH]; simpl; [reflexivity|].
  destruct (is_empty (str_rstrip s) && is_space_str c)%bool eqn:E;
    [reflexivity|].
  simpl. rewrite IH, E. reflexivity.
Qed.

Lemma strip_idem (s : string) : str_strip (str_strip s) = str_strip s.
Proof.
  unfold str_strip.
  rewrite (lstrip_clean (str_rstrip (str_lstrip s))).
  - apply rstrip_idem.
  - apply rstrip_starts_clean, lstrip_starts_clean.
Qed.

(** A blank string strips to nothing, and only a blank string does. *)
Lemma strip_empty_iff (s : string) :
  str_strip s = "" <-> str_lstrip s = "".
Proof.
  unfold str_strip. split.
  - apply rstrip_empty_clean, lstrip_starts_clean.
  - now intros ->.
Qed.

Lemma strip_blank (s : string) : str_strip s = "" <-> blank s.
Proof.
  rewrite strip_empty_iff. unfold blank.
  induction s as [|c s IH]; simpl.
  - split; [constructor | reflexivity].
  - destruct (is_space_str c) eqn:E.
    + rewrite IH. split; intros H.
      * now constructor.
      * now inversion H.
    + split; intros H; [discriminate|].
      inversion H; congruence.
Qed.

Lemma take_length (n : nat) (s : string) :
  (String.length (str_take n s) <= n)%nat.
Proof.
  unfold str_take. revert s.
  induction n as [|n IH]; intros [|c s]; simpl; try lia.
  specialize (IH s). lia.
Qed.

Lemma lstrip_suffix (s : string) : exists a, s = a ++ str_lstrip s.
Proof.
  induction s as [|c s [a IH]]; simpl.
  - now exists "".
  - destruct (is_space_str c).
    + exists (String c a). simpl. now rewrite <- IH.
    + now exists "".
Qed.

Lemma rstrip_prefix (s : string) : exists b, s = str_rstrip s ++ b.
Proof.
  induction s as [|c s [b IH]]; simpl.
  - now exists "".
  - destruct (is_empty (str_rstrip s) && is_space_str c)%bool eqn:E.
    + now exists (String c s).
    + exists b. simpl. now rewrite <- IH.
Qed.

Lemma strip_middle (s : string) : exists a b, s = a ++ str_strip s ++ b.
Proof.
  destruct (lstrip_suffix s) as [a Ha].
  destruct (rstrip_prefix (str_lstrip s)) as [b Hb].
  exists a, b. unfold str_strip. now rewrite <- Hb.
Qed.

(** Blank text at the end does not survive [rstrip]. *)
Lemma rstrip_blank_tail (x w : string) :
  str_lstrip w = "" -> str_rstrip (x ++ w) = str_rstrip x.
Proof.
  intros Hw.
  assert (Hblank : str_rstrip w = "").
  { clear x. induction w as [|c w IH]; simpl in *; [reflexivity|].
    destruct (is_space_str c) eqn:E; [|discriminate].
    rewrite (IH Hw). reflexivity. }
  induction x as [|c x IH]; simpl; [assumption|].
  now rewrite IH.
Qed.

Lemma lstrip_app (x y : string) :
  str_lstrip x <> "" -> str_lstrip (x ++ y) = str_lstrip x ++ y.
Proof.
  induction x as [|c x IH]; simpl; [congruence|].
  destruct (is_space_str c); [exact IH | reflexivity].
Qed.

Lemma strip_blank_tail (x w : string) :
  str_lstrip x <> "" -> str_lstrip w = "" ->
  str_strip (x ++ w) = str_strip x.
Proof.
  intros Hx Hw. unfold str_strip.
  rewrite (lstrip_app x w Hx). now apply rstrip_blank_tail.
Qed.

(** *** [in] *)

Lemma prefix_app (n s b : string) :
  prefix n s = true -> prefix n (s ++ b) = true.
Proof.
  revert n. induction s as [|d s IH]; intros n; destruct n as [|c n]; simpl;
    try discriminate.
  - destruct b; reflexivity.
  - reflexivity.
  - destruct (ascii_dec c d); [apply IH | discriminate].
Qed.

Lemma contains_app_l (s b n : string) :
  contains s n = true -> contains (s ++ b) n = true.
Proof.
  induction s as [|c s IH]; simpl.
  - rewrite orb_false_r. intros H.
    destruct n; [destruct b; reflexivity | discriminate].
  - intros H. apply orb_true_iff in H. apply orb_true_iff.
    destruct H as [H | H].
    + left. now apply (prefix_app n (String c s) b).
    + right. now apply IH.
Qed.

Lemma contains_app_r (a s n : string) :
  contains s n = true -> contains (a ++ s) n = true.
Proof.
  intros H. induction a as [|c a IH]; simpl; [assumption|].
  rewrite IH. apply orb_true_r.
Qed.

(** Text cut out of a string free of [n] is free of [n]. *)
Lemma contains_middle (a s b n : string) :
  contains (a ++ s ++ b) n = false -> contains s n = false.
Proof.
  intros H. destruct (contains s n) eqn:E; [|reflexivity].
  rewrite (contains_app_r a (s ++ b) n) in H; [discriminate|].
  now apply contains_app_l.
Qed.

Lemma contains_strip (s n : string) :
  contains s n = false -> contains (str_strip s) n = false.
Proof.
  intros H. destruct (strip_middle s) as (a & b & Hs).
  rewrite Hs in H. now apply contains_middle in H.
Qed.

(** *** [split] and [join] *)

Lemma drop_prefix_some (sep s rest : string) :
  drop_prefix sep s = Some rest <-> s = sep ++ rest.
Proof.
  revert s. induction sep as [|a sep IH]; intros s; simpl.
  - split; [now intros [= ->] | now intros ->].
  - destruct s as [|b s].
    + split; discriminate.
    + destruct (Ascii.eqb_spec a b) as [-> | Hne].
      * rewrite IH. split; [now intros -> | now intros [= ->]].
      * split; [discriminate | intros [= ? ?]; congruence].
Qed.

Lemma prefix_drop (sep s : string) :
  prefix sep s = true <-> exists rest, drop_prefix sep s = Some rest.
Proof.
  revert sep. induction s as [|b s IH]; intros sep;
    destruct sep as [|a sep]; simpl.
  - split; [now exists "" | reflexivity].
  - split; [discriminate | intros [rest H]; discriminate].
  - split; [now exists (String b s) | reflexivity].
  - destruct (ascii_dec a b) as [-> | Hne].
    + rewrite Ascii.eqb_refl. apply IH.
    + destruct (Ascii.eqb_spec a b) as [-> | _]; [contradiction|].
      split; [discriminate | intros [rest H]; discriminate].
Qed.

Lemma contains_empty (sep : string) : sep <> "" -> contains "" sep = false.
Proof. destruct sep; [congruence | reflexivity]. Qed.

Lemma split_scan_nonempty (n : nat) (sep s : string) :
  split_scan n sep s <> [].
Proof.
  destruct n as [|n]; [easy|].
  destruct s as [|c r]; [easy|]. cbn [split_scan].
  destruct (drop_prefix sep (String c r)); [easy|].
  destruct (split_scan n sep r); easy.
Qed.

Lemma join_cons (sep : string) (c : ascii) (piece : string)
    (pieces : list string) :
  str_join sep (String c piece :: pieces)
  = String c (str_join sep (piece :: pieces)).
Proof. destruct pieces; reflexivity. Qed.

Lemma join_snoc (sep : string) (pieces : list string) (x : string) :
  pieces <> [] ->
  str_join sep (pieces ++ [x]) = str_join sep pieces ++ sep ++ x.
Proof.
  induction pieces as [|p pieces IH]; [congruence|]. intros _.
  destruct pieces as [|q pieces]; [reflexivity|].
  change (str_join sep ((p :: q :: pieces) ++ [x]))
    with (p ++ sep ++ str_join sep ((q :: pieces) ++ [x])).
  rewrite IH by discriminate.
  change (str_join sep (p :: q :: pieces))
    with (p ++ sep ++ str_join sep (q :: pieces)).
  now rewrite !append_assoc.
Qed.

(** Joining the pieces gives the string back. *)
Lemma join_split (n : nat) (sep s : string) :
  sep <> "" -> (String.length s <= n)%nat ->
  str_join sep (split_scan n sep s) = s.
Proof.
  intros Hsep. revert s.
  induction n as [|n IH]; intros s Hlen.
  - destruct s; [reflexivity | simpl in Hlen; lia].
  - destruct s as [|c r]; [reflexivity|].
    cbn [split_scan].
    destruct (drop_prefix sep (String c r)) as [rest|] eqn:Hd.
    + apply drop_prefix_some in Hd.
      assert (Hrest : (String.length rest <= n)%nat).
      { apply (f_equal String.length) in Hd. rewrite length_append in Hd.
        destruct sep; [congruence|]. simpl in Hd, Hlen. lia. }
      specialize (IH rest Hrest).
      destruct (split_scan n sep rest) as [|q qs] eqn:Hs.
      { now apply split_scan_nonempty in Hs. }
      change (str_join sep ("" :: q :: qs))
        with ("" ++ sep ++ str_join sep (q :: qs)).
      rewrite IH. now rewrite Hd.
    + assert (Hr : (String.length r <= n)%nat) by (simpl in Hlen; lia).
      specialize (IH r Hr).
      destruct (split_scan n sep r) as [|q qs] eqn:Hs.
      { now apply split_scan_nonempty in Hs. }
      rewrite join_cons, IH. reflexivity.
Qed.

(** No piece contains the separator. *)
Lemma split_free (n : nat) (sep s : string) :
  sep <> "" -> (String.length s <= n)%nat ->
  Forall (fun piece => contains piece sep = false) (split_scan n sep s).
Proof.
  intros Hsep. revert s.
  induction n as [|n IH]; intros s Hlen.
  - destruct s as [|c r]; [|simpl in Hlen; lia].
    constructor; [now apply contains_empty | constructor].
  - destruct s as [|c r].
    { constructor; [now apply contains_empty | constructor]. }
    cbn [split_scan].
    destruct (drop_prefix sep (String c r)) as [rest|] eqn:Hd.
    + constructor; [now apply contains_empty|].
      apply IH. apply drop_prefix_some in Hd.
      apply (f_equal String.length) in Hd. rewrite length_append in Hd.
      destruct sep; [congruence|]. simpl in Hd, Hlen. lia.
    + assert (Hr : (String.length r <= n)%nat) by (simpl in Hlen; lia).
      pose proof (IH r Hr) as Hfree.
      pose proof (join_split n sep r Hsep Hr) as Hjoin.
      destruct (split_scan n sep r) as [|q qs] eqn:Hs.
      { now apply split_scan_nonempty in Hs. }
      inversion Hfree as [|q0 qs0 Hq Hqs [Hq0 Hqs0]].
      constructor; [|assumption].
      cbn [contains]. rewrite Hq, orb_false_r.
      destruct (prefix sep (String c q)) eqn:Hp; [|reflexivity].
      exfalso.
      assert (Hs' : exists tail, String c r = String c q ++ tail).
      { destruct qs as [|q' qs'].
        - exists "". simpl in Hjoin. rewrite append_nil_r.
          now rewrite Hjoin.
        - exists (sep ++ str_join sep (q' :: qs')).
          change (str_join sep (q :: q' :: qs'))
            with (q ++ sep ++ str_join sep (q' :: qs')) in Hjoin.
          now rewrite <- Hjoin. }
      destruct Hs' as [tail Htail].
      apply (prefix_app sep (String c q) tail) in Hp.
      rewrite <- Htail in Hp. apply prefix_drop in Hp.
      destruct Hp as [rest Hrest]. congruence.
Qed.

(** A string free of the separator is its own single piece. *)
Lemma split_none (n : nat) (sep s : string) :
  contains s sep = false -> split_scan n sep s = [s].
Proof.
  revert s. induction n as [|n IH]; intros s Hs.
  - destruct s; reflexivity.
  - destruct s as [|c r]; [reflexivity|].
    cbn [split_scan]. cbn [contains] in Hs.
    apply orb_false_iff in Hs. destruct Hs as [Hp Hr].
    destruct (drop_prefix sep (String c r)) as [rest|] eqn:Hd.
    + assert (prefix sep (String c r) = true)
        by (apply prefix_drop; now exists rest).
      congruence.
    + now rewrite (IH r Hr).
Qed.

Lemma last_piece_free (n : nat) (sep s : string) :
  sep <> "" -> (String.length s <= n)%nat ->
  contains (List.last (split_scan n sep s) "") sep = false.
Proof.
  intros Hsep Hlen.
  pose proof (split_free n sep s Hsep Hlen) as Hfree.
  pose proof (split_scan_nonempty n sep s) as Hne.
  destruct (exists_last Hne) as (init & x & Hx).
  rewrite Hx in *. rewrite last_last.
  apply Forall_app in Hfree. destruct Hfree as [_ Hfree].
  now inversion Hfree.
Qed.

End PyStrFacts.

(** ** The model wrapper *)

Module ChemLLMFacts.
Import Py PyStr StrTerms PyStrFacts ChemLLM ChemLLMTerms.

Lemma lstrip_dot (y : string) : str_lstrip (y ++ ".") <> "".
Proof.
  induction y as [|c y IH]; simpl; [discriminate|].
  destruct (is_space_str c); [assumption | discriminate].
Qed.

(** The sentence step of [_clean_response] only drops blank text after
    the last full stop, which the final [strip] drops anyway. *)
Lemma sentence_step_strip (r1 : string) :
  let sentences := split_scan (String.length r1) "." r1 in
  str_strip
    (if (Nat.ltb 1 (List.length sentences)
         && is_empty (str_strip (last_piece sentences)))%bool
     then str_join "." (removelast sentences) ++ "."
     else r1)
  = str_strip r1.
Proof.
  intros sentences.
  destruct (Nat.ltb 1 (List.length sentences)
            && is_empty (str_strip (last_piece sentences)))%bool eqn:Hc;
    [|reflexivity].
  apply andb_true_iff in Hc. destruct Hc as [Hlen Hblank].
  apply Nat.ltb_lt in Hlen. apply is_empty_true in Hblank.
  apply strip_empty_iff in Hblank.
  assert (Hne : sentences <> []) by (apply split_scan_nonempty).
  pose proof (app_removelast_last "" Hne) as Hsplit.
  fold (last_piece sentences) in Hsplit.
  assert (Hinit : removelast sentences <> []).
  { intros Hnil. rewrite Hnil in Hsplit. rewrite Hsplit in Hlen.
    simpl in Hlen. lia. }
  assert (Hjoin : str_join "." sentences = r1).
  { apply join_split; [discriminate | lia]. }
  rewrite Hsplit, (join_snoc "." _ _ Hinit) in Hjoin.
  clearbody sentences. rewrite <- Hjoin. rewrite <- append_assoc.
  symmetry. apply strip_blank_tail; [apply lstrip_dot | assumption].
Qed.

Lemma clean_response_eq (r : string) :
  _clean_response r = or_apology (str_strip (after_marker r)).
Proof.
  unfold _clean_response, after_marker.
  set (r1 := if contains r "Answer:"
             then str_strip (last_piece (split_scan (String.length r)
                                           "Answer:" r))
             else r).
  assert (Hr1 : str_strip r1
                = str_strip (if contains r "Answer:"
                             then last_piece (split_scan (String.length r)
                                                "Answer:" r)
                             else r)).
  { subst r1. destruct (contains r "Answer:");
      [apply strip_idem | reflexivity]. }
  cbv zeta. rewrite <- Hr1.
  pose proof (sentence_step_strip r1) as Hstep. cbv zeta in Hstep.
  set (r2 := if (Nat.ltb 1 (List.length (split_scan (String.length r1)
                                            "." r1))
                 && is_empty (str_strip
                      (last_piece (split_scan (String.length r1) "." r1))))%bool
             then str_join "." (removelast (split_scan (String.length r1)
                                              "." r1)) ++ "."
             else r1) in *.
  unfold or_apology. rewrite <- Hstep.
  destruct (is_empty (str_strip r2)); reflexivity.
Qed.

Lemma or_apology_nonempty (t : string) : or_apology t <> "".
Proof. unfold or_apology. destruct t; simpl; discriminate. Qed.

Lemma or_apology_stripped (t : string) :
  str_strip t = t -> str_strip (or_apology t) = or_apology t.
Proof.
  unfold or_apology. destruct (is_empty t); [reflexivity | trivial].
Qed.

Lemma after_marker_free (r : string) :
  contains (after_marker r) "Answer:" = false.
Proof.
  unfold after_marker. destruct (contains r "Answer:") eqn:E; [|exact E].
  apply last_piece_free; [discriminate | lia].
Qed.

Lemma clean_response_facts (r : string) :
  _clean_response r <> ""
  /\ str_strip (_clean_response r) = _clean_response r
  /\ contains (_clean_response r) "Answer:" = false.
Proof.
  rewrite clean_response_eq. split; [|split].
  - apply or_apology_nonempty.
  - apply or_apology_stripped, strip_idem.
  - unfold or_apology.
    destruct (is_empty (str_strip (after_marker r))); [reflexivity|].
    apply contains_strip, after_marker_free.
Qed.

Lemma clean_response_fix (t : string) :
  t <> "" -> str_strip t = t -> contains t "Answer:" = false ->
  _clean_response t = t.
Proof.
  intros Hne Hstrip Hfree. rewrite clean_response_eq.
  unfold after_marker. rewrite Hfree, Hstrip. unfold or_apology.
  destruct t; [congruence | reflexivity].
Qed.

(** X1.  The whole of [_clean_response]: strip what follows the last
    "Answer:", and answer with the apology when nothing is left.  The
    sentence step never shows in the result: a text without "Answer:"
    comes back stripped, with its last unfinished sentence still there,
    and a text of blanks comes back as the apology. *)
Theorem clean_response_is_strip (r : string) :
  _clean_response r = or_apology (str_strip (after_marker r))
  /\ (contains r "Answer:" = false -> ~ blank r ->
      _clean_response r = str_strip r)
  /\ (blank r -> _clean_response r = rephrase_apology).
Proof.
  split; [apply clean_response_eq|]. split.
  - intros Hfree Hblank. rewrite clean_response_eq.
    unfold after_marker, or_apology. rewrite Hfree.
    destruct (str_strip r) eqn:E; [|reflexivity].
    exfalso. apply Hblank. now apply strip_blank.
  - intros Hblank. rewrite clean_response_eq.
    assert (Hstrip : str_strip r = "") by now apply strip_blank.
    assert (Hfree : contains r "Answer:" = false).
    { destruct (contains r "Answer:") eqn:E; [|reflexivity].
      destruct (strip_middle r) as (a & b & Hr).
      rewrite Hstrip in Hr. cbn [append] in Hr.
      assert (Hall : forall x, blank x -> contains x "Answer:" = false).
      { clear. unfold blank. induction x as [|c x IH]; intros H;
          [reflexivity|].
        inversion H as [|? ? Hc Hx]; subst.
        cbn [contains]. rewrite (IH Hx), orb_false_r.
        cbn [prefix]. destruct (ascii_dec "A" c) as [<-|]; [|reflexivity].
        discriminate. }
      rewrite (Hall r Hblank) in E. discriminate. }
    unfold after_marker. rewrite Hfree, Hstrip. reflexivity.
Qed.

(** X2.  What a caller can rely on: the cleaned response is never empty, has
    no blank at either end, and does not contain "Answer:". *)
Theorem clean_response_guarantees (r : string) :
  _clean_response r <> ""
  /\ str_strip (_clean_response r) = _clean_response r
  /\ contains (_clean_response r) "Answer:" = false.
Proof.
  rewrite clean_response_eq. split; [|split].
  - apply or_apology_nonempty.
  - apply or_apology_stripped, strip_idem.
  - unfold or_apology.
    destruct (is_empty (str_strip (after_marker r))); [reflexivity|].
    apply contains_strip, after_marker_free.
Qed.

(** X3.  Cleaning leaves a non-empty stripped text without "Answer:" as it
    is, so cleaning twice is cleaning once. *)
Theorem clean_response_idempotent (r s : string) :
  (s <> "" -> str_strip s = s -> contains s "Answer:" = false ->
   _clean_response s = s)
  /\ _clean_response (_clean_response r) = _clean_response r.
Proof.
  split; [apply clean_response_fix|].
  destruct (clean_response_facts r) as (Hne & Hstrip & Hfree).
  now apply clean_response_fix.
Qed.

Lemma clean_response_idempotent_witness :
  _clean_response "Water boils at 100 C. Ice melts at 0 C"
  = "Water boils at 100 C. Ice melts at 0 C".
Proof.
  apply (proj1 (clean_response_idempotent "" _)).
  - discriminate.
  - reflexivity.
  - reflexivity.
Defined.

(** "Answer:" does not overlap itself: if a text that carries it
    starts with it, either the text is it or the match lies wholly
    before. *)
Lemma marker_at_head (x a rest : string) :
  drop_prefix "Answer:" (x ++ "Answer:" ++ a) = Some rest ->
  (x = "" /\ rest = a)
  \/ exists x', x = "Answer:" ++ x' /\ rest = x' ++ "Answer:" ++ a.
Proof.
  destruct x as [|c1 x]; cbn [drop_prefix append].
  { intros [= <-]. now left. }
  destruct (Ascii.eqb_spec "A" c1) as [<- | _]; [|discriminate].
  destruct x as [|c2 x]; cbn [drop_prefix append]; [rewrite ?Ascii.eqb_refl; vm_compute; discriminate|].
  destruct (Ascii.eqb_spec "n" c2) as [<- | _]; [|discriminate].
  destruct x as [|c3 x]; cbn [drop_prefix append]; [rewrite ?Ascii.eqb_refl; vm_compute; discriminate|].
  destruct (Ascii.eqb_spec "s" c3) as [<- | _]; [|discriminate].
  destruct x as [|c4 x]; cbn [drop_prefix append]; [rewrite ?Ascii.eqb_refl; vm_compute; discriminate|].
  destruct (Ascii.eqb_spec "w" c4) as [<- | _]; [|discriminate].
  destruct x as [|c5 x]; cbn [drop_prefix append]; [rewrite ?Ascii.eqb_refl; vm_compute; discriminate|].
  destruct (Ascii.eqb_spec "e" c5) as [<- | _]; [|discriminate].
  destruct x as [|c6 x]; cbn [drop_prefix append]; [rewrite ?Ascii.eqb_refl; vm_compute; discriminate|].
  destruct (Ascii.eqb_spec "r" c6) as [<- | _]; [|discriminate].
  destruct x as [|c7 x]; cbn [drop_prefix append]; [rewrite ?Ascii.eqb_refl; vm_compute; discriminate|].
  destruct (Ascii.eqb_spec ":" c7) as [<- | _]; [|discriminate].
  intros [= <-]. right. now exists x.
Qed.

(** The last piece of a text that carries "Answer:" followed by a text
    free of it is that text. *)
Lemma split_after_marker (n : nat) (x a : string) :
  contains a "Answer:" = false ->
  (String.length (x ++ "Answer:" ++ a) <= n)%nat ->
  exists pieces,
    pieces <> []
    /\ split_scan n "Answer:" (x ++ "Answer:" ++ a) = (pieces ++ [a])%list.
Proof.
  intros Hfree. revert x.
  induction n as [|n IH]; intros x Hlen.
  - rewrite length_append in Hlen. simpl in Hlen. lia.
  - destruct x as [|d x'].
    + exists [""]. split; [discriminate|].
      change ("" ++ "Answer:" ++ a) with (String "A" ("nswer:" ++ a)).
      cbn [split_scan].
      change (drop_prefix "Answer:" (String "A" ("nswer:" ++ a)))
        with (Some a).
      cbv beta iota. now rewrite (split_none n "Answer:" a Hfree).
    + change (String d x' ++ "Answer:" ++ a)
        with (String d (x' ++ "Answer:" ++ a)) in *.
      cbn [split_scan].
      destruct (drop_prefix "Answer:" (String d (x' ++ "Answer:" ++ a)))
        as [rest|] eqn:Hd.
      * change (String d (x' ++ "Answer:" ++ a))
          with (String d x' ++ "Answer:" ++ a) in Hd.
        apply marker_at_head in Hd.
        destruct Hd as [[Hx _] | (x'' & Hx & ->)]; [discriminate|].
        destruct (IH x'') as (pieces & Hne & Hsplit).
        { apply (f_equal String.length) in Hx.
          cbn [String.length] in Hlen, Hx.
          rewrite !length_append in *.
          change (String.length "Answer:") with 7%nat in *.
          clear IH Hfree. lia. }
        exists ("" :: pieces). split; [discriminate|].
        now rewrite Hsplit.
      * destruct (IH x') as (pieces & Hne & Hsplit).
        { cbn [String.length] in Hlen. exact (le_S_n _ _ Hlen). }
        rewrite Hsplit.
        destruct pieces as [|p pieces]; [congruence|].
        exists (String d p :: pieces).
        split; [discriminate | reflexivity].
Qed.

(** X4.  A response that echoes the prompt is cleaned as if the echo were
    not there. *)
Theorem clean_response_drops_prompt (question answer : string) :
  contains answer "Answer:" = false ->
  _clean_response (_format_prompt question ++ answer)
  = _clean_response answer.
Proof.
  intros Hfree. rewrite !clean_response_eq. f_equal. f_equal.
  set (x := prompt_head ++ question ++ "

Please provide a comprehensive, accurate, and helpful response. If the question involves calculations, show your work step by step. Always prioritize safety in your recommendations.

").
  assert (Hshape : _format_prompt question ++ answer
                   = x ++ "Answer:" ++ answer).
  { unfold _format_prompt, x.
    rewrite !append_assoc. reflexivity. }
  rewrite Hshape. unfold after_marker at 2. rewrite Hfree.
  unfold after_marker.
  rewrite (contains_app_r x ("Answer:" ++ answer) "Answer:")
    by (apply (contains_app_l "Answer:" answer); reflexivity).
  destruct (split_after_marker (String.length (x ++ "Answer:" ++ answer))
              x answer Hfree (Nat.le_refl _)) as (pieces & _ & ->).
  unfold last_piece. apply last_last.
Qed.

Lemma clean_response_drops_prompt_witness :
  _clean_response (_format_prompt "What is water?" ++ " H2O. ")
  = _clean_response " H2O. ".
Proof.
  apply clean_response_drops_prompt. reflexivity.
Defined.

Section Backend.

Variable Model : Type.
Variable Tokenizer : Type.
Variable load_tokenizer : string -> result Tokenizer.
Variable load_model : string -> string -> result Model.
Variable to_device : Model -> string -> result Model.
Variable infer :
  Model -> Tokenizer -> string -> string -> pyval -> pyval -> pyval
  -> inference.

Local Abbreviation llm := (ChemLLMIntegration Model Tokenizer).
Local Abbreviation generate :=
  (generate_response Model Tokenizer infer).
Local Abbreviation info := (get_model_info Model Tokenizer).
Local Abbreviation available := (is_available Model Tokenizer).
Local Abbreviation init :=
  (__init__ Model Tokenizer load_tokenizer load_model to_device).
Local Abbreviation load :=
  (_load_model Model Tokenizer load_tokenizer load_model to_device).

(** X5.  [get_model_info] and [generate_response] agree: the status is
    "loaded" exactly when the libraries are there and the instance is
    available; and whenever the status is anything else,
    [generate_response] answers with one of its three refusals, without
    turning to the model.  The key [is_available] appears, and the key
    [error] is missing, exactly when the status is "loaded". *)
Theorem info_and_generation_agree (TORCH_AVAILABLE : bool) (self : llm)
    (prompt : string) (max_length temperature top_p : pyval) :
  (assoc "status" (info TORCH_AVAILABLE self) = loaded_status
   <-> TORCH_AVAILABLE = true /\ available self = true)
  /\ (assoc "status" (info TORCH_AVAILABLE self) <> loaded_status ->
      In (generate TORCH_AVAILABLE self prompt max_length temperature top_p)
         refusals)
  /\ (assoc "is_available" (info TORCH_AVAILABLE self) = Some (PBool true)
      <-> assoc "status" (info TORCH_AVAILABLE self) = loaded_status)
  /\ (assoc "error" (info TORCH_AVAILABLE self) = None
      <-> assoc "status" (info TORCH_AVAILABLE self) = loaded_status).
Proof.
  unfold get_model_info, generate_response, refusals, loaded_status,
    is_available.
  destruct (enabled self), TORCH_AVAILABLE, (is_loaded self),
    (model self), (tokenizer self); cbn;
    repeat split; intros; try discriminate; try tauto; try congruence;
    repeat match goal with
           | H : _ /\ _ |- _ => destruct H
           end; try discriminate; try congruence.
Qed.

(** [_load_model] keeps the flag and the two objects in step, and
    touches nothing else. *)
Lemma load_model_invariant (TORCH_AVAILABLE : bool) (self : llm) :
  let self' := load TORCH_AVAILABLE self in
  (is_loaded self' = true ->
   is_some (model self') = true /\ is_some (tokenizer self') = true
   /\ TORCH_AVAILABLE = true)
  /\ (is_loaded self' = false ->
      model self' = None /\ tokenizer self' = None)
  /\ enabled self' = enabled self
  /\ device self' = device self
  /\ model_name self' = model_name self.
Proof.
  unfold _load_model, not_loaded.
  destruct TORCH_AVAILABLE; cbn [negb]; cbv iota.
  2:{ cbn. repeat split; intros; discriminate. }
  destruct (load_tokenizer (model_name self)) as [e|tok].
  { cbn. repeat split; intros; discriminate. }
  destruct (load_model (model_name self) (device self)) as [e|m].
  { cbn. repeat split; intros; discriminate. }
  destruct (if String.eqb (device self) "cpu"
            then to_device m (device self) else ok m) as [e|m'].
  { cbn. repeat split; intros; discriminate. }
  cbn. repeat split; intros; discriminate.
Qed.

Lemma constructed_invariant (TORCH_AVAILABLE cuda : bool) :
  let self := init TORCH_AVAILABLE cuda in
  enabled self = true
  /\ available self = is_loaded self
  /\ (is_loaded self = true -> TORCH_AVAILABLE = true)
  /\ device self = (if (TORCH_AVAILABLE && cuda)%bool then "cuda" else "cpu")
  /\ model_name self = "AI4Chem/ChemLLM-7B-Chat-1.5-DPO".
Proof.
  intros self. unfold __init__ in self.
  pose proof (load_model_invariant TORCH_AVAILABLE
                {| model := None; tokenizer := None;
                   model_name := "AI4Chem/ChemLLM-7B-Chat-1.5-DPO";
                   device := if (TORCH_AVAILABLE && cuda)%bool
                             then "cuda" else "cpu";
                   is_loaded := false; enabled := true |}) as Hinv.
  cbv zeta in Hinv. fold self in Hinv.
  destruct Hinv as (Hloaded & Hnot & Hen & Hdev & Hname).
  cbn [enabled device model_name] in Hen, Hdev, Hname. clearbody self.
  split; [assumption|]. split; [|split; [|split; assumption]].
  - unfold is_available. rewrite Hen. cbn [andb].
    destruct (is_loaded self) eqn:E; [|reflexivity].
    destruct (Hloaded eq_refl) as (-> & -> & _). reflexivity.
  - intros E. now destruct (Hloaded E) as (_ & _ & ?).
Qed.

Lemma generate_nonempty (TORCH_AVAILABLE : bool) (self : llm)
    (prompt : string) (max_length temperature top_p : pyval) :
  generate TORCH_AVAILABLE self prompt max_length temperature top_p <> "".
Proof.
  unfold generate_response.
  destruct (negb TORCH_AVAILABLE); [discriminate|].
  destruct (negb (enabled self)); [discriminate|].
  destruct (negb (available self)); [discriminate|].
  destruct (tokenizer self) as [tok|]; [|discriminate].
  destruct (model self) as [m|]; [|discriminate].
  destruct (infer m tok _ _ _ _ _) as [e | | | | text];
    try discriminate;
    apply clean_response_facts.
Qed.

(** X6.  An instance built by the constructor is never disabled: it is
    available exactly when it is loaded, it is not loaded without the
    libraries, its status is one of the other three, and when it is not
    loaded [generate_response] answers that the libraries are missing
    or that the model is not available, never that it is disabled. *)
Theorem constructed_never_disabled (TORCH_AVAILABLE cuda : bool)
    (prompt : string) (max_length temperature top_p : pyval) :
  let self := init TORCH_AVAILABLE cuda in
  enabled self = true
  /\ available self = is_loaded self
  /\ (TORCH_AVAILABLE = false -> is_loaded self = false)
  /\ (TORCH_AVAILABLE = false -> device self = "cpu")
  /\ In (assoc "status" (info TORCH_AVAILABLE self))
       [Some (PStr "dependencies_missing"); Some (PStr "not_loaded");
        Some (PStr "loaded")]
  /\ (is_loaded self = false ->
      In (generate TORCH_AVAILABLE self prompt max_length temperature top_p)
         [torch_missing; unavailable_message]).
Proof.
  intros self.
  destruct (constructed_invariant TORCH_AVAILABLE cuda)
    as (Hen & Havail & Hloaded & Hdev & _).
  fold self in Hen, Havail, Hloaded, Hdev. clearbody self.
  assert (Hoff : TORCH_AVAILABLE = false -> is_loaded self = false).
  { intros ->. destruct (is_loaded self) eqn:E; [|reflexivity].
    now specialize (Hloaded eq_refl). }
  split; [assumption|]. split; [assumption|]. split; [assumption|].
  split; [intros ->; rewrite Hdev; reflexivity|].
  unfold get_model_info, generate_response. rewrite Havail, Hen.
  cbn [negb]. cbv iota.
  destruct TORCH_AVAILABLE; cbn [negb]; cbv iota.
  2:{ split; [simpl; tauto | intros _; simpl; tauto]. }
  destruct (is_loaded self) eqn:E; cbn [negb]; cbv iota.
  2:{ split; [simpl; tauto | intros _; simpl; tauto]. }
  split; [simpl; tauto | discriminate].
Qed.

(** X7.  [generate_response] never answers with the empty string; and what
    it makes of a decoded text is stripped and free of "Answer:". *)
Theorem generate_response_nonempty (TORCH_AVAILABLE : bool) (self : llm)
    (prompt : string) (max_length temperature top_p : pyval) :
  generate TORCH_AVAILABLE self prompt max_length temperature top_p <> ""
  /\ (forall m tok text,
        TORCH_AVAILABLE = true -> available self = true ->
        model self = Some m -> tokenizer self = Some tok ->
        infer m tok (device self) (_format_prompt prompt)
          max_length temperature top_p = Decoded text ->
        let reply :=
          generate TORCH_AVAILABLE self prompt max_length temperature top_p in
        str_strip reply = reply /\ contains reply "Answer:" = false).
Proof.
  split; [apply generate_nonempty|].
  intros m tok text -> Havail Hm Ht Hinfer reply. subst reply.
  unfold generate_response. cbn [negb].
  assert (Hen : enabled self = true).
  { unfold is_available in Havail.
    destruct (enabled self); [reflexivity | discriminate]. }
  rewrite Hen, Havail, Hm, Ht, Hinfer. cbn [negb]. cbv iota zeta.
  match goal with
  | |- context [_clean_response ?r] =>
      destruct (clean_response_facts r) as (_ & Hs & Hf)
  end.
  split; assumption.
Qed.

End Backend.

End ChemLLMFacts.


(** ** More on [fluid_calculate] *)

Module HandlerFacts.
Import Py Routes RoutesTerms RoutesFacts HandlerTerms.

Local Open Scope result_scope.

Section Handler.

Variable P : Z -> readings -> readings -> list pyval -> pyval -> result pyval.

Local Abbreviation stored := (RoutesTerms.stored P).

Ltac same_rows :=
  unfold with_rows, with_call, activity_row, calculation_row, call_of;
  cbn; rewrite <- ?app_assoc; reflexivity.

(** What [fluid_calculate] may do to the world. *)
Lemma stored_grows o p gp cc w r :
  stored o p gp cc w r ->
  exists cs rows,
    snd r = {| session := session w;
               pending := if is_nil rows then pending w else [];
               committed := if is_nil rows then committed w
                            else (committed w ++ pending w ++ rows)%list;
               clock := clock w;
               calls := (calls w ++ cs)%list |}
    /\ (List.length cs <= 1)%nat /\ (List.length rows <= 2)%nat
    /\ (rows <> [] -> cs <> []).
Proof.
  intros H. destruct H; cbn [snd].
  - exists [], []. cbn. rewrite app_nil_r. destruct w; cbn.
    split; [reflexivity|]. split; [lia|]. split; [lia | congruence].
  - eexists [_], []. cbn.
    split; [reflexivity|]. split; [lia|]. split; [lia | congruence].
  - eexists [_], [_]. cbn.
    split; [reflexivity|]. split; [lia|]. split; [lia | discriminate].
  - eexists [_], [_; _]. cbn.
    split; [reflexivity|]. split; [lia|]. split; [lia | discriminate].
  - eexists [_], [_; _]. cbn.
    split; [reflexivity|]. split; [lia|]. split; [lia | discriminate].
Qed.

(** X8.  [fluid_calculate] only ever adds: whatever the request, the
    session and the clock are as before, the pipeline is called once
    at most, and the database is as it was or, when the pipeline was
    called, holds what was pending and one or two new rows after the
    rows it had.  Without a logged-in user nothing changes at all. *)
Theorem fluid_calculate_only_appends (req : result pyval) (w : world) :
  let w' := snd (fluid_calculate P req w) in
  session w' = session w
  /\ clock w' = clock w
  /\ (exists cs, calls w' = (calls w ++ cs)%list /\ (List.length cs <= 1)%nat
                 /\ (cs = [] -> w' = w))
  /\ (exists rows,
        (committed w' ++ pending w' = committed w ++ pending w ++ rows)%list
        /\ (List.length rows <= 2)%nat
        /\ (rows <> [] -> pending w' = []))
  /\ (logged_in w = false -> w' = w).
Proof.
  intros w'. subst w'.
  assert (Hsame : forall r : response,
             session w = session w /\ clock w = clock w
             /\ (exists cs, calls w = (calls w ++ cs)%list
                            /\ (List.length cs <= 1)%nat /\ (cs = [] -> w = w))
             /\ (exists rows,
                   (committed w ++ pending w
                    = committed w ++ pending w ++ rows)%list
                   /\ (List.length rows <= 2)%nat
                   /\ (rows <> [] -> pending w = []))).
  { intros _. split; [reflexivity|]. split; [reflexivity|]. split.
    - exists []. rewrite app_nil_r. split; [reflexivity|].
      split; [simpl; lia | reflexivity].
    - exists []. rewrite !app_nil_r. split; [reflexivity|].
      split; [simpl; lia | congruence]. }
  destruct (logged_in w) eqn:Hin.
  2:{ unfold fluid_calculate. rewrite Hin. cbn [negb snd].
      destruct (Hsame (Redirect "login")) as (H1 & H2 & H3 & H4).
      repeat (split; [assumption|]). reflexivity. }
  destruct (fluid_calculate_cases P req w Hin)
    as [[msg ->] | (o & p & gp & cc & ->)].
  { cbn [snd].
    destruct (Hsame (Redirect "login")) as (H1 & H2 & H3 & H4).
    repeat (split; [assumption|]). discriminate. }
  pose proof (process_and_store_stored P o p gp cc w Hin) as Hst.
  apply stored_grows in Hst.
  destruct Hst as (cs & rows & Hw & Hcs & Hrows & Hcall).
  assert (Hsnd : snd (finish (process_and_store P o p gp cc w))
                 = snd (process_and_store P o p gp cc w)).
  { unfold finish. destruct (process_and_store P o p gp cc w) as [[e|r] x];
      reflexivity. }
  rewrite Hsnd, Hw. cbn [session clock calls committed pending].
  split; [reflexivity|]. split; [reflexivity|]. split; [|split].
  - exists cs. split; [reflexivity|]. split; [assumption|]. intros ->.
    destruct rows as [|r rows]; [|exfalso; now apply Hcall].
    cbn. rewrite app_nil_r. destruct w; reflexivity.
  - exists rows. destruct rows as [|r rows]; cbn [is_nil].
    + rewrite !app_nil_r. split; [reflexivity|].
      split; [simpl; lia | congruence].
    + rewrite app_nil_r. split; [reflexivity|].
      split; [assumption | reflexivity].
  - discriminate.
Qed.

(** X9.  A request whose JSON body is not an object never gets past the
    first [data.get]: a logged-in user is answered with status 400 and
    the text of the AttributeError (or of the exception [get_json]
    raised), the pipeline is not called and nothing is stored. *)
Theorem non_object_body_rejected (req : result pyval) (w : world) :
  logged_in w = true ->
  (forall d, req <> ok (PDict d)) ->
  fluid_calculate P req w
  = (error_response
       match req with
       | inl e => exn_str e
       | inr v => "'" ++ type_name v ++ "' object has no attribute 'get'"
       end, w).
Proof.
  intros Hin Hreq. unfold fluid_calculate. rewrite Hin. cbn [negb].
  destruct req as [e|v]; [reflexivity|].
  destruct v; try reflexivity.
  exfalso. now apply (Hreq d).
Qed.

(** X10.  Readings that pass validation with a [graph_params] that cannot
    be unpacked into a tuple, an explicit null for one, are answered
    with the text of the TypeError and status 400; the pipeline is not
    called and nothing is stored.  The default labels stand in for a
    missing key only. *)
Theorem bad_graph_params_rejected (d : list (string * pyval))
    (o p : list pyval) (o' p' : readings) (e : exn) (w : world) :
  logged_in w = true ->
  field d "orifice_readings" (PList []) = PList o ->
  field d "pitot_readings" (PList []) = PList p ->
  o <> [] -> List.length o = List.length p ->
  convert_all o = ok o' -> convert_all p = ok p' ->
  py_iter (field d "graph_params" (PList [PStr "V0"; PStr "Vp"])) = inl e ->
  fluid_calculate P (ok (PDict d)) w = (error_response (exn_str e), w)
  /\ (assoc "graph_params" d = Some PNone ->
      exn_str e = "'NoneType' object is not iterable").
Proof.
  intros Hin Ho Hp Hne Hlen Hco Hcp Hgp.
  rewrite (fluid_calculate_lists P d o p w Hin Ho Hp).
  destruct o as [|r o]; [congruence|].
  destruct p as [|r' p]; [discriminate|].
  cbn [is_nil orb]. rewrite Hlen, Nat.eqb_refl. cbn [negb].
  rewrite Hco, Hcp. cbn [rbind ok].
  split.
  - unfold process_and_store, bind, lift. rewrite Hgp. reflexivity.
  - intros Hnull. unfold field in Hgp. rewrite Hnull in Hgp.
    cbn in Hgp. now inversion Hgp.
Qed.

(** X11.  An error response does not mean that nothing was stored.  When the
    pipeline returns a result without one of the five report fields,
    the user is answered with status 400 and the text of the
    exception, yet the activity row is committed, and so is the
    calculation row when the field that is missing is not
    [mean_cv]. *)
Theorem rows_stored_before_error (d : list (string * pyval))
    (o p : list pyval) (o' p' : readings) (labels : list pyval)
    (result uid : pyval) (w : world) :
  assoc "user_id" (session w) = Some uid ->
  field d "orifice_readings" (PList []) = PList o ->
  field d "pitot_readings" (PList []) = PList p ->
  o <> [] -> List.length o = List.length p ->
  convert_all o = ok o' -> convert_all p = ok p' ->
  py_iter (field d "graph_params" (PList [PStr "V0"; PStr "Vp"]))
  = ok labels ->
  P (clock w) o' p' labels (field d "constants" PNone) = ok result ->
  (exists k, In k report_fields /\ forall v, py_item result k <> ok v) ->
  exists e rows,
    fluid_calculate P (ok (PDict d)) w
    = (error_response (exn_str e),
       with_rows
         (with_call w (call_of o' p' labels (field d "constants" PNone)))
         rows)
    /\ match py_item result "mean_cv" with
       | inr m => rows = [activity_row uid (List.length o');
                          calculation_row uid m]
       | inl e' => rows = [activity_row uid (List.length o')] /\ e = e'
       end.
Proof.
  intros Huid Ho Hp Hne Hlen Hco Hcp Hgp HP (k & Hk & Hmiss).
  assert (Hin : logged_in w = true) by (unfold logged_in; now rewrite Huid).
  rewrite (fluid_calculate_lists P d o p w Hin Ho Hp).
  destruct o as [|r o]; [congruence|].
  destruct p as [|r' p]; [discriminate|].
  cbn [is_nil orb]. rewrite Hlen, Nat.eqb_refl. cbn [negb].
  rewrite Hco, Hcp. cbn [rbind ok].
  set (cc := field d "constants" PNone) in *.
  unfold finish, process_and_store, bind, lift, ret,
    call_process_experiment_data, log_activity, session_item,
    db_session_add, db_session_commit, bind.
  rewrite Hgp. cbn [ok]. rewrite HP. cbn. rewrite Huid. cbn.
  destruct (py_item result "mean_cv") as [e|m] eqn:Hm.
  { exists e, [activity_row uid (List.length o')].
    split; [reflexivity | now split]. }
  destruct (py_item result "results") as [e|r1] eqn:H1.
  { exists e, [activity_row uid (List.length o'); calculation_row uid m].
    split; [same_rows | reflexivity]. }
  destruct (py_item result "model_calculation") as [e|r3] eqn:H3.
  { exists e, [activity_row uid (List.length o'); calculation_row uid m].
    split; [same_rows | reflexivity]. }
  destruct (py_item result "graph_base64") as [e|r4] eqn:H4.
  { exists e, [activity_row uid (List.length o'); calculation_row uid m].
    split; [same_rows | reflexivity]. }
  destruct (py_item result "pdf_base64") as [e|r5] eqn:H5.
  { exists e, [activity_row uid (List.length o'); calculation_row uid m].
    split; [same_rows | reflexivity]. }
  exfalso. unfold report_fields in Hk. simpl in Hk.
  destruct Hk as [<- | [<- | [<- | [<- | [<- | []]]]]];
    eapply Hmiss; eassumption.
Qed.

End Handler.

Lemma non_object_body_rejected_witness :
  fluid_calculate sample_pipeline (ok (PList [PInt 1])) sample_world
  = (error_response "'list' object has no attribute 'get'", sample_world).
Proof.
  apply (non_object_body_rejected sample_pipeline (ok (PList [PInt 1]))
           sample_world).
  - reflexivity.
  - discriminate.
Defined.

Lemma bad_graph_params_rejected_witness :
  fluid_calculate sample_pipeline
    (ok (PDict (("graph_params", PNone) :: one_reading))) sample_world
  = (error_response "'NoneType' object is not iterable", sample_world).
Proof.
  apply (bad_graph_params_rejected sample_pipeline
           (("graph_params", PNone) :: one_reading)
           [pair (PInt 1) (PInt 2)] [pair (PInt 3) (PInt 4)]
           [(Fin (inject_Z 1), Fin (inject_Z 2))]
           [(Fin (inject_Z 3), Fin (inject_Z 4))]
           (Raise TypeError "'NoneType' object is not iterable")
           sample_world);
    solve [reflexivity | discriminate].
Defined.

Lemma rows_stored_before_error_witness :
  exists e,
    fst (fluid_calculate partial_pipeline (ok (PDict one_reading))
           sample_world)
    = error_response (exn_str e)
    /\ List.length
         (committed
            (snd (fluid_calculate partial_pipeline (ok (PDict one_reading))
                    sample_world)))
       = 2%nat.
Proof.
  destruct (rows_stored_before_error partial_pipeline one_reading
              [pair (PInt 1) (PInt 2)] [pair (PInt 3) (PInt 4)]
              [(Fin (inject_Z 1), Fin (inject_Z 2))]
              [(Fin (inject_Z 3), Fin (inject_Z 4))]
              [PStr "V0"; PStr "Vp"] partial_report (PInt 7) sample_world)
    as (e & rows & Heq & Hrows); try reflexivity; try discriminate.
  - exists "pdf_base64". split; [simpl; tauto | discriminate].
  - exists e. rewrite Heq. cbn [fst snd]. split; [reflexivity|].
    cbn in Hrows. rewrite Hrows. reflexivity.
Defined.

End HandlerFacts.


(** ** The session, experiment and chat handlers *)

Module SiteFacts.
Import Py PyStr StrTerms PyStrFacts Site SiteTerms.

Lemma find_app_some {A} (f : A -> bool) (l l' : list A) (x : A) :
  find f l = Some x -> find f (l ++ l') = Some x.
Proof.
  induction l as [|a l IH]; simpl; [discriminate|].
  destruct (f a); [trivial | apply IH].
Qed.

Lemma find_app_none {A} (f : A -> bool) (l l' : list A) :
  find f l = None -> find f (l ++ l') = find f l'.
Proof.
  induction l as [|a l IH]; simpl; [reflexivity|].
  destruct (f a); [discriminate | apply IH].
Qed.

Lemma wanted_account (u : User) (name role : string) :
  wanted name role u = true <-> account u = (name, role).
Proof.
  unfold wanted, account. rewrite andb_true_iff, !String.eqb_eq.
  split; [intros [-> ->]; reflexivity | intros H; now inversion H].
Qed.

Lemma login_found (form : list (string * string)) (name role : string)
    (w : world) (u : User) :
  form_get "name" form = Some name ->
  form_get "role" form = Some role ->
  find (wanted name role) (users (view (db w))) = Some u ->
  login "POST" form w = (Redirect "dashboard", enter u w).
Proof.
  intros Hn Hr Hf. unfold login.
  change (String.eqb "POST" "POST") with true. cbv iota.
  rewrite Hn, Hr. cbv zeta.
  change (fun u0 : User =>
            (String.eqb (u_name u0) name && String.eqb (u_role u0) role)%bool)
    with (wanted name role).
  rewrite Hf. reflexivity.
Qed.

Lemma login_new (form : list (string * string)) (name role : string)
    (w : world) :
  form_get "name" form = Some name ->
  form_get "role" form = Some role ->
  find (wanted name role) (users (view (db w))) = None ->
  login "POST" form w =
  (Redirect "dashboard",
   enter (fst (add_user name role (institution_of form) w))
     (db_session_commit (snd (add_user name role (institution_of form) w)))).
Proof.
  intros Hn Hr Hf. unfold login.
  change (String.eqb "POST" "POST") with true. cbv iota.
  rewrite Hn, Hr. cbv zeta.
  change (fun u0 : User =>
            (String.eqb (u_name u0) name && String.eqb (u_role u0) role)%bool)
    with (wanted name role).
  rewrite Hf. reflexivity.
Qed.

Lemma login_incomplete (form : list (string * string)) (w : world) :
  form_get "name" form = None \/ form_get "role" form = None ->
  login "POST" form w = (Abort 400, w).
Proof.
  unfold login. change (String.eqb "POST" "POST") with true. cbv iota.
  intros [H | H]; rewrite H; [reflexivity|].
  destruct (form_get "name" form); reflexivity.
Qed.

(** X12.  [login] on a POST: a form without a name or a role is answered
    with status 400 and changes nothing.  Otherwise the reply is the
    redirect to the dashboard; the session holds the id, the name and
    the role of a row of the users table with that name and role;
    the activity log has one more row, for that user; nothing is left
    pending; and the users table is as it was, or has that row as its
    new last row, with the next free id and the institution of the
    form ('' without one), when no row had the name and the role. *)
Theorem login_opens_session (form : list (string * string)) (w : world) :
  let w' := snd (login "POST" form w) in
  match form_get "name" form, form_get "role" form with
  | Some name, Some role =>
      fst (login "POST" form w) = Redirect "dashboard"
      /\ exists u,
          In u (users (view (db w')))
          /\ account u = (name, role)
          /\ session w' = Some (session_of u)
          /\ settled w'
          /\ activity_logs (view (db w'))
             = (activity_logs (view (db w)) ++ [logged_in_row u])%list
          /\ (users (view (db w')) = users (view (db w))
              \/ (forall v, In v (users (view (db w))) ->
                            account v <> (name, role))
                 /\ users (view (db w'))
                    = (users (view (db w)) ++ [u])%list
                 /\ u_id u = next_user_id (db w)
                 /\ u_institution u = institution_of form)
  | _, _ => login "POST" form w = (Abort 400, w)
  end.
Proof.
  intros w'. subst w'.
  destruct (form_get "name" form) as [name|] eqn:Hn;
    [|apply login_incomplete; now left].
  destruct (form_get "role" form) as [role|] eqn:Hr;
    [|apply login_incomplete; now right].
  destruct (find (wanted name role) (users (view (db w)))) as [u|] eqn:Hf.
  - rewrite (login_found form name role w u Hn Hr Hf).
    apply find_some in Hf. destruct Hf as [Hin Hw].
    apply wanted_account in Hw.
    split; [reflexivity|]. exists u. cbn.
    repeat split; try assumption. now left.
  - rewrite (login_new form name role w Hn Hr Hf).
    split; [reflexivity|].
    exists (fst (add_user name role (institution_of form) w)). cbn.
    repeat split.
    + apply in_or_app. right. now left.
    + right. repeat split.
      intros v Hv Hacc. apply wanted_account in Hacc.
      pose proof (find_none _ _ Hf v Hv) as Hnone. congruence.
Qed.

Lemma login_get (method : string) (form : list (string * string))
    (w : world) :
  String.eqb method "POST" = false ->
  login method form w = (Render "login.html", w).
Proof. intros H. unfold login. now rewrite H. Qed.

(** X13.  [login] keeps the users table in order, whatever the method and
    the form: when no two rows share a key or a name and role, and the
    keys lie below the counter, the same holds afterwards; the rows
    that were there are still there, at their places. *)
Theorem login_keeps_accounts_unique (method : string)
    (form : list (string * string)) (w : world) :
  accounts_unique w -> users_keyed w ->
  let w' := snd (login method form w) in
  accounts_unique w' /\ users_keyed w'
  /\ exists added, users (view (db w')) = (users (view (db w)) ++ added)%list.
Proof.
  intros Hacc [Hkeys Hbelow] w'. subst w'.
  destruct (String.eqb method "POST") eqn:Hm.
  2:{ rewrite (login_get method form w Hm). cbn [snd].
      repeat split; try assumption. exists []. now rewrite app_nil_r. }
  apply String.eqb_eq in Hm. subst method.
  destruct (form_get "name" form) as [name|] eqn:Hn.
  2:{ rewrite login_incomplete by now left. cbn [snd].
      repeat split; try assumption. exists []. now rewrite app_nil_r. }
  destruct (form_get "role" form) as [role|] eqn:Hr.
  2:{ rewrite login_incomplete by now right. cbn [snd].
      repeat split; try assumption. exists []. now rewrite app_nil_r. }
  destruct (find (wanted name role) (users (view (db w)))) as [u|] eqn:Hf.
  - rewrite (login_found form name role w u Hn Hr Hf).
    unfold accounts_unique, users_keyed. cbn.
    repeat split; try assumption. exists []. now rewrite app_nil_r.
  - rewrite (login_new form name role w Hn Hr Hf).
    unfold accounts_unique, users_keyed in *. cbn.
    rewrite !map_app. cbn [map u_id account u_name u_role].
    assert (Hfresh : ~ In (name, role) (map account (users (view (db w))))).
    { intros Hin. apply in_map_iff in Hin. destruct Hin as (v & Hv & Hin).
      apply wanted_account in Hv.
      pose proof (find_none _ _ Hf v Hin) as Hnone. congruence. }
    assert (Hnew : ~ In (next_user_id (db w))
                        (map u_id (users (view (db w))))).
    { intros Hin. apply in_map_iff in Hin. destruct Hin as (v & Hv & Hin).
      rewrite Forall_forall in Hbelow. specialize (Hbelow v Hin). lia. }
    repeat split.
    + apply NoDup_app; [assumption | repeat constructor; simpl; tauto |].
      intros a Ha [<- | []]. contradiction.
    + apply NoDup_app; [assumption | repeat constructor; simpl; tauto |].
      intros a Ha [<- | []]. contradiction.
    + apply Forall_app. split.
      * eapply Forall_impl; [|exact Hbelow]. cbn. intros; lia.
      * repeat constructor. cbn. lia.
    + eexists. reflexivity.
Qed.

Lemma login_resolves (form : list (string * string)) (name role : string)
    (w : world) :
  form_get "name" form = Some name ->
  form_get "role" form = Some role ->
  exists u w1,
    login "POST" form w = (Redirect "dashboard", enter u w1)
    /\ find (wanted name role) (users (view (db w1))) = Some u
    /\ activity_logs (view (db w1)) = activity_logs (view (db w))
    /\ experiments (view (db w1)) = experiments (view (db w))
    /\ chat_messages (view (db w1)) = chat_messages (view (db w)).
Proof.
  intros Hn Hr.
  destruct (find (wanted name role) (users (view (db w)))) as [u|] eqn:Hf.
  - exists u, w. rewrite (login_found form name role w u Hn Hr Hf).
    repeat split. assumption.
  - eexists _, _. rewrite (login_new form name role w Hn Hr Hf).
    split; [reflexivity|]. cbn. repeat split.
    rewrite (find_app_none _ _ _ Hf). cbn [find].
    unfold wanted. cbn [u_name u_role]. now rewrite !String.eqb_refl.
Qed.

(** X14.  Logging in again with the same name and role finds the same
    account: the session is the same, no row is added to the users
    table and none is changed, whatever institution the second form
    gives. *)
Theorem login_again_same_account (form form' : list (string * string))
    (name role : string) (w : world) :
  form_get "name" form = Some name ->
  form_get "role" form = Some role ->
  form_get "name" form' = Some name ->
  form_get "role" form' = Some role ->
  let w1 := snd (login "POST" form w) in
  let w2 := snd (login "POST" form' w1) in
  session w2 = session w1
  /\ users (view (db w2)) = users (view (db w1))
  /\ next_user_id (db w2) = next_user_id (db w1).
Proof.
  intros Hn Hr Hn' Hr' w1 w2. subst w2 w1.
  destruct (login_resolves form name role w Hn Hr)
    as (u & w1 & -> & Hf & _).
  cbn [snd].
  assert (Hf' : find (wanted name role) (users (view (db (enter u w1))))
                = Some u) by exact Hf.
  rewrite (login_found form' name role _ u Hn' Hr' Hf').
  cbn. repeat split.
Qed.

(** X15.  Logging in and then out: the dashboard is served in between and
    the front page afterwards; the session ends empty; the activity
    log gains the two rows, in that order, with the user's id; the
    experiments and the chat messages are untouched; nothing is left
    pending. *)
Theorem login_logout_round_trip (form : list (string * string))
    (name role : string) (w : world) :
  form_get "name" form = Some name ->
  form_get "role" form = Some role ->
  let w1 := snd (login "POST" form w) in
  let w2 := snd (logout w1) in
  fst (index w1) = Redirect "dashboard"
  /\ fst (logout w1) = Redirect "index"
  /\ fst (index w2) = Render "frontpage.html"
  /\ session w2 = None
  /\ (exists u,
        account u = (name, role) /\ In u (users (view (db w2)))
        /\ activity_logs (view (db w2))
           = (activity_logs (view (db w))
              ++ [logged_in_row u; logged_out_row (session_of u)])%list)
  /\ users (view (db w2)) = users (view (db w1))
  /\ experiments (view (db w2)) = experiments (view (db w))
  /\ chat_messages (view (db w2)) = chat_messages (view (db w))
  /\ settled w2.
Proof.
  intros Hn Hr w1 w2. subst w2 w1.
  destruct (login_resolves form name role w Hn Hr)
    as (u & w1 & -> & Hf & Hlog & Hexp & Hchat).
  apply find_some in Hf. destruct Hf as [Hin Hw].
  apply wanted_account in Hw.
  cbn. repeat split; try assumption.
  exists u. repeat split; try assumption.
  rewrite Hlog, <- app_assoc. reflexivity.
Qed.

Lemma same_key {A} (f : A -> Z) (l : list A) (x y : A) :
  NoDup (map f l) -> In x l -> In y l -> f x = f y -> x = y.
Proof.
  induction l as [|a l IH]; simpl; [contradiction|].
  intros Hnd [-> | Hx] [-> | Hy] Hf; inversion Hnd; subst.
  - reflexivity.
  - exfalso. match goal with H : ~ In _ _ |- _ => apply H end.
    rewrite Hf. now apply in_map.
  - exfalso. match goal with H : ~ In _ _ |- _ => apply H end.
    rewrite <- Hf. now apply in_map.
  - now apply IH.
Qed.

Lemma filter_twice {A} (f g : A -> bool) (l : list A) :
  (forall x, In x l -> f x = true -> g x = true) ->
  filter f (filter g l) = filter f l.
Proof.
  induction l as [|a l IH]; intros H; simpl; [reflexivity|].
  destruct (g a) eqn:Hg; simpl.
  - destruct (f a); rewrite IH; auto; intros; apply H; simpl; auto.
  - destruct (f a) eqn:Hf.
    + rewrite (H a) in Hg; [discriminate | simpl; auto | assumption].
    + apply IH. intros; apply H; simpl; auto.
Qed.

Lemma find_nowhere {A} (f : A -> bool) (l : list A) :
  (forall x, In x l -> f x = false) -> find f l = None.
Proof.
  induction l as [|a l IH]; intros H; simpl; [reflexivity|].
  rewrite (H a) by (simpl; auto). apply IH. intros; apply H; simpl; auto.
Qed.

Lemma filter_none {A} (f : A -> bool) (l : list A) :
  (forall x, In x l -> f x = false) -> filter f l = [].
Proof.
  induction l as [|a l IH]; intros H; simpl; [reflexivity|].
  rewrite (H a) by (simpl; auto). apply IH. intros; apply H; simpl; auto.
Qed.

(** The two outcomes of [delete_experiment] for a logged-in user. *)
Lemma delete_experiment_cases (experiment_id : Z) (w : world)
    (s : session_data) :
  session w = Some s ->
  (delete_experiment experiment_id w = (not_found, w)
   /\ forall e, In e (experiments (view (db w))) ->
                e_id e = experiment_id -> e_user_id e <> user_id s)
  \/ exists e,
      In e (experiments (view (db w)))
      /\ e_id e = experiment_id /\ e_user_id e = user_id s
      /\ delete_experiment experiment_id w
         = (Json [("success", PBool true);
                  ("message",
                   PStr ("Experiment " ++ dquote ++ e_title e ++ dquote
                         ++ " deleted successfully"))] 200,
            log_activity (user_id s) "Experiment Deletion"
              ("Deleted experiment: " ++ e_title e)
              (db_session_commit (delete_row e w))).
Proof.
  intros Hs. unfold delete_experiment. rewrite Hs.
  destruct (find _ _) as [e|] eqn:Hf.
  - right. exists e. apply find_some in Hf. destruct Hf as [Hin Hok].
    apply andb_true_iff in Hok. destruct Hok as [Hid Hown].
    apply Z.eqb_eq in Hid, Hown. repeat split; assumption.
  - left. split; [reflexivity|]. intros e Hin Hid Hown.
    pose proof (find_none _ _ Hf e Hin) as Hnone. cbn in Hnone.
    apply andb_false_iff in Hnone.
    destruct Hnone as [H | H]; apply Z.eqb_neq in H; contradiction.
Qed.

(** X16.  A user deletes only experiments of their own: whatever id is
    asked for, the experiments of every other user are the same rows
    in the same order afterwards, and the users and the chat messages
    are untouched; asking for an experiment of somebody else is
    answered with 404 and changes nothing.  Primary keys are taken to
    be unique, as the database keeps them. *)
Theorem delete_experiment_only_own (experiment_id : Z) (w : world)
    (s : session_data) :
  session w = Some s ->
  NoDup (map e_id (experiments (view (db w)))) ->
  let w' := snd (delete_experiment experiment_id w) in
  (forall uid, uid <> user_id s ->
               experiments_of uid w' = experiments_of uid w)
  /\ (forall e, In e (experiments (view (db w))) ->
                e_id e = experiment_id -> e_user_id e <> user_id s ->
                delete_experiment experiment_id w = (not_found, w))
  /\ users (view (db w')) = users (view (db w))
  /\ chat_messages (view (db w')) = chat_messages (view (db w))
  /\ session w' = session w.
Proof.
  intros Hs Hnd w'. subst w'.
  destruct (delete_experiment_cases experiment_id w s Hs)
    as [[-> Hnone] | (e & Hin & Hid & Hown & ->)]; cbn [snd].
  - repeat split.
  - split; [|split; [|repeat split]].
    + intros uid Huid. unfold experiments_of. cbn.
      apply filter_twice. intros x Hx Hux.
      apply Z.eqb_eq in Hux. apply negb_true_iff, Z.eqb_neq.
      intros Heq. apply Huid.
      rewrite <- Hux, <- Hown. f_equal.
      now apply (same_key e_id (experiments (view (db w)))).
    + intros x Hx Hidx Hownx. exfalso. apply Hownx.
      rewrite <- Hown. f_equal.
      apply (same_key e_id (experiments (view (db w)))); congruence.
Qed.

(** X17.  Deleting is done once: after [delete_experiment], no experiment
    of the user has the id, a second request for the same id is
    answered with 404 and changes nothing, and nothing is left
    pending when a row was deleted.  The first reply is the 404, with
    the world as it was, or the success message with the title, with
    one more row in the activity log. *)
Theorem delete_experiment_twice (experiment_id : Z) (w : world)
    (s : session_data) :
  session w = Some s ->
  let w1 := snd (delete_experiment experiment_id w) in
  delete_experiment experiment_id w1 = (not_found, w1)
  /\ (forall e, In e (experiments (view (db w1))) ->
                e_id e = experiment_id -> e_user_id e <> user_id s)
  /\ ((fst (delete_experiment experiment_id w) = not_found /\ w1 = w)
      \/ exists e,
          In e (experiments_of (user_id s) w) /\ e_id e = experiment_id
          /\ status (fst (delete_experiment experiment_id w)) = Some 200
          /\ body_field (fst (delete_experiment experiment_id w)) "message"
             = Some (PStr ("Experiment " ++ dquote ++ e_title e ++ dquote
                           ++ " deleted successfully"))
          /\ experiments (view (db w1))
             = filter (fun x => negb (Z.eqb (e_id x) experiment_id))
                      (experiments (view (db w)))
          /\ activity_logs (view (db w1))
             = (activity_logs (view (db w))
                ++ [{| a_user_id := user_id s;
                       a_action_type := "Experiment Deletion";
                       a_description :=
                         "Deleted experiment: " ++ e_title e |}])%list
          /\ settled w1).
Proof.
  intros Hs w1. subst w1.
  destruct (delete_experiment_cases experiment_id w s Hs)
    as [[Hd Hnone] | (e & Hin & Hid & Hown & Hd)]; rewrite Hd; cbn [fst snd].
  - split; [assumption|]. split; [assumption|]. left. now split.
  - assert (Hgone : forall x,
               In x (filter (fun x => negb (Z.eqb (e_id x) (e_id e)))
                       (experiments (view (db w)))) ->
               e_id x = experiment_id -> e_user_id x <> user_id s).
    { intros x Hx Hidx. apply filter_In in Hx. destruct Hx as [_ Hx].
      apply negb_true_iff, Z.eqb_neq in Hx. congruence. }
    split; [|split; [exact Hgone|]].
    + unfold delete_experiment. cbn [session log_activity db_session_commit
        add_activity with_db with_view delete_row db view experiments].
      rewrite Hs.
      rewrite find_nowhere; [reflexivity|].
      intros x Hx. apply andb_false_iff.
      destruct (Z.eqb (e_id x) experiment_id) eqn:E; [|now left].
      right. apply Z.eqb_neq. apply Z.eqb_eq in E. now apply Hgone.
    + right. exists e. subst experiment_id. repeat split.
      unfold experiments_of. apply filter_In. split; [assumption|].
      now apply Z.eqb_eq.
Qed.

(** X18.  [clear_chat_history] clears the history of the user in the session
    and of nobody else: the user has no message left, every other
    user keeps theirs, rows and order; the users and the experiments
    are untouched, the activity log has one more row, and nothing is
    left pending. *)
Theorem clear_chat_history_only_own (w : world) (s : session_data) :
  session w = Some s ->
  let w' := snd (clear_chat_history w) in
  fst (clear_chat_history w) = Json [("success", PBool true)] 200
  /\ messages_of (user_id s) w' = []
  /\ (forall uid, uid <> user_id s ->
                  messages_of uid w' = messages_of uid w)
  /\ users (view (db w')) = users (view (db w))
  /\ experiments (view (db w')) = experiments (view (db w))
  /\ activity_logs (view (db w'))
     = (activity_logs (view (db w))
        ++ [{| a_user_id := user_id s; a_action_type := "Chatbot";
               a_description := "Cleared chat history" |}])%list
  /\ session w' = session w
  /\ settled w'.
Proof.
  intros Hs w'. subst w'. unfold clear_chat_history. rewrite Hs.
  unfold messages_of. cbn. repeat split; try assumption.
  - apply filter_none. intros m Hm. apply filter_In in Hm.
    destruct Hm as [_ Hm]. now apply negb_true_iff in Hm.
  - intros uid Huid. apply filter_twice. intros m _ Hm.
    apply Z.eqb_eq in Hm. apply negb_true_iff, Z.eqb_neq. congruence.
Qed.

(** X19.  [save_conversation] appends the user's message and then the bot's
    response, under the next two keys, and commits; the keys stay
    unique and below the counter, and the messages of the other users
    are as they were. *)
Theorem save_conversation_appends_pair (uid : Z)
    (user_message bot_response : string) (w : world) :
  messages_keyed w ->
  let w' := save_conversation uid user_message bot_response w in
  messages_keyed w'
  /\ settled w'
  /\ chat_messages (view (db w'))
     = (chat_messages (view (db w))
        ++ [{| m_id := next_message_id (db w); m_user_id := uid;
               m_message := user_message; m_response := "";
               m_is_user_message := true |};
            {| m_id := next_message_id (db w) + 1; m_user_id := uid;
               m_message := ""; m_response := bot_response;
               m_is_user_message := false |}])%list
  /\ (forall uid', uid' <> uid -> messages_of uid' w' = messages_of uid' w)
  /\ users (view (db w')) = users (view (db w))
  /\ experiments (view (db w')) = experiments (view (db w))
  /\ activity_logs (view (db w')) = activity_logs (view (db w)).
Proof.
  intros [Hnd Hbelow] w'. subst w'.
  unfold messages_keyed, save_conversation, messages_of, settled. cbn.
  rewrite <- !app_assoc. cbn [app].
  split; [split|].
  - rewrite map_app. cbn [map m_id].
    apply NoDup_app; [assumption | |].
    + repeat constructor; simpl; [lia | tauto].
    + intros a Ha Hin. apply in_map_iff in Ha.
      destruct Ha as (m & <- & Hm).
      rewrite Forall_forall in Hbelow. specialize (Hbelow m Hm).
      simpl in Hin. lia.
  - apply Forall_app. split.
    + eapply Forall_impl; [|exact Hbelow]. cbn. intros; lia.
    + repeat constructor; cbn; lia.
  - repeat split.
    intros uid' Hne. rewrite filter_app. cbn [filter m_user_id].
    apply Z.eqb_neq in Hne. rewrite Z.eqb_sym in Hne. rewrite Hne.
    apply app_nil_r.
Qed.

Lemma strip_nonblank (m : string) : ~ blank m -> is_empty (str_strip m) = false.
Proof.
  intros H. destruct (str_strip m) eqn:E; [|reflexivity].
  exfalso. apply H. now apply strip_blank.
Qed.

Section Chat.

Variable process_message : string -> Z -> world -> result string * world.
Variable enhanced_save_conversation :
  Z -> string -> string -> world -> result unit * world.

Local Abbreviation send :=
  (send_chat_message process_message enhanced_save_conversation).

(** X20.  A request without a message, or with a message of blanks only, is
    answered with 'Message cannot be empty' and status 400; the
    chatbot is not asked, and nothing is stored or logged. *)
Theorem blank_message_rejected (d : list (string * pyval)) (w : world)
    (s : session_data) :
  session w = Some s ->
  assoc "message" d = None
  \/ (exists m, assoc "message" d = Some (PStr m) /\ blank m) ->
  send (ok (PDict d)) w = (empty_message, w).
Proof.
  intros Hs Hm. unfold send_chat_message, send_chat_message_try.
  rewrite Hs. cbn [rbind ok py_get].
  destruct Hm as [-> | (m & -> & Hblank)]; cbn.
  - reflexivity.
  - apply strip_blank in Hblank. rewrite Hblank. reflexivity.
Qed.

(** X21.  A message that is not blank goes to the chatbot stripped.  When
    the chatbot answers and the conversation is saved, the reply
    carries the answer with status 200, and the activity log gets one
    more row, whose description is 'Asked: ', the first 50 characters
    of the stripped message and '...', 60 characters at most.  When
    the chatbot raises, the reply is the text of the exception with
    status 500, the conversation is not saved and nothing is logged;
    when saving raises, the same, with nothing logged. *)
Theorem chat_message_outcomes (d : list (string * pyval)) (m : string)
    (w : world) (s : session_data) :
  session w = Some s ->
  assoc "message" d = Some (PStr m) ->
  ~ blank m ->
  let asked := str_strip m in
  let description := "Asked: " ++ str_take 50 asked ++ "..." in
  (forall answer w1 w2,
      process_message asked (user_id s) w = (ok answer, w1) ->
      enhanced_save_conversation (user_id s) asked answer w1 = (ok tt, w2) ->
      send (ok (PDict d)) w
      = (Json [("success", PBool true); ("response", PStr answer);
               ("timestamp", PStr (clock w2))] 200,
         log_activity (user_id s) "Chatbot" description w2))
  /\ (String.length description <= 60)%nat
  /\ (forall e w1,
        process_message asked (user_id s) w = (inl e, w1) ->
        send (ok (PDict d)) w = (Json [("error", PStr (exn_str e))] 500, w1))
  /\ (forall answer w1 e w2,
        process_message asked (user_id s) w = (ok answer, w1) ->
        enhanced_save_conversation (user_id s) asked answer w1 = (inl e, w2) ->
        send (ok (PDict d)) w = (Json [("error", PStr (exn_str e))] 500, w2)).
Proof.
  intros Hs Hm Hblank asked description.
  assert (Hsend : send (ok (PDict d)) w =
                  match process_message asked (user_id s) w with
                  | (inl e, w1) => (Json [("error", PStr (exn_str e))] 500, w1)
                  | (inr answer, w1) =>
                      match enhanced_save_conversation (user_id s) asked
                              answer w1 with
                      | (inl e, w2) =>
                          (Json [("error", PStr (exn_str e))] 500, w2)
                      | (inr _, w2) =>
                          (Json [("success", PBool true);
                                 ("response", PStr answer);
                                 ("timestamp", PStr (clock w2))] 200,
                           log_activity (user_id s) "Chatbot" description w2)
                      end
                  end).
  { unfold send_chat_message, send_chat_message_try. rewrite Hs.
    cbn [rbind ok py_get]. rewrite Hm. cbn [py_strip rbind ok].
    rewrite (strip_nonblank m Hblank). fold asked. fold description.
    destruct (process_message asked (user_id s) w) as [[e|answer] w1];
      [reflexivity|].
    destruct (enhanced_save_conversation (user_id s) asked answer w1)
      as [[e|[]] w2]; reflexivity. }
  repeat split.
  - intros answer w1 w2 Hp Hsave. unfold ok in Hp, Hsave.
    rewrite Hsend, Hp. cbv beta iota. rewrite Hsave. reflexivity.
  - subst description. rewrite !length_append.
    pose proof (take_length 50 asked). cbn [String.length]. lia.
  - intros e w1 Hp. now rewrite Hsend, Hp.
  - intros answer w1 e w2 Hp Hsave. unfold ok in Hp.
    rewrite Hsend, Hp. cbv beta iota. now rewrite Hsave.
Qed.

End Chat.

Section Llm.

Variable Model : Type.
Variable Tokenizer : Type.
Variable load_tokenizer : string -> result Tokenizer.
Variable load_model : string -> string -> result Model.
Variable to_device : Model -> string -> result Model.
Variable infer :
  Model -> Tokenizer -> string -> string -> pyval -> pyval -> pyval
  -> ChemLLM.inference.
Variable TORCH_AVAILABLE : bool.
Variable cuda : bool.

(** The global instance, as the module builds it. *)
Local Abbreviation chemllm :=
  (ChemLLM.__init__ Model Tokenizer load_tokenizer load_model to_device
     TORCH_AVAILABLE cuda).
Local Abbreviation generate :=
  (chemllm_generate Model Tokenizer infer TORCH_AVAILABLE chemllm).
Local Abbreviation info :=
  (ChemLLM.get_model_info Model Tokenizer TORCH_AVAILABLE chemllm).

(** X22.  [chemllm_generate] with the instance the module builds, for a
    logged-in user and a prompt that is not blank: when the model is
    loaded the reply has status 200, a response that is not empty and
    the model info with status 'loaded', and the activity log has one
    more row; when it is not, the reply has status 503 and the model
    info under 'model_status', with status 'dependencies_missing' or
    'not_loaded', and nothing is logged.  A missing or blank prompt is
    answered with 'Prompt is required' and status 400.
    [chemllm_status] reports the same model info and changes nothing. *)
Theorem chemllm_generate_gate (d : list (string * pyval)) (w : world)
    (s : session_data) :
  session w = Some s ->
  let reply := fst (generate (ok (PDict d)) w) in
  let w' := snd (generate (ok (PDict d)) w) in
  (assoc "prompt" d = None
   \/ (exists p, assoc "prompt" d = Some (PStr p) /\ blank p) ->
   reply = prompt_required /\ w' = w)
  /\ (forall p,
        assoc "prompt" d = Some (PStr p) -> ~ blank p ->
        if ChemLLM.is_loaded chemllm
        then status reply = Some 200
             /\ (exists text, body_field reply "response" = Some (PStr text)
                              /\ text <> "")
             /\ body_field reply "model_info" = Some (PDict info)
             /\ assoc "status" info = Some (PStr "loaded")
             /\ w' = log_activity (user_id s) "ChemLLM Query"
                      ("Generated response for: "
                       ++ str_take 50 (str_strip p) ++ "...") w
        else status reply = Some 503
             /\ body_field reply "model_status" = Some (PDict info)
             /\ In (assoc "status" info)
                   [Some (PStr "dependencies_missing");
                    Some (PStr "not_loaded")]
             /\ w' = w)
  /\ chemllm_status Model Tokenizer TORCH_AVAILABLE chemllm w
     = (Json [("success", PBool true); ("model_info", PDict info)] 200, w).
Proof.
  intros Hs reply w'. subst reply w'.
  destruct (ChemLLMFacts.constructed_invariant Model Tokenizer
              load_tokenizer load_model to_device TORCH_AVAILABLE cuda)
    as (Hen & Havail & Hloaded & _).
  cbv zeta in Hen, Havail, Hloaded.
  unfold chemllm_generate. rewrite Hs. cbn [py_get rbind ok].
  split; [|split].
  3:{ unfold chemllm_status, get_chemllm_info. rewrite Hs. reflexivity. }
  - intros [-> | (p & -> & Hblank)].
    + cbn. destruct (assoc "max_length" d), (assoc "temperature" d),
        (assoc "top_p" d); cbn; split; reflexivity.
    + apply strip_blank in Hblank. cbn [py_strip rbind ok].
      rewrite Hblank.
      destruct (assoc "max_length" d), (assoc "temperature" d),
        (assoc "top_p" d); cbn; split; reflexivity.
  - intros p -> Hblank. cbn [py_strip rbind ok].
    pose proof (strip_nonblank p Hblank) as Hne.
    unfold is_chemllm_available, get_chemllm_info,
      generate_chemllm_response.
    rewrite Havail.
    set (self := ChemLLM.__init__ Model Tokenizer load_tokenizer load_model
                   to_device TORCH_AVAILABLE cuda) in *.
    destruct (ChemLLM.is_loaded self) eqn:Hl.
    + specialize (Hloaded eq_refl).
      assert (Hstatus : assoc "status"
                          (ChemLLM.get_model_info Model Tokenizer
                             TORCH_AVAILABLE self)
                        = Some (PStr "loaded")).
      { unfold ChemLLM.get_model_info. rewrite Hen, Hloaded, Havail.
        reflexivity. }
      clearbody self.
      destruct (assoc "max_length" d), (assoc "temperature" d),
        (assoc "top_p" d); cbn [rbind ok]; rewrite Hne; cbn;
        (repeat split; try assumption;
         eexists; split; [reflexivity | apply ChemLLMFacts.generate_nonempty]).
    + assert (Hstatus : In (assoc "status"
                              (ChemLLM.get_model_info Model Tokenizer
                                 TORCH_AVAILABLE self))
                          [Some (PStr "dependencies_missing");
                           Some (PStr "not_loaded")]).
      { unfold ChemLLM.get_model_info. rewrite Hen, Havail.
        destruct TORCH_AVAILABLE; simpl; tauto. }
      clearbody self.
      destruct (assoc "max_length" d), (assoc "temperature" d),
        (assoc "top_p" d); cbn [rbind ok]; rewrite Hne; cbn;
        repeat split; assumption.
Qed.

Variable process_message : string -> Z -> world -> result string * world.
Variable enhanced_save_conversation :
  Z -> string -> string -> world -> result unit * world.

(** X23.  Without a logged-in user no handler but [login] changes anything:
    the five JSON handlers answer 'Not authenticated' with status 401,
    whatever the request, before the body is read, the chatbot asked
    or the model consulted; [index] serves the front page and [logout]
    redirects to it. *)
Theorem anonymous_requests_change_nothing (w : world)
    (request_json : result pyval) (experiment_id : Z) :
  session w = None ->
  delete_experiment experiment_id w = (not_authenticated, w)
  /\ send_chat_message process_message enhanced_save_conversation
       request_json w = (not_authenticated, w)
  /\ clear_chat_history w = (not_authenticated, w)
  /\ chemllm_status Model Tokenizer TORCH_AVAILABLE chemllm w
     = (not_authenticated, w)
  /\ generate request_json w = (not_authenticated, w)
  /\ index w = (Render "frontpage.html", w)
  /\ logout w = (Redirect "index", w)
  /\ status not_authenticated = Some 401.
Proof.
  intros Hs.
  unfold delete_experiment, send_chat_message, clear_chat_history,
    chemllm_status, chemllm_generate, index, logout.
  rewrite Hs. repeat split.
  destruct w as [se d c]. cbn in *. now subst se.
Qed.

End Llm.

Lemma login_keeps_accounts_unique_witness :
  let w' := snd (login "POST" (credentials "Eve" "student") lab_world) in
  accounts_unique w' /\ users_keyed w'
  /\ exists added,
      users (view (db w')) = (users (view (db lab_world)) ++ added)%list.
Proof.
  apply (login_keeps_accounts_unique "POST" (credentials "Eve" "student")
           lab_world).
  - unfold accounts_unique. cbn.
    repeat constructor; simpl; intuition discriminate.
  - unfold users_keyed. cbn. split.
    + repeat constructor; simpl; intuition discriminate.
    + repeat constructor; cbn; lia.
Defined.

Lemma login_again_same_account_witness :
  let w1 := snd (login "POST" (credentials "Ada" "student") lab_world) in
  let w2 :=
    snd (login "POST"
           (("institution", "Caltech") :: credentials "Ada" "student") w1) in
  session w2 = session w1
  /\ users (view (db w2)) = users (view (db w1))
  /\ next_user_id (db w2) = next_user_id (db w1).
Proof.
  apply (login_again_same_account (credentials "Ada" "student")
           (("institution", "Caltech") :: credentials "Ada" "student")
           "Ada" "student" lab_world); reflexivity.
Defined.

Lemma login_logout_round_trip_witness :
  let w1 := snd (login "POST" (credentials "Eve" "student") lab_world) in
  let w2 := snd (logout w1) in
  fst (index w2) = Render "frontpage.html"
  /\ session w2 = None
  /\ List.length (activity_logs (view (db w2))) = 2%nat.
Proof.
  destruct (login_logout_round_trip (credentials "Eve" "student")
              "Eve" "student" lab_world eq_refl eq_refl)
    as (_ & _ & Hfront & Hnone & (u & _ & _ & Hlog) & _).
  cbv zeta. rewrite Hlog. repeat split; assumption.
Defined.

Lemma delete_experiment_only_own_witness :
  delete_experiment 11 ada_world = (not_found, ada_world)
  /\ experiments_of 2 (snd (delete_experiment 10 ada_world))
     = [distillation].
Proof.
  assert (Hkeys : NoDup (map e_id (experiments (view (db ada_world))))).
  { cbn. repeat constructor; simpl; intuition discriminate. }
  split.
  - apply (proj1 (proj2 (delete_experiment_only_own 11 ada_world
                           (session_of ada) eq_refl Hkeys)) distillation).
    + cbn. tauto.
    + reflexivity.
    + discriminate.
  - rewrite (proj1 (delete_experiment_only_own 10 ada_world
                      (session_of ada) eq_refl Hkeys) 2); [reflexivity|].
    discriminate.
Defined.

Lemma delete_experiment_twice_witness :
  let w1 := snd (delete_experiment 10 ada_world) in
  delete_experiment 10 w1 = (not_found, w1)
  /\ experiments (view (db w1)) = [distillation].
Proof.
  split.
  - apply (delete_experiment_twice 10 ada_world (session_of ada) eq_refl).
  - reflexivity.
Defined.

Lemma clear_chat_history_only_own_witness :
  let w' := snd (clear_chat_history ada_world) in
  messages_of 1 w' = [] /\ messages_of 2 w' = messages_of 2 ada_world.
Proof.
  destruct (clear_chat_history_only_own ada_world (session_of ada) eq_refl)
    as (_ & Hown & Hothers & _).
  split; [exact Hown | apply Hothers; discriminate].
Defined.

Lemma save_conversation_appends_pair_witness :
  messages_keyed (save_conversation 1 "pH of water?" "7" ada_world)
  /\ List.length
       (chat_messages
          (view (db (save_conversation 1 "pH of water?" "7" ada_world))))
     = 4%nat.
Proof.
  assert (Hkeys : messages_keyed ada_world).
  { unfold messages_keyed. cbn. split.
    - repeat constructor; simpl; intuition discriminate.
    - repeat constructor; cbn; lia. }
  destruct (save_conversation_appends_pair 1 "pH of water?" "7" ada_world
              Hkeys) as (Hk & _ & Hrows & _).
  split; [exact Hk | reflexivity].
Defined.

Lemma blank_message_rejected_witness :
  send_chat_message parrot parrot_save
    (ok (PDict [("message", PStr "   ")])) ada_world
  = (empty_message, ada_world).
Proof.
  apply (blank_message_rejected parrot parrot_save
           [("message", PStr "   ")] ada_world (session_of ada) eq_refl).
  right. exists "   ". split; [reflexivity|].
  unfold blank. cbn. repeat constructor.
Defined.

Lemma chat_message_outcomes_witness :
  status (fst (send_chat_message parrot parrot_save
                 (ok (PDict [("message", PStr " hi there ")])) ada_world))
  = Some 200.
Proof.
  assert (Hblank : ~ blank " hi there ").
  { intros H. apply strip_blank in H. discriminate. }
  destruct (chat_message_outcomes parrot parrot_save
              [("message", PStr " hi there ")] " hi there " ada_world
              (session_of ada) eq_refl eq_refl Hblank) as (Hok & _).
  rewrite (Hok "You said: hi there" ada_world
             (save_conversation 1 "hi there" "You said: hi there" ada_world)
             eq_refl eq_refl).
  reflexivity.
Defined.

Lemma chemllm_generate_gate_witness :
  status
    (fst (chemllm_generate unit unit ChemLLMTerms.echo_infer true
            (ChemLLMTerms.echo_llm true false)
            (ok (PDict [("prompt", PStr " formula of platinum ")]))
            ada_world))
  = Some 200.
Proof.
  assert (Hblank : ~ blank " formula of platinum ").
  { intros H. apply strip_blank in H. discriminate. }
  pose proof (proj1 (proj2 (chemllm_generate_gate unit unit
                       (fun _ => ok tt) (fun _ _ => ok tt) (fun m _ => ok m)
                       ChemLLMTerms.echo_infer true false
                       [("prompt", PStr " formula of platinum ")]
                       ada_world (session_of ada) eq_refl))
                " formula of platinum " eq_refl Hblank) as H.
  assert (Hl : ChemLLM.is_loaded (ChemLLMTerms.echo_llm true false) = true)
    by reflexivity.
  unfold ChemLLMTerms.echo_llm in *. rewrite Hl in H.
  exact (proj1 H).
Defined.

Lemma anonymous_requests_change_nothing_witness :
  clear_chat_history lab_world = (not_authenticated, lab_world)
  /\ delete_experiment 10 lab_world = (not_authenticated, lab_world).
Proof.
  destruct (anonymous_requests_change_nothing unit unit
              (fun _ => ok tt) (fun _ _ => ok tt) (fun m _ => ok m)
              ChemLLMTerms.echo_infer true false parrot parrot_save
              lab_world (ok PNone) 10 eq_refl)
    as (Hdelete & _ & Hclear & _).
  split; assumption.
Defined.

End SiteFacts.
